(** * MoltGate: the x402 payment gateway, embedded and verified

    A shallow embedding of the gateway's request pipeline
    (idempotency, signature validation, replay protection, payment gate,
    proxy handler), of its policy registry, configuration loader, TTL
    cache and discovery generator, followed by the theorems that settle
    the specification's claims against that code.

    Conventions of the embedding.
    - A JavaScript string is a [string] of bytes (its UTF-8 encoding).
    - A JavaScript number that the gateway only uses as an integer
      (status codes, timestamps, timeouts, protocol version) is a [Z].
    - An object used as a dictionary ([process.env], header maps, the
      [Map] inside the TTL cache) is a [gmap string _].
    - Mutable state shared between requests (the two caches) and the
      clock read by [Date.now()] are threaded explicitly as a [World].
    - Platform functions the repository calls but does not define
      (base64/JSON decoding of a header, the facilitator and upstream
      round trips) are fields of the [Platform] class; what Express's
      body parser makes of a request's body is an argument of [app]. *)

From Stdlib Require Import ZArith Lia Ascii DecimalString DecimalPos.
From stdpp Require Import base option list strings gmap fin_maps.

#[local] Open Scope Z_scope.
Set Warnings "-register-all".

(* ===================================================================== *)
(** * Part I: the model                                                   *)
(* ===================================================================== *)

(** ** JavaScript primitives used by the gateway *)

Module Js.

(** [String.prototype.toUpperCase] / [toLowerCase] on the ASCII range
    (HTTP methods and header names are ASCII tokens). *)
Definition upper_char (c : ascii) : ascii :=
  let n := nat_of_ascii c in
  if ((97 <=? n) && (n <=? 122))%nat then ascii_of_nat (n - 32) else c.

Definition lower_char (c : ascii) : ascii :=
  let n := nat_of_ascii c in
  if ((65 <=? n) && (n <=? 90))%nat then ascii_of_nat (n + 32) else c.

Fixpoint map_string (f : ascii -> ascii) (s : string) : string :=
  match s with
  | EmptyString => EmptyString
  | String c r => String (f c) (map_string f r)
  end.

Definition toUpperCase : string -> string := map_string upper_char.
Definition toLowerCase : string -> string := map_string lower_char.

(** [Array.prototype.join] on an array of strings. *)
Fixpoint join (sep : string) (parts : list string) : string :=
  match parts with
  | [] => ""
  | [x] => x
  | x :: rest => x +:+ sep +:+ join sep rest
  end.

(** Truthiness of a string: only the empty string is falsy. *)
Definition truthy (s : string) : bool := negb (String.eqb s "").

(** Truthiness of [string | undefined]. *)
Definition truthy_opt (o : option string) : bool :=
  match o with Some s => truthy s | None => false end.

(** A [string | undefined] interpolated in a template literal or joined
    in an array. Interpolation prints [undefined]; [join] prints nothing. *)
Definition interpolate (o : option string) : string := default "undefined" o.
Definition join_item (o : option string) : string := default "" o.

(** Decimal rendering of an integer-valued number or of a [bigint]. *)
Definition Z_to_string (z : Z) : string := NilZero.string_of_int (Z.to_int z).

(** *** [BigInt(string)]: the StringToBigInt grammar

    Leading and trailing white space is dropped; the empty rest is [0n];
    otherwise the rest is an optionally signed run of decimal digits, or
    an unsigned [0x]/[0o]/[0b] literal. Anything else throws
    [SyntaxError], rendered here as [None]. *)

Definition byte_is (c : ascii) (n : nat) : bool := (nat_of_ascii c =? n)%nat.

(** The code point that starts [s] is StrWhiteSpaceChar; its length in
    bytes, [0] when [s] does not start with white space. *)
Definition ws_len (s : string) : nat :=
  match s with
  | String c r =>
      let n := nat_of_ascii c in
      if ((n =? 9) || (n =? 10) || (n =? 11) || (n =? 12) || (n =? 13) || (n =? 32))%nat
      then 1%nat
      else match r with
      | String c1 r1 =>
          let n1 := nat_of_ascii c1 in
          if ((n =? 194) && (n1 =? 160))%nat then 2%nat (* U+00A0 *)
          else match r1 with
          | String c2 _ =>
              let n2 := nat_of_ascii c2 in
              if ((n =? 225) && (n1 =? 154) && (n2 =? 128))%nat then 3%nat (* U+1680 *)
              else if ((n =? 226) && (n1 =? 128)
                       && (((128 <=? n2) && (n2 <=? 138)) (* U+2000..U+200A *)
                           || (n2 =? 168) || (n2 =? 169) (* U+2028, U+2029 *)
                           || (n2 =? 175)))%nat (* U+202F *)
              then 3%nat
              else if ((n =? 226) && (n1 =? 129) && (n2 =? 159))%nat then 3%nat (* U+205F *)
              else if ((n =? 227) && (n1 =? 128) && (n2 =? 128))%nat then 3%nat (* U+3000 *)
              else if ((n =? 239) && (n1 =? 187) && (n2 =? 191))%nat then 3%nat (* U+FEFF *)
              else 0%nat
          | EmptyString => 0%nat
          end
      | EmptyString => 0%nat
      end
  | EmptyString => 0%nat
  end.

Fixpoint drop_string (n : nat) (s : string) : string :=
  match n, s with
  | O, _ => s
  | S n', String _ r => drop_string n' r
  | S _, EmptyString => EmptyString
  end.

(** Strip leading white space; [fuel] bounds the number of code points. *)
Fixpoint trim_start_fuel (fuel : nat) (s : string) : string :=
  match fuel with
  | O => s
  | S fuel' =>
      match ws_len s with
      | O => s
      | n => trim_start_fuel fuel' (drop_string n s)
      end
  end.

Definition trim_start (s : string) : string := trim_start_fuel (String.length s) s.

Definition all_white (s : string) : bool :=
  String.eqb (trim_start s) "".

Fixpoint trim_end (s : string) : string :=
  match s with
  | EmptyString => EmptyString
  | String c r => if all_white s then EmptyString else String c (trim_end r)
  end.

Definition trim (s : string) : string := trim_end (trim_start s).

Definition digit_value (c : ascii) : option Z :=
  let n := nat_of_ascii c in
  if ((48 <=? n) && (n <=? 57))%nat then Some (Z.of_nat (n - 48))
  else if ((97 <=? n) && (n <=? 102))%nat then Some (Z.of_nat (n - 87))
  else if ((65 <=? n) && (n <=? 70))%nat then Some (Z.of_nat (n - 55))
  else None.

Definition digit_in (radix : Z) (c : ascii) : option Z :=
  match digit_value c with
  | Some d => if d <? radix then Some d else None
  | None => None
  end.

Fixpoint digits_from (radix acc : Z) (s : string) : option Z :=
  match s with
  | EmptyString => Some acc
  | String c r =>
      match digit_in radix c with
      | Some d => digits_from radix (acc * radix + d) r
      | None => None
      end
  end.

(** One or more digits of the radix, and nothing else. *)
Definition digits (radix : Z) (s : string) : option Z :=
  match s with
  | EmptyString => None
  | _ => digits_from radix 0 s
  end.

Definition StringToBigInt (s : string) : option Z :=
  match trim s with
  | EmptyString => Some 0
  | String c r as t =>
      if byte_is c 43 then digits 10 r                       (* + *)
      else if byte_is c 45 then Z.opp <$> digits 10 r        (* - *)
      else match r with
      | String p q =>
          if byte_is c 48 && (byte_is p 120 || byte_is p 88) then digits 16 q
          else if byte_is c 48 && (byte_is p 111 || byte_is p 79) then digits 8 q
          else if byte_is c 48 && (byte_is p 98 || byte_is p 66) then digits 2 q
          else digits 10 t
      | EmptyString => digits 10 t
      end
  end.

(** [parseInt(s, 10)]: leading white space and one sign are skipped and
    the longest run of decimal digits is read; no digit gives [NaN],
    rendered as [None]. The value is the exact integer, which is what
    [parseInt] returns up to 2^53 (every port number is); beyond that
    [parseInt] rounds to a double and the two differ. *)
Fixpoint digit_run (acc : Z) (s : string) : Z :=
  match s with
  | EmptyString => acc
  | String c r =>
      match digit_in 10 c with
      | Some d => digit_run (acc * 10 + d) r
      | None => acc
      end
  end.

Definition starts_with_digit (s : string) : bool :=
  match s with
  | String c _ => bool_decide (is_Some (digit_in 10 c))
  | EmptyString => false
  end.

Definition parseInt10 (s : string) : option Z :=
  match trim_start s with
  | EmptyString => None
  | String c r as t =>
      if byte_is c 43 then (if starts_with_digit r then Some (digit_run 0 r) else None)
      else if byte_is c 45 then (if starts_with_digit r then Some (- digit_run 0 r) else None)
      else if starts_with_digit t then Some (digit_run 0 t) else None
  end.

(** A number interpolated in a template literal ([NaN] for no number). *)
Definition number_to_string (n : option Z) : string :=
  match n with Some z => Z_to_string z | None => "NaN" end.

End Js.

(** ** JSON values, [JSON.stringify] and base64 *)

Module Json.

Inductive t : Type :=
  | JNull
  | JBool (b : bool)
  | JNum (n : Z)
  | JStr (s : string)
  | JArr (items : list t)
  | JObj (fields : list (string * t)).

Definition hex_digit (n : nat) : ascii :=
  if (n <? 10)%nat then ascii_of_nat (48 + n) else ascii_of_nat (87 + n).

Definition dquote : ascii := ascii_of_nat 34.
Definition backslash : ascii := ascii_of_nat 92.

(** QuoteJSONString, one code unit at a time. *)
Definition escape_char (c : ascii) : string :=
  let n := nat_of_ascii c in
  if (n =? 34)%nat then String backslash (String dquote "")
  else if (n =? 92)%nat then String backslash (String backslash "")
  else if (n =? 8)%nat then String backslash "b"
  else if (n =? 9)%nat then String backslash "t"
  else if (n =? 10)%nat then String backslash "n"
  else if (n =? 12)%nat then String backslash "f"
  else if (n =? 13)%nat then String backslash "r"
  else if (n <? 32)%nat then
    String backslash ("u00" +:+ String (hex_digit (n / 16)) (String (hex_digit (n mod 16)) ""))
  else String c "".

Fixpoint escape (s : string) : string :=
  match s with
  | EmptyString => EmptyString
  | String c r => escape_char c +:+ escape r
  end.

Definition quote (s : string) : string :=
  String dquote (escape s +:+ String dquote "").

(** [JSON.stringify(value)] without indentation. *)
Fixpoint stringify (j : t) : string :=
  match j with
  | JNull => "null"
  | JBool true => "true"
  | JBool false => "false"
  | JNum n => Js.Z_to_string n
  | JStr s => quote s
  | JArr items => "[" +:+ Js.join "," (map stringify items) +:+ "]"
  | JObj fields =>
      "{" +:+ Js.join "," (map (fun kv => let '(k, v) := kv in
                                          quote k +:+ ":" +:+ stringify v) fields)
          +:+ "}"
  end.

(** Object literal helpers: an optional member is spread only when set. *)
Definition member (k : string) (v : t) : list (string * t) := [(k, v)].
Definition member_opt (k : string) (v : option t) : list (string * t) :=
  match v with Some x => [(k, x)] | None => [] end.

End Json.

Module Base64.

Definition alphabet : string :=
  "ABCDEFGHIJKLMNOPQRSTUVWXYZabcdefghijklmnopqrstuvwxyz0123456789+/".

Definition pad : ascii := ascii_of_nat 61.

Definition sextet (n : nat) : ascii :=
  default pad (String.get n alphabet).

(** [Buffer.from(s).toString("base64")]: three bytes give four symbols,
    a short tail is padded with [=]. *)
Fixpoint encode (s : string) : string :=
  match s with
  | EmptyString => EmptyString
  | String a EmptyString =>
      let x := nat_of_ascii a in
      String (sextet (x / 4)) (String (sextet ((x mod 4) * 16)) (String pad (String pad "")))
  | String a (String b EmptyString) =>
      let x := nat_of_ascii a in
      let y := nat_of_ascii b in
      String (sextet (x / 4))
        (String (sextet ((x mod 4) * 16 + y / 16))
           (String (sextet ((y mod 16) * 4)) (String pad "")))
  | String a (String b (String c r)) =>
      let x := nat_of_ascii a in
      let y := nat_of_ascii b in
      let z := nat_of_ascii c in
      String (sextet (x / 4))
        (String (sextet ((x mod 4) * 16 + y / 16))
           (String (sextet ((y mod 16) * 4 + z / 64))
              (String (sextet (z mod 64)) (encode r))))
  end.

(** The value of a symbol of the alphabet. *)
Definition value_of (c : ascii) : option nat :=
  let n := nat_of_ascii c in
  if ((65 <=? n) && (n <=? 90))%nat then Some (n - 65)%nat
  else if ((97 <=? n) && (n <=? 122))%nat then Some (n - 71)%nat
  else if ((48 <=? n) && (n <=? 57))%nat then Some (n + 4)%nat
  else if (n =? 43)%nat then Some 62%nat
  else if (n =? 47)%nat then Some 63%nat
  else None.

(** Reading padded base64 back, as the tests' [decodeHeader] does with
    [Buffer.from(text, "base64")]; text that is not padded base64 is
    [None] here (Node skips what it cannot read). *)
Fixpoint decode (s : string) : option string :=
  match s with
  | EmptyString => Some EmptyString
  | String a (String b (String c (String d r))) =>
      match value_of a, value_of b with
      | Some i, Some j =>
          let x := ascii_of_nat (i * 4 + j / 16) in
          if Js.byte_is c 61 then
            if Js.byte_is d 61 && String.eqb r "" then Some (String x "") else None
          else
            match value_of c with
            | Some k =>
                let y := ascii_of_nat ((j mod 16) * 16 + k / 4) in
                if Js.byte_is d 61 then
                  if String.eqb r "" then Some (String x (String y "")) else None
                else
                  match value_of d, decode r with
                  | Some l, Some rest =>
                      Some (String x (String y (String (ascii_of_nat ((k mod 4) * 64 + l)) rest)))
                  | _, _ => None
                  end
            | None => None
            end
      | _, _ => None
      end
  | _ => None
  end.

End Base64.

(** [toBase64(obj)] of paymentRequired.ts:
    [Buffer.from(JSON.stringify(obj)).toString("base64")]. *)
Definition toBase64 (obj : Json.t) : string := Base64.encode (Json.stringify obj).

(** ** packages/policy: protocol types, the policy engine and its builder *)

Inductive HttpMethod := GET | POST | PUT | DELETE | PATCH.

#[global] Instance HttpMethod_eq_dec : EqDecision HttpMethod.
Proof. solve_decision. Defined.

(** The string a [HttpMethod] value is at run time. *)
Definition method_name (m : HttpMethod) : string :=
  match m with
  | GET => "GET" | POST => "POST" | PUT => "PUT"
  | DELETE => "DELETE" | PATCH => "PATCH"
  end.

Module SchemaField.
Record t := mk {
  type : string;
  description : option string;
  required : option bool;
  example : option Json.t;
}.
End SchemaField.

Module EndpointSchema.
Record t := mk {
  method : string;
  query : option (list (string * SchemaField.t));
  body : option (list (string * SchemaField.t));
  output : list (string * SchemaField.t);
}.
End EndpointSchema.

Module RoutePolicy.
Record t := mk {
  path : string;
  method : HttpMethod;
  scheme : string;
  network : string;
  asset : string;
  maxAmountRequired : string;
  payTo : string;
  description : string;
  mimeType : string;
  maxTimeoutSeconds : Z;
  extra : option (list (string * Json.t));
  outputSchema : option EndpointSchema.t;
}.
End RoutePolicy.

Module PaymentAccept.
Record t := mk {
  scheme : string;
  network : string;
  maxAmountRequired : string;
  resource : string;
  description : string;
  mimeType : string;
  payTo : string;
  maxTimeoutSeconds : Z;
  asset : string;
  extra : option (list (string * Json.t));
}.
(** The object literal of [buildAccept], in its key order. *)
Definition to_json (a : t) : Json.t :=
  Json.JObj (Json.member "scheme" (Json.JStr (scheme a))
             ++ Json.member "network" (Json.JStr (network a))
             ++ Json.member "maxAmountRequired" (Json.JStr (maxAmountRequired a))
             ++ Json.member "resource" (Json.JStr (resource a))
             ++ Json.member "description" (Json.JStr (description a))
             ++ Json.member "mimeType" (Json.JStr (mimeType a))
             ++ Json.member "payTo" (Json.JStr (payTo a))
             ++ Json.member "maxTimeoutSeconds" (Json.JNum (maxTimeoutSeconds a))
             ++ Json.member "asset" (Json.JStr (asset a))
             ++ Json.member_opt "extra" (Json.JObj <$> extra a)).
End PaymentAccept.

Module PaymentRequirements.
Record t := mk {
  x402Version : Z;
  accepts : list PaymentAccept.t;
}.
Definition to_json (r : t) : Json.t :=
  Json.JObj (Json.member "x402Version" (Json.JNum (x402Version r))
             ++ Json.member "accepts" (Json.JArr (PaymentAccept.to_json <$> accepts r))).
End PaymentRequirements.

Module PaymentReceipt.
Record t := mk {
  txHash : option string;
  network : string;
  payer : string;
  amount : string;
  timestamp : Z;
  settled : bool;
}.
Definition to_json (r : t) : Json.t :=
  Json.JObj (Json.member_opt "txHash" (Json.JStr <$> txHash r)
             ++ Json.member "network" (Json.JStr (network r))
             ++ Json.member "payer" (Json.JStr (payer r))
             ++ Json.member "amount" (Json.JStr (amount r))
             ++ Json.member "timestamp" (Json.JNum (timestamp r))
             ++ Json.member "settled" (Json.JBool (settled r))).
End PaymentReceipt.

Module FacilitatorVerifyResponse.
Record t := mk {
  valid : bool;
  payer : string;
  amount : string;
  network : string;
  txHash : option string;
}.
End FacilitatorVerifyResponse.

Module FacilitatorSettleResponse.
Record t := mk {
  settled : bool;
  txHash : string;
  network : string;
  timestamp : Z;
}.
End FacilitatorSettleResponse.

(** A thrown [Error] carries its message. *)
Inductive Result (A : Type) : Type :=
  | Ok (a : A)
  | Throw (message : string).
Arguments Ok {A} a.
Arguments Throw {A} message.

Module PolicyEngine.

(** [private policies: RoutePolicy[] = []] *)
Abbreviation t := (list RoutePolicy.t).

Definition empty : t := [].

(** [add(...items)]: [this.policies.push(...items)]. *)
Definition add (items : list RoutePolicy.t) (engine : t) : t := engine ++ items.

(** [match(path, method)]: the first policy whose path is [path] and whose
    method is the upper-cased [method]. *)
Definition matches (path method : string) (p : RoutePolicy.t) : bool :=
  String.eqb (RoutePolicy.path p) path
  && String.eqb (method_name (RoutePolicy.method p)) (Js.toUpperCase method).

Definition match_ (path method : string) (engine : t) : option RoutePolicy.t :=
  List.find (matches path method) engine.

(** [all()]: a copy of the array. *)
Definition all (engine : t) : list RoutePolicy.t := engine.

(** [isProxy(path)]: [path.startsWith("/proxy/")]. *)
Definition isProxy (path : string) : bool := String.prefix "/proxy/" path.

Definition toAccept (policy : RoutePolicy.t) (resource : string) : PaymentAccept.t :=
  {| PaymentAccept.scheme := RoutePolicy.scheme policy;
     PaymentAccept.network := RoutePolicy.network policy;
     PaymentAccept.maxAmountRequired := RoutePolicy.maxAmountRequired policy;
     PaymentAccept.resource := resource;
     PaymentAccept.description := RoutePolicy.description policy;
     PaymentAccept.mimeType := RoutePolicy.mimeType policy;
     PaymentAccept.payTo := RoutePolicy.payTo policy;
     PaymentAccept.maxTimeoutSeconds := RoutePolicy.maxTimeoutSeconds policy;
     PaymentAccept.asset := RoutePolicy.asset policy;
     PaymentAccept.extra := RoutePolicy.extra policy |}.

Definition toRequirements (accept : PaymentAccept.t) : PaymentRequirements.t :=
  {| PaymentRequirements.x402Version := 2;
     PaymentRequirements.accepts := [accept] |}.

End PolicyEngine.

Module PolicyBuilder.

(** [Partial<RoutePolicy> & { path: string }] *)
Record t := mk {
  path : string;
  method : option HttpMethod;
  scheme : option string;
  network : option string;
  asset : option string;
  maxAmountRequired : option string;
  payTo : option string;
  description : option string;
  mimeType : option string;
  maxTimeoutSeconds : option Z;
  extra : option (list (string * Json.t));
  outputSchema : option EndpointSchema.t;
}.

(** [policy(path)] / the constructor. *)
Definition policy (path : string) : t :=
  {| path := path; method := None; scheme := Some "exact"; network := None;
     asset := None; maxAmountRequired := None; payTo := None; description := None;
     mimeType := Some "application/json"; maxTimeoutSeconds := Some 60;
     extra := None; outputSchema := None |}.

Definition set_method (m : HttpMethod) (b : t) : t :=
  mk (path b) (Some m) (scheme b) (network b) (asset b) (maxAmountRequired b)
     (payTo b) (description b) (mimeType b) (maxTimeoutSeconds b) (extra b) (outputSchema b).
Definition get : t -> t := set_method GET.
Definition post : t -> t := set_method POST.

Definition costs (amount asset' : string) (b : t) : t :=
  mk (path b) (method b) (scheme b) (network b) (Some asset') (Some amount)
     (payTo b) (description b) (mimeType b) (maxTimeoutSeconds b) (extra b) (outputSchema b).

Definition on (network' : string) (b : t) : t :=
  mk (path b) (method b) (scheme b) (Some network') (asset b) (maxAmountRequired b)
     (payTo b) (description b) (mimeType b) (maxTimeoutSeconds b) (extra b) (outputSchema b).

Definition payTo_ (addr : string) (b : t) : t :=
  mk (path b) (method b) (scheme b) (network b) (asset b) (maxAmountRequired b)
     (Some addr) (description b) (mimeType b) (maxTimeoutSeconds b) (extra b) (outputSchema b).

Definition describe (desc : string) (b : t) : t :=
  mk (path b) (method b) (scheme b) (network b) (asset b) (maxAmountRequired b)
     (payTo b) (Some desc) (mimeType b) (maxTimeoutSeconds b) (extra b) (outputSchema b).

Definition ioSchema (schema : EndpointSchema.t) (b : t) : t :=
  mk (path b) (method b) (scheme b) (network b) (asset b) (maxAmountRequired b)
     (payTo b) (description b) (mimeType b) (maxTimeoutSeconds b) (extra b) (Some schema).

(** [build()]: the five presence checks, in the source's order; the
    fields the constructor always sets are read back with their
    constructor defaults. *)
Definition build (b : t) : Result RoutePolicy.t :=
  match method b with
  | None => Throw "PolicyBuilder: method is required"
  | Some m =>
    if negb (Js.truthy_opt (network b)) then Throw "PolicyBuilder: network is required (.on())"
    else if negb (Js.truthy_opt (asset b)) || negb (Js.truthy_opt (maxAmountRequired b))
    then Throw "PolicyBuilder: cost is required (.costs())"
    else if negb (Js.truthy_opt (payTo b)) then Throw "PolicyBuilder: payTo is required"
    else if negb (Js.truthy_opt (description b))
    then Throw "PolicyBuilder: description is required (.describe())"
    else Ok {| RoutePolicy.path := path b;
               RoutePolicy.method := m;
               RoutePolicy.scheme := default "exact" (scheme b);
               RoutePolicy.network := default "" (network b);
               RoutePolicy.asset := default "" (asset b);
               RoutePolicy.maxAmountRequired := default "" (maxAmountRequired b);
               RoutePolicy.payTo := default "" (payTo b);
               RoutePolicy.description := default "" (description b);
               RoutePolicy.mimeType := default "application/json" (mimeType b);
               RoutePolicy.maxTimeoutSeconds := default 60 (maxTimeoutSeconds b);
               RoutePolicy.extra := extra b;
               RoutePolicy.outputSchema := outputSchema b |}
  end.

End PolicyBuilder.

(** ** apps/gateway/src/config.ts *)

Module Config.

(** [process.env]: a variable is absent or holds a string. *)
Definition Env := gmap string string.

Record t := mk {
  network : string;
  facilitatorUrl : string;
  payTo : string;
  amountMicroStx : string;
  mockPayments : bool;
  port : option Z;
  upstreamUrl : string;
  baseUrl : option string;
  publicBaseUrl : string;
}.

(** [a ?? b] on [string | undefined]. *)
Definition nullish (a : option string) (b : option string) : option string :=
  match a with Some v => Some v | None => b end.

(** [required(name, fallback)] *)
Definition required (env : gmap string string) (name : string) (fallback : option string)
  : Result string :=
  let val := nullish (env !! name) fallback in
  if negb (Js.truthy_opt val) then Throw ("Missing required env var: " +:+ name)
  else Ok (default "" val).

(** [bool(name, fallback)] *)
Definition bool (env : gmap string string) (name : string) (fallback : bool) : bool :=
  match env !! name with
  | None => fallback
  | Some raw => String.eqb raw "true" || String.eqb raw "1"
  end.

(** [process.env.MOCK_PAYMENTS !== "false"], the guard of both fallbacks. *)
Definition mock_not_false (env : gmap string string) : Datatypes.bool :=
  negb (bool_decide (env !! "MOCK_PAYMENTS" = Some "false")).

(** Evaluation of the [config] object literal, member by member; the
    first [required] that throws aborts the module's import. *)
Definition load (env : gmap string string) : Result t :=
  let network := default "stacks:2147483648" (env !! "NETWORK") in
  let facilitatorUrl := default "https://facilitator.stacksx402.com" (env !! "FACILITATOR_URL") in
  match required env "PAY_TO"
          (if mock_not_false env then Some "ST1PQHQKV0RJXZFY1DGX8MNSNYVE3VGZJSRTPGZGM" else None) with
  | Throw e => Throw e
  | Ok payTo =>
    match required env "AMOUNT_MICROSTX"
            (if mock_not_false env then Some "100000" else None) with
    | Throw e => Throw e
    | Ok amountMicroStx =>
      let port := Js.parseInt10 (default "3000" (env !! "PORT")) in
      Ok {| network := network;
            facilitatorUrl := facilitatorUrl;
            payTo := payTo;
            amountMicroStx := amountMicroStx;
            mockPayments := bool env "MOCK_PAYMENTS" true;
            port := port;
            upstreamUrl := default "http://localhost:4000" (env !! "UPSTREAM_URL");
            baseUrl := env !! "BASE_URL";
            publicBaseUrl :=
              default ("http://localhost:" +:+ Js.number_to_string port)
                      (nullish (env !! "PUBLIC_BASE_URL") (env !! "BASE_URL")) |}
    end
  end.

End Config.

(** ** apps/gateway/src/utils/cache.ts *)

Module TtlCache.

Record CacheEntry (T : Type) := mkEntry {
  value : T;
  expiresAt : Z;
}.
Arguments mkEntry {T} value expiresAt.
Arguments value {T} _.
Arguments expiresAt {T} _.

(** The [Map] and the default time to live. The sweep timer only calls
    [sweep]; it is an event of the environment, not a field. *)
Record t (T : Type) := mk {
  store : gmap string (CacheEntry T);
  defaultTtlMs : Z;
}.
Arguments mk {T} store defaultTtlMs.
Arguments store {T} _.
Arguments defaultTtlMs {T} _.

Definition new {T} (defaultTtlMs : Z) : t T := mk ∅ defaultTtlMs.

Definition with_store {T} (c : t T) (m : gmap string (CacheEntry T)) : t T :=
  mk m (defaultTtlMs c).

(** [set(key, value)] at time [now], with the default time to live. *)
Definition set {T} (now : Z) (key : string) (v : T) (c : t T) : t T :=
  with_store c (<[key := mkEntry v (now + defaultTtlMs c)]> (store c)).

(** [get(key)] at time [now]: an expired entry is deleted on the way. *)
Definition get {T} (now : Z) (key : string) (c : t T) : option T * t T :=
  match store c !! key with
  | None => (None, c)
  | Some entry =>
      if expiresAt entry <=? now then (None, with_store c (delete key (store c)))
      else (Some (value entry), c)
  end.

(** [has(key)]: [this.get(key) !== undefined]. *)
Definition has {T} (now : Z) (key : string) (c : t T) : bool * t T :=
  let '(r, c') := get now key c in (bool_decide (is_Some r), c').

Definition delete_ {T} (key : string) (c : t T) : bool * t T :=
  (bool_decide (is_Some (store c !! key)), with_store c (delete key (store c))).

(** [sweep()] at time [now]. *)
Definition sweep {T} (now : Z) (c : t T) : t T :=
  with_store c (filter (fun kv => now < expiresAt kv.2) (store c)).

Definition size {T} (now : Z) (c : t T) : nat * t T :=
  let c' := sweep now c in (size (store c'), c').

Definition clear {T} (c : t T) : t T := with_store c ∅.

End TtlCache.

(** ** packages/schema: the x402scan discovery generator *)

Module X402AcceptEntry.
Record t := mk {
  network : string;
  resource : string;
  scheme : string;
  payTo : string;
  maxAmountRequired : string;
  asset : string;
  description : string;
  mimeType : string;
  maxTimeoutSeconds : Z;
  outputSchema : EndpointSchema.t;
}.
End X402AcceptEntry.

Module DiscoveryOptions.
Record t := mk {
  name : option string;
  description : option string;
  image : option string;
  publicBaseUrl : string;
}.
End DiscoveryOptions.

Module X402Discovery.
Record t := mk {
  x402Version : Z;
  name : string;
  description : string;
  image : string;
  url : string;
  accepts : list X402AcceptEntry.t;
}.
End X402Discovery.

Module Discovery.

(** [s.replace(/\/+$/, "")]: the run of slashes that ends the string goes. *)
Fixpoint strip_trailing_slashes (s : string) : string :=
  match s with
  | EmptyString => EmptyString
  | String c r =>
      let r' := strip_trailing_slashes r in
      if Js.byte_is c 47 && String.eqb r' "" then EmptyString else String c r'
  end.

Definition fallbackSchema (p : RoutePolicy.t) : EndpointSchema.t :=
  {| EndpointSchema.method := method_name (RoutePolicy.method p);
     EndpointSchema.query := None;
     EndpointSchema.body := None;
     EndpointSchema.output :=
       [("data", {| SchemaField.type := "object";
                    SchemaField.description := Some "Response payload";
                    SchemaField.required := None;
                    SchemaField.example := None |})] |}.

Definition policyToAccept (p : RoutePolicy.t) (publicBaseUrl : string) : X402AcceptEntry.t :=
  let resource := strip_trailing_slashes publicBaseUrl +:+ RoutePolicy.path p in
  {| X402AcceptEntry.network := "stacks";
     X402AcceptEntry.resource := resource;
     X402AcceptEntry.scheme := RoutePolicy.scheme p;
     X402AcceptEntry.payTo := RoutePolicy.payTo p;
     X402AcceptEntry.maxAmountRequired := RoutePolicy.maxAmountRequired p;
     X402AcceptEntry.asset := RoutePolicy.asset p;
     X402AcceptEntry.description := RoutePolicy.description p;
     X402AcceptEntry.mimeType := RoutePolicy.mimeType p;
     X402AcceptEntry.maxTimeoutSeconds := RoutePolicy.maxTimeoutSeconds p;
     X402AcceptEntry.outputSchema :=
       default (fallbackSchema p) (RoutePolicy.outputSchema p) |}.

Definition generateDiscovery (engine : PolicyEngine.t) (opts : DiscoveryOptions.t)
  : X402Discovery.t :=
  let publicBaseUrl := DiscoveryOptions.publicBaseUrl opts in
  {| X402Discovery.x402Version := 2;
     X402Discovery.name := default "moltgate" (DiscoveryOptions.name opts);
     X402Discovery.description :=
       default "x402 payment gateway" (DiscoveryOptions.description opts);
     X402Discovery.image :=
       default (strip_trailing_slashes publicBaseUrl +:+ "/logo.png")
               (DiscoveryOptions.image opts);
     X402Discovery.url := publicBaseUrl;
     X402Discovery.accepts :=
       map (fun p => policyToAccept p publicBaseUrl) (PolicyEngine.all engine) |}.

End Discovery.

(** ** apps/gateway/src/policies.ts: the gateway's registry *)

Module Policies.

Definition field (type : string) (required : option bool) (description example : option string)
  : SchemaField.t :=
  {| SchemaField.type := type;
     SchemaField.description := description;
     SchemaField.required := required;
     SchemaField.example := Json.JStr <$> example |}.

Definition echo (config : Config.t) : PolicyBuilder.t :=
  PolicyBuilder.ioSchema
    {| EndpointSchema.method := "GET";
       EndpointSchema.query :=
         Some [("msg", field "string" (Some false) (Some "Message to echo back")
                             (Some "hello world"))];
       EndpointSchema.body := None;
       EndpointSchema.output :=
         [("echo", field "string" None (Some "The echoed message") None);
          ("ts", field "string" None (Some "ISO-8601 timestamp of the response") None)] |}
    (PolicyBuilder.describe "Premium echo endpoint — returns your message (x402 protected)"
       (PolicyBuilder.payTo_ (Config.payTo config)
          (PolicyBuilder.on (Config.network config)
             (PolicyBuilder.costs (Config.amountMicroStx config) "STX"
                (PolicyBuilder.get (PolicyBuilder.policy "/v1/premium/echo")))))).

Definition weather (config : Config.t) : PolicyBuilder.t :=
  PolicyBuilder.ioSchema
    {| EndpointSchema.method := "GET";
       EndpointSchema.query :=
         Some [("city", field "string" (Some true) (Some "City name to look up weather for")
                              (Some "Tokyo"))];
       EndpointSchema.body := None;
       EndpointSchema.output :=
         [("city", field "string" None (Some "Resolved city name") None);
          ("tempC", field "number" None (Some "Temperature in Celsius") None);
          ("tempF", field "number" None (Some "Temperature in Fahrenheit") None);
          ("humidity", field "number" None (Some "Humidity percentage") None);
          ("conditions", field "string" None
             (Some "Weather conditions (sunny, cloudy, rainy, snowy, windy)") None);
          ("source", field "string" None (Some "Data source identifier") None)] |}
    (PolicyBuilder.describe "Weather lookup — proxied upstream, 10 µSTX per call"
       (PolicyBuilder.payTo_ (Config.payTo config)
          (PolicyBuilder.on (Config.network config)
             (PolicyBuilder.costs "10" "STX"
                (PolicyBuilder.get (PolicyBuilder.policy "/proxy/api/weather")))))).

Definition summarize (config : Config.t) : PolicyBuilder.t :=
  PolicyBuilder.ioSchema
    {| EndpointSchema.method := "POST";
       EndpointSchema.query := None;
       EndpointSchema.body :=
         Some [("text", field "string" (Some true) (Some "Text content to summarize")
                              (Some "MoltGate is an open-source x402 payment gateway..."))];
       EndpointSchema.output :=
         [("summary", field "string" None (Some "Truncated summary of the input text") None);
          ("wordCount", field "number" None (Some "Number of words in the input") None);
          ("charCount", field "number" None (Some "Number of characters in the input") None);
          ("source", field "string" None (Some "Data source identifier") None)] |}
    (PolicyBuilder.describe "Text summarization — proxied upstream, 50 µSTX per call"
       (PolicyBuilder.payTo_ (Config.payTo config)
          (PolicyBuilder.on (Config.network config)
             (PolicyBuilder.costs "50" "STX"
                (PolicyBuilder.post (PolicyBuilder.policy "/proxy/api/summarize")))))).

(** [engine.add(echo.build(), weather.build(), summarize.build())]: the
    arguments are built left to right and the first throw aborts the import. *)
Definition engine (config : Config.t) : Result PolicyEngine.t :=
  match PolicyBuilder.build (echo config) with
  | Throw e => Throw e
  | Ok p1 =>
    match PolicyBuilder.build (weather config) with
    | Throw e => Throw e
    | Ok p2 =>
      match PolicyBuilder.build (summarize config) with
      | Throw e => Throw e
      | Ok p3 => Ok (PolicyEngine.add [p1; p2; p3] PolicyEngine.empty)
      end
    end
  end.

End Policies.

(** ** apps/gateway/src/types.ts *)

Module X402_HEADERS.
Definition REQUIRED : string := "payment-required".
Definition SIGNATURE : string := "payment-signature".
Definition RESPONSE : string := "payment-response".
End X402_HEADERS.

Module PaymentPayload.
(** The decoded [payment-signature] header. The source casts the parsed
    JSON to this interface and then checks every required member for
    [undefined], [null] and the empty string, so each member is optional
    here: [None] stands for [undefined] or [null]. *)
Record t := mk {
  x402Version : option Z;
  scheme : option string;
  network : option string;
  asset : option string;
  payTo : option string;
  amount : option string;
  nonce : option string;
  signature : option string;
  resource : option string;
  memo : option string;
}.
End PaymentPayload.

(** [keyof PaymentPayload], restricted to the required members. *)
Inductive PayloadField :=
  | F_x402Version | F_scheme | F_network | F_asset | F_payTo
  | F_amount | F_nonce | F_signature | F_resource.

Definition field_name (f : PayloadField) : string :=
  match f with
  | F_x402Version => "x402Version" | F_scheme => "scheme" | F_network => "network"
  | F_asset => "asset" | F_payTo => "payTo" | F_amount => "amount"
  | F_nonce => "nonce" | F_signature => "signature" | F_resource => "resource"
  end.

Definition PAYMENT_PAYLOAD_REQUIRED_FIELDS : list PayloadField :=
  [F_x402Version; F_scheme; F_network; F_asset; F_payTo;
   F_amount; F_nonce; F_signature; F_resource].

(** ** HTTP requests and responses (what the gateway uses of Express) *)

(** A member of [req.headers]: a string, or an array of strings. Node
    delivers arrays only for headers such as [set-cookie]; the named
    reads below ([payment-signature], [idempotency-key], [host]) are of
    headers it always delivers as one string. *)
Inductive HeaderValue :=
  | HStr (s : string)
  | HArr (values : list string).

Module Request.
Record t := mk {
  method : string;
  path : string;
  originalUrl : string;
  protocol : string;
  headers : gmap string HeaderValue;
  query : gmap string string;
  body : Json.t;
}.
(** [req.headers[name] as string | undefined] *)
Definition header (name : string) (req : t) : option string :=
  match headers req !! name with
  | Some (HStr s) => Some s
  | _ => None
  end.
(** [req.body = body], as the body parser assigns it. *)
Definition with_body (body : Json.t) (req : t) : t :=
  mk (method req) (path req) (originalUrl req) (protocol req) (headers req) (query req) body.
End Request.

(** How a response body was sent: [res.json(value)] or [res.send(text)]. *)
Inductive Body :=
  | JsonBody (value : Json.t)
  | TextBody (text : string).

(** A reply as the code made it: the status it set, the headers it set
    with [res.set], the body it sent. What Express and Node add on their
    own on the way out ([content-length], [date], the [content-type] of
    [res.json], a charset) is not part of it. *)
Module Response.
Record t := mk {
  status : Z;
  headers : gmap string string;
  body : Body;
}.
End Response.

(** ** apps/gateway/src/middleware/idempotency.ts: cached replies *)

Module CachedResponse.
Record t := mk {
  status : Z;
  headers : gmap string string;
  body : Json.t;
}.
End CachedResponse.

(** ** The state shared by requests, and the clock *)

Module World.
Record t := mk {
  now : Z;                                        (* Date.now() *)
  idempotencyCache : TtlCache.t CachedResponse.t;
  replayNonces : TtlCache.t unit;                 (* TtlCache<true> *)
}.
Definition initial (now : Z) : t :=
  mk now (TtlCache.new (10 * 60 * 1000)) (TtlCache.new (5 * 60 * 1000)).
Definition with_idempotencyCache (w : t) (c : TtlCache.t CachedResponse.t) : t :=
  mk (now w) c (replayNonces w).
Definition with_replayNonces (w : t) (c : TtlCache.t unit) : t :=
  mk (now w) (idempotencyCache w) c.
(** Time passes between requests. *)
Definition at_time (t' : Z) (w : t) : t := mk t' (idempotencyCache w) (replayNonces w).
End World.

(** ** The response under construction: Express's [res] *)

Module Res.
Record t := mk {
  statusCode : Z;
  headers : gmap string string;
  paymentPayload : option PaymentPayload.t;      (* res.locals.paymentPayload *)
  receipt : option PaymentReceipt.t;             (* res.locals.receipt *)
  capture : option string;   (* the key under which idempotency() wrapped res.json *)
}.
Definition fresh : t := mk 200 ∅ None None None.

(** [res.status(code)] *)
Definition status (code : Z) (res : t) : t :=
  mk code (headers res) (paymentPayload res) (receipt res) (capture res).
(** [res.set(name, value)]: the header as the code sets it. The map
    holds the value the code passed; what Express itself does to a
    value on the way out (it completes a [content-type] that names no
    charset) is not part of it, so under [content-type] the map says
    what the gateway asked for, not the completed value on the wire. *)
Definition set (name value : string) (res : t) : t :=
  mk (statusCode res) (<[name := value]> (headers res)) (paymentPayload res)
     (receipt res) (capture res).
(** [res.getHeader(name)] *)
Definition getHeader (name : string) (res : t) : option string := headers res !! name.
Definition set_paymentPayload (p : PaymentPayload.t) (res : t) : t :=
  mk (statusCode res) (headers res) (Some p) (receipt res) (capture res).
Definition set_receipt (r : PaymentReceipt.t) (res : t) : t :=
  mk (statusCode res) (headers res) (paymentPayload res) (Some r) (capture res).
(** [res.json = (body) => { ... }] installed by idempotency() under [key]. *)
Definition wrap_json (key : string) (res : t) : t :=
  mk (statusCode res) (headers res) (paymentPayload res) (receipt res) (Some key).

(** [headersToCache]: the [payment-response] header, when it is set. *)
Definition headersToCache (res : t) : gmap string string :=
  match getHeader X402_HEADERS.RESPONSE res with
  | Some pr => if Js.truthy pr then {[ X402_HEADERS.RESPONSE := pr ]} else ∅
  | None => ∅
  end.

(** The wrapper's body: only a 2xx reply is stored under the key,
    together with [headersToCache]. *)
Definition captured (key : string) (body : Json.t) (res : t) (w : World.t) : World.t :=
  if (200 <=? statusCode res) && (statusCode res <? 300) then
    World.with_idempotencyCache w
      (TtlCache.set (World.now w) key
         {| CachedResponse.status := statusCode res;
            CachedResponse.headers := headersToCache res;
            CachedResponse.body := body |}
         (World.idempotencyCache w))
  else w.

(** [res.json(body)]: through the wrapper when one is installed, then
    the reply goes out. *)
Definition json (body : Json.t) (res : t) (w : World.t) : Response.t * World.t :=
  ({| Response.status := statusCode res;
      Response.headers := headers res;
      Response.body := JsonBody body |},
   match capture res with
   | Some key => captured key body res w
   | None => w
   end).

(** [res.send(text)]: the wrapper is not involved. *)
Definition send (text : string) (res : t) (w : World.t) : Response.t * World.t :=
  ({| Response.status := statusCode res;
      Response.headers := headers res;
      Response.body := TextBody text |}, w).

(** An exception no middleware catches reaches Express's error handler:
    status 500, sent without [res.json]. *)
Definition uncaught (message : string) (res : t) (w : World.t) : Response.t * World.t :=
  send message (status 500 res) w.

End Res.

(** The rest of the stack, as a middleware sees it through [next()]. *)
Definition Next := Res.t -> World.t -> Response.t * World.t.

(** [{ success: false, error }] *)
Definition error_body (message : string) : Json.t :=
  Json.JObj [("success", Json.JBool false); ("error", Json.JStr message)].

(** ** Platform functions the gateway calls *)

(** A facilitator round trip: [fetch] rejected or the ok body was not
    JSON (both throw with a message), a reply that is not ok (read with
    [res.text()]), or an ok reply read with [res.json()] as [A]. *)
Inductive FacilitatorReply (A : Type) : Type :=
  | Rejected (message : string)
  | NotOk (status : Z) (text : string)
  | OkJson (a : A).
Arguments Rejected {A} message.
Arguments NotOk {A} status text.
Arguments OkJson {A} a.

Module Upstream.
Record t := mk {
  status : Z;
  headers : list (string * string);   (* upstream.headers.entries() *)
  text : string;                      (* the body as sent *)
}.
(** [upstream.ok] *)
Definition ok (u : t) : bool := (200 <=? status u) && (status u <? 300).
End Upstream.

(** What [decodePayload(raw)] comes to:
    [JSON.parse(Buffer.from(raw, "base64").toString("utf-8"))] throws, or
    returns [null], or returns a value whose members are then read
    through the [PaymentPayload] interface (a number, a string or an
    array has none of them). *)
Inductive Decoded :=
  | NotJson (message : string)
  | Null
  | Parsed (payload : PaymentPayload.t).

Class Platform := {
  decodePayload : string -> Decoded;
  (** [JSON.parse(text)] of an upstream body. *)
  parseJson : string -> Result Json.t;
  (** [fetch(url, { method: "POST", body: JSON.stringify({ paymentSignature,
      requirements }) })] against the facilitator. *)
  postVerify : string -> string -> PaymentAccept.t
               -> FacilitatorReply FacilitatorVerifyResponse.t;
  postSettle : string -> string -> PaymentAccept.t
               -> FacilitatorReply FacilitatorSettleResponse.t;
  (** [fetch(target, { method, headers, body })] of the proxy; [Throw]
      when the upstream cannot be reached. *)
  fetchUpstream : string -> string -> gmap string string -> option string
                  -> Result Upstream.t;
  (** [new Date(ms).toISOString()] *)
  toISOString : Z -> string;
}.

(** ** apps/gateway/src/utils/facilitator.ts *)

Section Facilitator.
Context `{Platform}.

Definition verifyPayment (config : Config.t) (paymentSignature : string)
    (requirements : PaymentAccept.t) : Result FacilitatorVerifyResponse.t :=
  match postVerify (Config.facilitatorUrl config +:+ "/verify") paymentSignature requirements with
  | Rejected message => Throw message
  | NotOk status text =>
      Throw ("Facilitator /verify failed (" +:+ Js.Z_to_string status +:+ "): " +:+ text)
  | OkJson v => Ok v
  end.

Definition settlePayment (config : Config.t) (paymentSignature : string)
    (requirements : PaymentAccept.t) : Result FacilitatorSettleResponse.t :=
  match postSettle (Config.facilitatorUrl config +:+ "/settle") paymentSignature requirements with
  | Rejected message => Throw message
  | NotOk status text =>
      Throw ("Facilitator /settle failed (" +:+ Js.Z_to_string status +:+ "): " +:+ text)
  | OkJson v => Ok v
  end.

End Facilitator.

(** ** The running gateway: its configuration and its registry *)

Module Gateway.
Record t := mk {
  config : Config.t;
  engine : PolicyEngine.t;
}.
(** Start-up: config.ts is imported, then policies.ts. *)
Definition boot (env : gmap string string) : Result t :=
  match Config.load env with
  | Throw e => Throw e
  | Ok config =>
    match Policies.engine config with
    | Throw e => Throw e
    | Ok engine => Ok (mk config engine)
    end
  end.
(** [findPolicy(path, method)] of policies.ts. *)
Definition findPolicy (gw : t) (path method : string) : option RoutePolicy.t :=
  PolicyEngine.match_ path method (engine gw).
Definition isProxyRoute (path : string) : bool := PolicyEngine.isProxy path.
End Gateway.

(** [buildAccept(policy, req)], defined alike in validateSignature.ts and
    in paymentRequired.ts. *)
Definition buildAccept (gw : Gateway.t) (policy : RoutePolicy.t) (req : Request.t)
  : PaymentAccept.t :=
  let base :=
    match Config.baseUrl (Gateway.config gw) with
    | Some b => b
    | None => Request.protocol req +:+ "://" +:+ Js.interpolate (Request.header "host" req)
    end in
  {| PaymentAccept.scheme := RoutePolicy.scheme policy;
     PaymentAccept.network := RoutePolicy.network policy;
     PaymentAccept.maxAmountRequired := RoutePolicy.maxAmountRequired policy;
     PaymentAccept.resource := base +:+ RoutePolicy.path policy;
     PaymentAccept.description := RoutePolicy.description policy;
     PaymentAccept.mimeType := RoutePolicy.mimeType policy;
     PaymentAccept.payTo := RoutePolicy.payTo policy;
     PaymentAccept.maxTimeoutSeconds := RoutePolicy.maxTimeoutSeconds policy;
     PaymentAccept.asset := RoutePolicy.asset policy;
     PaymentAccept.extra := RoutePolicy.extra policy |}.

Definition buildRequirements (accept : PaymentAccept.t) : PaymentRequirements.t :=
  {| PaymentRequirements.x402Version := 2;
     PaymentRequirements.accepts := [accept] |}.

(** ** apps/gateway/src/middleware/idempotency.ts *)

Definition idempotencyKey (token method path : string) : string :=
  "idem:" +:+ Js.toUpperCase method +:+ ":" +:+ path +:+ ":" +:+ token.

(** The reply of a cache hit: the stored headers are set one by one, then
    [res.status(cached.status).json(cached.body)]. *)
Definition replay (cached : CachedResponse.t) (res : Res.t) (w : World.t)
  : Response.t * World.t :=
  Res.json (CachedResponse.body cached)
    (Res.status (CachedResponse.status cached)
       (map_fold (fun h v r => Res.set h v r) res (CachedResponse.headers cached)))
    w.

Definition idempotency (req : Request.t) (res : Res.t) (w : World.t) (next : Next)
  : Response.t * World.t :=
  match Request.header "idempotency-key" req with
  | None => next res w
  | Some token =>
    if negb (Js.truthy token) then next res w
    else
      let key := idempotencyKey token (Request.method req) (Request.path req) in
      let '(cached, cache) := TtlCache.get (World.now w) key (World.idempotencyCache w) in
      let w' := World.with_idempotencyCache w cache in
      match cached with
      | Some c => replay c res w'
      | None => next (Res.wrap_json key res) w'
      end
  end.

(** ** apps/gateway/src/middleware/validateSignature.ts *)

Section Middleware.
Context `{Platform}.

(** [val === undefined || val === null || val === ""] for [payload[f]]. *)
Definition absent (o : option string) : bool :=
  match o with None => true | Some s => String.eqb s "" end.

Definition is_missing (payload : PaymentPayload.t) (f : PayloadField) : bool :=
  match f with
  | F_x402Version => bool_decide (PaymentPayload.x402Version payload = None)
  | F_scheme => absent (PaymentPayload.scheme payload)
  | F_network => absent (PaymentPayload.network payload)
  | F_asset => absent (PaymentPayload.asset payload)
  | F_payTo => absent (PaymentPayload.payTo payload)
  | F_amount => absent (PaymentPayload.amount payload)
  | F_nonce => absent (PaymentPayload.nonce payload)
  | F_signature => absent (PaymentPayload.signature payload)
  | F_resource => absent (PaymentPayload.resource payload)
  end.

Definition missing_fields (payload : PaymentPayload.t) : list PayloadField :=
  List.filter (is_missing payload) PAYMENT_PAYLOAD_REQUIRED_FIELDS.

(** One push of the cross-reference: [name: expected ..., got ...] when
    the payload's member differs from the offer's. *)
Definition mismatch (name expected : string) (got : option string) : list string :=
  if bool_decide (got = Some expected) then []
  else [name +:+ ": expected " +:+ expected +:+ ", got " +:+ Js.interpolate got].

Definition mismatches (payload : PaymentPayload.t) (accept : PaymentAccept.t) : list string :=
  mismatch "network" (PaymentAccept.network accept) (PaymentPayload.network payload)
  ++ mismatch "asset" (PaymentAccept.asset accept) (PaymentPayload.asset payload)
  ++ mismatch "payTo" (PaymentAccept.payTo accept) (PaymentPayload.payTo payload)
  ++ mismatch "scheme" (PaymentAccept.scheme accept) (PaymentPayload.scheme payload).

(** [BigInt(payload.amount)]; [undefined] throws as a bad string does. *)
Definition BigInt (o : option string) : option Z :=
  match o with Some s => Js.StringToBigInt s | None => None end.

Definition reject (code : Z) (message : string) (res : Res.t) (w : World.t)
  : Response.t * World.t :=
  Res.json (error_body message) (Res.status code res) w.

Definition validateSignature (gw : Gateway.t) (req : Request.t) (res : Res.t) (w : World.t)
    (next : Next) : Response.t * World.t :=
  match Request.header X402_HEADERS.SIGNATURE req with
  | None => next res w
  | Some raw =>
    if negb (Js.truthy raw) then next res w
    else
      (* 1. decode *)
      match decodePayload raw with
      | NotJson _ => reject 400 "PAYMENT-SIGNATURE is not valid base64-encoded JSON" res w
      | Null =>
          (* 2. [payload[f]] on [null] throws outside the try *)
          Res.uncaught "Cannot read properties of null (reading 'x402Version')" res w
      | Parsed payload =>
        (* 2. mandatory fields *)
        let missing := missing_fields payload in
        if negb (bool_decide (missing = [])) then
          reject 400 ("PAYMENT-SIGNATURE missing required fields: "
                      +:+ Js.join ", " (field_name <$> missing)) res w
        (* 3. version *)
        else if negb (bool_decide (PaymentPayload.x402Version payload = Some 2)) then
          reject 400 ("Unsupported x402Version: "
                      +:+ Js.interpolate (Js.Z_to_string <$> PaymentPayload.x402Version payload)
                      +:+ " (expected 2)") res w
        else
          (* 4. cross-reference *)
          match Gateway.findPolicy gw (Request.path req) (Request.method req) with
          | None => next (Res.set_paymentPayload payload res) w
          | Some policy =>
            let accept := buildAccept gw policy req in
            let mm := mismatches payload accept in
            if negb (bool_decide (mm = [])) then
              reject 400 ("PAYMENT-SIGNATURE does not match offer: " +:+ Js.join "; " mm) res w
            else
              (* 5. amount *)
              match Js.StringToBigInt (PaymentAccept.maxAmountRequired accept) with
              | None =>
                  Res.uncaught ("Cannot convert " +:+ PaymentAccept.maxAmountRequired accept
                                +:+ " to a BigInt") res w
              | Some offeredAmount =>
                match BigInt (PaymentPayload.amount payload) with
                | None =>
                    reject 400 "PAYMENT-SIGNATURE amount is not a valid integer string" res w
                | Some paidAmount =>
                  if paidAmount <? offeredAmount then
                    reject 400 ("Insufficient payment: required "
                                +:+ PaymentAccept.maxAmountRequired accept +:+ ", got "
                                +:+ Js.interpolate (PaymentPayload.amount payload)) res w
                  else next (Res.set_paymentPayload payload res) w
                end
              end
          end
      end
  end.

(** ** replayProtection.ts *)

Definition extractNonceKey (payload : PaymentPayload.t) : string :=
  let parts :=
    [PaymentPayload.nonce payload]
    ++ (if Js.truthy_opt (PaymentPayload.memo payload) then [PaymentPayload.memo payload] else []) in
  "nonce:" +:+ Js.join ":" (Js.join_item <$> parts).

Definition replayProtection (req : Request.t) (res : Res.t) (w : World.t) (next : Next)
  : Response.t * World.t :=
  match Request.header (Js.toLowerCase X402_HEADERS.SIGNATURE) req with
  | None => next res w
  | Some raw =>
    if negb (Js.truthy raw) then next res w
    else
      match Res.paymentPayload res with
      | None => next res w
      | Some payload =>
        let nonceKey := extractNonceKey payload in
        let '(seen, nonces) := TtlCache.has (World.now w) nonceKey (World.replayNonces w) in
        let w1 := World.with_replayNonces w nonces in
        if seen then
          reject 409 "Replay detected: payment nonce has already been used" res w1
        else
          (* marked as seen before settlement *)
          next res (World.with_replayNonces w1
                      (TtlCache.set (World.now w1) nonceKey () (World.replayNonces w1)))
      end
  end.

(** ** paymentRequired.ts *)

Definition mockReceipt (gw : Gateway.t) (payload : PaymentPayload.t) (now : Z)
  : PaymentReceipt.t :=
  {| PaymentReceipt.txHash :=
       Some "0x0000000000000000000000000000000000000000000000000000000000000000";
     PaymentReceipt.network := Config.network (Gateway.config gw);
     PaymentReceipt.payer := "ST1MOCK000000000000000000000000000000000";
     PaymentReceipt.amount := Js.join_item (PaymentPayload.amount payload);
     PaymentReceipt.timestamp := now;
     PaymentReceipt.settled := true |}.

Definition paymentRequired (gw : Gateway.t) (req : Request.t) (res : Res.t) (w : World.t)
    (next : Next) : Response.t * World.t :=
  match Gateway.findPolicy gw (Request.path req) (Request.method req) with
  | None => next res w                       (* not a paid route *)
  | Some policy =>
    let accept := buildAccept gw policy req in
    match Res.paymentPayload res with
    | None =>
        let requirements := PaymentRequirements.to_json (buildRequirements accept) in
        Res.json requirements
          (Res.set X402_HEADERS.REQUIRED (toBase64 requirements) (Res.status 402 res)) w
    | Some payload =>
      if Config.mockPayments (Gateway.config gw) then
        let receipt := mockReceipt gw payload (World.now w) in
        next (Res.set_receipt receipt
                (Res.set X402_HEADERS.RESPONSE (toBase64 (PaymentReceipt.to_json receipt)) res)) w
      else
        let rawSig := Js.join_item (Request.header X402_HEADERS.SIGNATURE req) in
        match verifyPayment (Gateway.config gw) rawSig accept with
        | Throw message => reject 502 message res w
        | Ok verification =>
          if negb (FacilitatorVerifyResponse.valid verification) then
            reject 401 "Payment signature verification failed" res w
          else
            match settlePayment (Gateway.config gw) rawSig accept with
            | Throw message => reject 502 message res w
            | Ok settlement =>
              let receipt :=
                {| PaymentReceipt.txHash := Some (FacilitatorSettleResponse.txHash settlement);
                   PaymentReceipt.network := FacilitatorSettleResponse.network settlement;
                   PaymentReceipt.payer := FacilitatorVerifyResponse.payer verification;
                   PaymentReceipt.amount := FacilitatorVerifyResponse.amount verification;
                   PaymentReceipt.timestamp := FacilitatorSettleResponse.timestamp settlement;
                   PaymentReceipt.settled := FacilitatorSettleResponse.settled settlement |} in
              next (Res.set_receipt receipt
                      (Res.set X402_HEADERS.RESPONSE (toBase64 (PaymentReceipt.to_json receipt)) res)) w
            end
        end
    end
  end.

(** The protected stack of index.ts (lines 45-48), in its order. The
    body parser of line 19 has run before it: see [expressJson] and
    [app] below for a request as it arrives. *)
Definition protected (gw : Gateway.t) (req : Request.t) (w : World.t) (handler : Next)
  : Response.t * World.t :=
  idempotency req Res.fresh w (fun res1 w1 =>
    validateSignature gw req res1 w1 (fun res2 w2 =>
      replayProtection req res2 w2 (fun res3 w3 =>
        paymentRequired gw req res3 w3 handler))).

End Middleware.

(** ** Route handlers

    A handler reads the request and [res] and answers by setting
    headers, possibly a status, and sending a body with [res.json] or
    [res.send]. *)

Module Reply.
Record t := mk {
  headers : list (string * string);   (* res.set calls, in order *)
  status : option Z;                  (* res.status call, if any *)
  body : Body;
}.
End Reply.

Definition Handler := Request.t -> Res.t -> World.t -> Reply.t.

Definition respond (r : Reply.t) (res : Res.t) (w : World.t) : Response.t * World.t :=
  let res1 := foldl (fun acc hv => Res.set hv.1 hv.2 acc) res (Reply.headers r) in
  let res2 := match Reply.status r with Some code => Res.status code res1 | None => res1 end in
  match Reply.body r with
  | JsonBody value => Res.json value res2 w
  | TextBody text => Res.send text res2 w
  end.

Definition serve (handler : Handler) (req : Request.t) : Next :=
  fun res w => respond (handler req res w) res w.

Section Handlers.
Context `{Platform}.

(** routes/premium.ts: [GET /v1/premium/echo]. *)
Definition echoHandler : Handler := fun req res w =>
  let msg := default "" (Request.query req !! "msg") in
  {| Reply.headers := [];
     Reply.status := None;
     Reply.body :=
       JsonBody (Json.JObj
         (Json.member "success" (Json.JBool true)
          ++ Json.member "data"
               (Json.JObj [("echo", Json.JStr msg);
                           ("ts", Json.JStr (toISOString (World.now w)))])
          ++ Json.member_opt "receipt" (PaymentReceipt.to_json <$> Res.receipt res))) |}.

(** *** middleware/proxy.ts *)

Definition STRIP_PREFIX : string := "/proxy".

Definition HOP_BY_HOP : gset string :=
  list_to_set ["connection"; "keep-alive"; "proxy-authenticate"; "proxy-authorization";
               "te"; "trailer"; "transfer-encoding"; "upgrade"; "host"; "content-length"].

Definition PAYMENT_HEADERS : gset string :=
  list_to_set [X402_HEADERS.REQUIRED; X402_HEADERS.SIGNATURE; X402_HEADERS.RESPONSE].

Definition SUPPRESS_UPSTREAM : gset string := HOP_BY_HOP ∪ {[ "content-length" ]}.

(** One turn of the loop of [buildUpstreamHeaders]. *)
Definition forward_header (key : string) (value : HeaderValue) (out : gmap string string)
  : gmap string string :=
  let lower := Js.toLowerCase key in
  if bool_decide (lower ∈ HOP_BY_HOP) then out
  else if bool_decide (lower ∈ PAYMENT_HEADERS) then out
  else match value with
       | HStr s => <[key := s]> out
       | HArr values => <[key := Js.join ", " values]> out
       end.

Definition buildUpstreamHeaders (incoming : Request.t) : gmap string string :=
  map_fold forward_header ∅ (Request.headers incoming).

Definition hasBody (req : Request.t) : bool :=
  negb (String.eqb (Request.method req) "GET") && negb (String.eqb (Request.method req) "HEAD").

(** The [headers] the proxy passes to [fetch]. *)
Definition upstreamHeaders (req : Request.t) : gmap string string :=
  let headers := buildUpstreamHeaders req in
  if hasBody req && negb (Js.truthy_opt (headers !! "content-type"))
  then <["content-type" := "application/json"]> headers
  else headers.

Definition includes (needle hay : string) : bool :=
  bool_decide (is_Some (String.index 0 needle hay)).

(** [upstream.headers.get(name)] over the entries. *)
Definition headers_get (name : string) (entries : list (string * string)) : option string :=
  snd <$> List.find (fun kv => String.eqb (Js.toLowerCase kv.1) name) entries.

Definition bad_gateway (headers : list (string * string)) (message : string) : Reply.t :=
  {| Reply.headers := headers;
     Reply.status := Some 502;
     Reply.body := JsonBody (error_body message) |}.

(** What the handler makes of the outcome of [fetch]: the [catch] for a
    call that threw, the relay of the upstream's reply otherwise. *)
Definition relay (outcome : Result Upstream.t) (res : Res.t) : Reply.t :=
  match outcome with
  | Throw message => bad_gateway [] message
  | Ok upstream =>
    (* relay the upstream's headers, then set payment-response again *)
    let relayed :=
      List.filter (fun kv => negb (bool_decide (Js.toLowerCase kv.1 ∈ SUPPRESS_UPSTREAM)))
                  (Upstream.headers upstream) in
    let res1 := foldl (fun acc hv => Res.set hv.1 hv.2 acc) res relayed in
    let again :=
      match Res.getHeader X402_HEADERS.RESPONSE res1 with
      | Some pr => if Js.truthy pr then [(X402_HEADERS.RESPONSE, pr)] else []
      | None => []
      end in
    let ct := default "" (headers_get "content-type" (Upstream.headers upstream)) in
    let isJson := includes "application/json" ct in
    if isJson then
      match parseJson (Upstream.text upstream) with
      | Throw message => bad_gateway (relayed ++ again) message
      | Ok upstreamBody =>
        {| Reply.headers := relayed ++ again;
           Reply.status := Some (Upstream.status upstream);
           Reply.body :=
             JsonBody
               match Res.receipt res with
               | Some receipt =>
                   Json.JObj [("success", Json.JBool (Upstream.ok upstream));
                              ("data", upstreamBody);
                              ("receipt", PaymentReceipt.to_json receipt)]
               | None => upstreamBody
               end |}
      end
    else
      {| Reply.headers := relayed ++ again;
         Reply.status := Some (Upstream.status upstream);
         Reply.body := TextBody (Upstream.text upstream) |}
  end.

(** [proxyHandler(req, res)]: the one call to the upstream, and [relay]
    of its outcome. *)
Definition proxyHandler (gw : Gateway.t) : Handler := fun req res w =>
  let upstreamBase := Discovery.strip_trailing_slashes (Config.upstreamUrl (Gateway.config gw)) in
  let upstreamPath := Js.drop_string (String.length STRIP_PREFIX) (Request.originalUrl req) in
  let target := upstreamBase +:+ upstreamPath in
  let headers := upstreamHeaders req in
  let body := if hasBody req then Some (Json.stringify (Request.body req)) else None in
  relay (fetchUpstream target (Request.method req) headers body) res.

(** One request through the protected stack and a handler: a request
    that has passed the body parser of line 19 ([req.body] is
    assigned) and is for none of the public routes of lines 24-34. *)
Definition handle (gw : Gateway.t) (handler : Handler) (req : Request.t) (w : World.t)
  : Response.t * World.t :=
  protected gw req w (serve handler req).

End Handlers.

(** ** apps/gateway/src/index.ts: the body parser in front of the stack

    [app.use(express.json())] (line 19) runs before every route and
    before the protected stack. The parser is Express's, not the
    repository's, so what it makes of a request's body is an input
    here: it assigns [req.body] (the parsed value, or [{}] when the
    request has no JSON body), or it refuses the body with an error
    that carries a status (400 for a body that is not JSON, 413 for one
    over the size limit). The error goes to Express's error handler,
    which answers with that status; no later middleware and no route
    runs. *)
Inductive ParsedBody :=
  | BodyOk (body : Json.t)
  | BodyError (status : Z) (message : string).

Definition expressJson (parsed : ParsedBody) (req : Request.t) (w : World.t)
    (next : Request.t -> World.t -> Response.t * World.t) : Response.t * World.t :=
  match parsed with
  | BodyOk body => next (Request.with_body body req) w
  | BodyError status message => Res.send message (Res.status status Res.fresh) w
  end.

Section App.
Context `{Platform}.

(** A request as the app receives it, when it is for none of the public
    routes of lines 24-34: the body parser (line 19), the protected
    stack (lines 45-48), then the route's handler (lines 53-58). *)
Definition app (gw : Gateway.t) (handler : Handler) (req : Request.t)
    (parsed : ParsedBody) (w : World.t) : Response.t * World.t :=
  expressJson parsed req w (handle gw handler).

End App.

(** ** packages/policy: the builder's other setters *)

Module PolicyBuilderApi.
Import PolicyBuilder.

Definition put : PolicyBuilder.t -> PolicyBuilder.t := set_method PUT.
Definition delete : PolicyBuilder.t -> PolicyBuilder.t := set_method DELETE.
Definition patch : PolicyBuilder.t -> PolicyBuilder.t := set_method PATCH.
(** [method(m)] *)
Definition method_ : HttpMethod -> PolicyBuilder.t -> PolicyBuilder.t := set_method.

Definition mime (type : string) (b : PolicyBuilder.t) : PolicyBuilder.t :=
  mk (path b) (method b) (scheme b) (network b) (asset b) (maxAmountRequired b)
     (payTo b) (description b) (Some type) (maxTimeoutSeconds b) (extra b) (outputSchema b).

Definition timeout (seconds : Z) (b : PolicyBuilder.t) : PolicyBuilder.t :=
  mk (path b) (method b) (scheme b) (network b) (asset b) (maxAmountRequired b)
     (payTo b) (description b) (mimeType b) (Some seconds) (extra b) (outputSchema b).

Definition scheme_ (s : string) (b : PolicyBuilder.t) : PolicyBuilder.t :=
  mk (path b) (method b) (Some s) (network b) (asset b) (maxAmountRequired b)
     (payTo b) (description b) (mimeType b) (maxTimeoutSeconds b) (extra b) (outputSchema b).

Definition extra_ (e : list (string * Json.t)) (b : PolicyBuilder.t) : PolicyBuilder.t :=
  mk (path b) (method b) (scheme b) (network b) (asset b) (maxAmountRequired b)
     (payTo b) (description b) (mimeType b) (maxTimeoutSeconds b) (Some e) (outputSchema b).

End PolicyBuilderApi.

(** ** packages/autopay: signer.ts *)

Module Autopay.

Module StacksAccount.
Record t := mk {
  address : string;
  privateKey : string;    (* hex-encoded: its code units are its bytes *)
}.
End StacksAccount.





End Autopay.

(** ** apps/gateway/src/index.ts: the discovery route's options *)

Module Index.

Definition discoveryOptions (config : Config.t) : DiscoveryOptions.t :=
  {| DiscoveryOptions.name := Some "MoltGate Gateway";
     DiscoveryOptions.description := Some "x402 v2 payment gateway for the Stacks ecosystem";
     DiscoveryOptions.image := None;
     DiscoveryOptions.publicBaseUrl := Config.publicBaseUrl config |}.

(** What [GET /.well-known/x402] serialises. *)
Definition discovery (gw : Gateway.t) : X402Discovery.t :=
  Discovery.generateDiscovery (Gateway.engine gw) (discoveryOptions (Gateway.config gw)).

End Index.

(** ** apps/upstream/src/index.ts: the weather route *)

Module UpstreamApi.

(** A member of [req.query]: a string, or an array or an object when
    the parameter is repeated or written with brackets. *)
Inductive QueryValue :=
  | QStr (s : string)
  | QOther.

Definition CONDITIONS : list string := ["sunny"; "cloudy"; "rainy"; "snowy"; "windy"].

(** [[...city.toLowerCase()].reduce((sum, ch) => sum + ch.charCodeAt(0), 0)]
    for a city of ASCII characters, where lower-casing is [Js.toLowerCase],
    the spread gives one character for each byte and [charCodeAt(0)] is
    the byte. A city with another character is outside this definition:
    [None]. *)
Definition charCodes (city : string) : option (list Z) :=
  if forallb (fun ch => (nat_of_ascii ch <? 128)%nat) (String.list_ascii_of_string city)
  then Some ((fun ch => Z.of_nat (nat_of_ascii ch))
               <$> String.list_ascii_of_string (Js.toLowerCase city))
  else None.

Definition hash (codes : list Z) : Z := foldl Z.add 0 codes.

(** [Math.round((tempC * 9) / 5 + 32)]: the value is a multiple of one
    fifth, never half way between two integers. *)
Definition toFahrenheit (tempC : Z) : Z := (18 * tempC + 325) / 10.

Definition tempC (h : Z) : Z := -10 + h mod 45.
Definition humidity (h : Z) : Z := 20 + h mod 60.
Definition conditions (h : Z) : option string := CONDITIONS !! Z.to_nat (h mod 5).

Definition missing_city : Response.t :=
  {| Response.status := 400;
     Response.headers := ∅;
     Response.body :=
       JsonBody (Json.JObj [("error", Json.JStr "Missing required query parameter: city")]) |}.

(** [app.get("/api/weather", ...)] on [req.query.city]. A value that is
    not a string has no [trim]: the call throws and Express's error
    handler answers 500. [None]: the city is outside [charCodes]. *)
Definition weatherRoute (query_city : option QueryValue) : option Response.t :=
  match query_city with
  | None => Some missing_city
  | Some QOther =>
      Some {| Response.status := 500;
              Response.headers := ∅;
              Response.body := TextBody "req.query.city?.trim is not a function" |}
  | Some (QStr raw) =>
      let city := Js.trim raw in
      if negb (Js.truthy city) then Some missing_city
      else
        match charCodes city with
        | None => None
        | Some codes =>
            let h := hash codes in
            Some {| Response.status := 200;
                    Response.headers := ∅;
                    Response.body :=
                      JsonBody (Json.JObj
                        (Json.member "city" (Json.JStr city)
                         ++ Json.member "tempC" (Json.JNum (tempC h))
                         ++ Json.member "tempF" (Json.JNum (toFahrenheit (tempC h)))
                         ++ Json.member "humidity" (Json.JNum (humidity h))
                         ++ Json.member_opt "conditions" (Json.JStr <$> conditions h)
                         ++ Json.member "source" (Json.JStr "moltgate-upstream"))) |}
        end
  end.

End UpstreamApi.
(* ===================================================================== *)
(** * Part II: properties                                                 *)
(* ===================================================================== *)

(** ** Base64 reads back what it wrote *)

Module Base64Facts.
Import Base64.

Lemma byte_bound (c : ascii) : (nat_of_ascii c < 256)%nat.
Proof. apply nat_ascii_bounded. Qed.

(** Every sextet has its own symbol, and no symbol is the padding. *)
Lemma sextet_table :
  forallb (fun n => bool_decide (value_of (sextet n) = Some n)
                    && negb (Js.byte_is (sextet n) 61)) (seq 0 64) = true.
Proof. vm_compute. reflexivity. Qed.

Lemma value_of_sextet (n : nat) : (n < 64)%nat -> value_of (sextet n) = Some n.
Proof.
  intros Hn. pose proof sextet_table as Ht. rewrite forallb_forall in Ht.
  specialize (Ht n). rewrite in_seq in Ht.
  apply andb_true_iff in Ht as [Hv _]; [|lia]. by apply bool_decide_eq_true in Hv.
Qed.

Lemma sextet_not_pad (n : nat) : (n < 64)%nat -> Js.byte_is (sextet n) 61 = false.
Proof.
  intros Hn. pose proof sextet_table as Ht. rewrite forallb_forall in Ht.
  specialize (Ht n). rewrite in_seq in Ht.
  apply andb_true_iff in Ht as [_ Hp]; [|lia]. by apply negb_true_iff in Hp.
Qed.

(** [(a * k + b) / k] and [mod k] take a packed pair apart. *)
Lemma unpack (a b k : nat) :
  (b < k)%nat -> ((a * k + b) / k = a /\ (a * k + b) mod k = b)%nat.
Proof.
  intros Hb. split.
  - symmetry. apply (Nat.div_unique _ _ _ b); lia.
  - symmetry. apply (Nat.mod_unique _ _ a); lia.
Qed.

Lemma split_byte (x k : nat) : (0 < k)%nat -> ((x / k) * k + x mod k = x)%nat.
Proof. intros Hk. pose proof (Nat.div_mod_eq x k). lia. Qed.

Lemma high_bound (x k m : nat) : (0 < k)%nat -> (x < k * m)%nat -> (x / k < m)%nat.
Proof. intros Hk Hx. apply Nat.Div0.div_lt_upper_bound. lia. Qed.

Lemma low_bound (x k : nat) : (0 < k)%nat -> (x mod k < k)%nat.
Proof. intros Hk. apply Nat.mod_upper_bound. lia. Qed.

Lemma pad_is_pad : Js.byte_is pad 61 = true.
Proof. reflexivity. Qed.

Lemma decode_encode_1 (a : ascii) : decode (encode (String a "")) = Some (String a "").
Proof.
  pose proof (byte_bound a) as Ha. set (x := nat_of_ascii a) in *.
  assert (H0 : (x / 4 < 64)%nat) by (apply high_bound; lia).
  pose proof (low_bound x 4 ltac:(lia)) as H1.
  cbn [encode]. fold x. cbn [decode].
  rewrite !value_of_sextet by lia. rewrite pad_is_pad. cbn [andb String.eqb].
  replace ((x mod 4) * 16)%nat with ((x mod 4) * 16 + 0)%nat by lia.
  rewrite (proj1 (unpack (x mod 4) 0 16 ltac:(lia))).
  rewrite split_byte by lia. unfold x. by rewrite ascii_nat_embedding.
Qed.

Lemma decode_encode_2 (a b : ascii) :
  decode (encode (String a (String b ""))) = Some (String a (String b "")).
Proof.
  pose proof (byte_bound a) as Ha. set (x := nat_of_ascii a) in *.
  pose proof (byte_bound b) as Hb. set (y := nat_of_ascii b) in *.
  assert (H0 : (x / 4 < 64)%nat) by (apply high_bound; lia).
  pose proof (low_bound x 4 ltac:(lia)) as H1.
  assert (H2 : (y / 16 < 16)%nat) by (apply high_bound; lia).
  pose proof (low_bound y 16 ltac:(lia)) as H3.
  cbn [encode]. fold x y. cbn [decode].
  rewrite !value_of_sextet by lia. rewrite sextet_not_pad by lia.
  rewrite pad_is_pad. cbn [String.eqb].
  destruct (unpack (x mod 4) (y / 16) 16 ltac:(lia)) as [-> ->].
  replace ((y mod 16) * 4)%nat with ((y mod 16) * 4 + 0)%nat by lia.
  rewrite (proj1 (unpack (y mod 16) 0 4 ltac:(lia))).
  rewrite !split_byte by lia. unfold x, y. by rewrite !ascii_nat_embedding.
Qed.

Lemma decode_encode_3 (a b c : ascii) (r : string) :
  decode (encode (String a (String b (String c r))))
  = match decode (encode r) with
    | Some rest => Some (String a (String b (String c rest)))
    | None => None
    end.
Proof.
  pose proof (byte_bound a) as Ha. set (x := nat_of_ascii a) in *.
  pose proof (byte_bound b) as Hb. set (y := nat_of_ascii b) in *.
  pose proof (byte_bound c) as Hc. set (z := nat_of_ascii c) in *.
  assert (H0 : (x / 4 < 64)%nat) by (apply high_bound; lia).
  pose proof (low_bound x 4 ltac:(lia)) as H1.
  assert (H2 : (y / 16 < 16)%nat) by (apply high_bound; lia).
  pose proof (low_bound y 16 ltac:(lia)) as H3.
  assert (H4 : (z / 64 < 4)%nat) by (apply high_bound; lia).
  pose proof (low_bound z 64 ltac:(lia)) as H5.
  cbn [encode]. fold x y z. cbn [decode].
  rewrite !value_of_sextet by lia. rewrite !sextet_not_pad by lia.
  destruct (unpack (x mod 4) (y / 16) 16 ltac:(lia)) as [-> ->].
  destruct (unpack (y mod 16) (z / 64) 4 ltac:(lia)) as [-> ->].
  rewrite !split_byte by lia. unfold x, y, z. by rewrite !ascii_nat_embedding.
Qed.

Lemma decode_encode_upto (n : nat) (s : string) :
  (String.length s <= n)%nat -> decode (encode s) = Some s.
Proof.
  revert s. induction n as [|n IH]; intros s Hlen.
  - destruct s; [done | simpl in Hlen; lia].
  - destruct s as [|a [|b [|c r]]]; [done | apply decode_encode_1 | apply decode_encode_2 |].
    rewrite decode_encode_3. rewrite IH; [done|]. simpl in Hlen. lia.
Qed.

(** Base64 round trip: decoding what [encode] wrote gives the text back. *)
Lemma decode_encode (s : string) : decode (encode s) = Some s.
Proof. by apply (decode_encode_upto (String.length s)). Qed.

(** So every header the gateway writes with [toBase64] reads back as the
    JSON text of the value. *)
Lemma toBase64_decodes (value : Json.t) :
  decode (toBase64 value) = Some (Json.stringify value).
Proof. apply decode_encode. Qed.

End Base64Facts.

(** ** The policy registry *)

Module RegistryFacts.
Import PolicyEngine.

(** The pair a policy is looked up by. *)
Definition key (p : RoutePolicy.t) : string * string :=
  (RoutePolicy.path p, method_name (RoutePolicy.method p)).

(** The registry after a sequence of [add] calls on a new engine. *)
Definition registry_after (calls : list (list RoutePolicy.t)) : PolicyEngine.t :=
  foldl (fun engine items => add items engine) empty calls.

(** No two registered policies (at different positions) share a pair. *)
Definition at_most_one_per_pair (engine : PolicyEngine.t) : Prop :=
  forall i j p q,
    engine !! i = Some p -> engine !! j = Some q -> key p = key q -> i = j.

Lemma registry_after_from (calls : list (list RoutePolicy.t)) (engine : PolicyEngine.t) :
  foldl (fun engine items => add items engine) engine calls = engine ++ concat calls.
Proof.
  revert engine. induction calls as [|items calls IH]; intros engine; simpl.
  - by rewrite app_nil_r.
  - rewrite IH. unfold add. by rewrite <- app_assoc.
Qed.

Lemma registry_after_concat (calls : list (list RoutePolicy.t)) :
  registry_after calls = concat calls.
Proof. unfold registry_after. by rewrite registry_after_from. Qed.

Lemma method_name_upper (m : HttpMethod) : Js.toUpperCase (method_name m) = method_name m.
Proof. by destruct m. Qed.

Lemma method_name_inj (m m' : HttpMethod) : method_name m = method_name m' -> m = m'.
Proof. by destruct m, m'. Qed.

Lemma matches_key (path method : string) (p : RoutePolicy.t) :
  matches path method p = true <-> key p = (path, Js.toUpperCase method).
Proof.
  unfold matches, key. rewrite andb_true_iff, !String.eqb_eq.
  split; [intros [-> ->]; done | intros [= -> ->]; done].
Qed.

Lemma matches_own_key (p : RoutePolicy.t) :
  matches (RoutePolicy.path p) (method_name (RoutePolicy.method p)) p = true.
Proof. apply matches_key. unfold key. by rewrite method_name_upper. Qed.

(** [Array.prototype.find]: the result matches and nothing before it does. *)
Lemma find_first {A} (f : A -> bool) (l : list A) (x : A) :
  List.find f l = Some x <->
  exists i, l !! i = Some x /\ f x = true /\ forall j y, (j < i)%nat -> l !! j = Some y -> f y = false.
Proof.
  induction l as [|a l IH]; simpl.
  - split; [done | intros (i & Hi & _); by destruct i].
  - destruct (f a) eqn:Hfa.
    + split.
      * intros [= ->]. exists 0%nat. repeat split; [done | intros j y Hj; lia].
      * intros (i & Hi & Hx & Hbefore). destruct i as [|i]; [by simplify_eq/= |].
        specialize (Hbefore 0%nat a ltac:(lia) eq_refl). congruence.
    + rewrite IH. split.
      * intros (i & Hi & Hx & Hbefore). exists (S i). repeat split; [done..|].
        intros [|j] y Hj Hy; simplify_eq/=; [done | eapply Hbefore; [|done]; lia].
      * intros (i & Hi & Hx & Hbefore). destruct i as [|i]; [simplify_eq/=; congruence |].
        exists i. repeat split; [done..|].
        intros j y Hj Hy. apply (Hbefore (S j) y); [lia | done].
Qed.

Lemma find_none {A} (f : A -> bool) (l : list A) :
  List.find f l = None <-> forall x, x ∈ l -> f x = false.
Proof.
  induction l as [|a l IH]; simpl.
  - split; [intros _ x Hx; by apply elem_of_nil in Hx | done].
  - destruct (f a) eqn:Hfa.
    + split; [done | intros Hall; specialize (Hall a (list_elem_of_here _ _)); congruence].
    + rewrite IH. split.
      * intros Hall x [->|Hx]%elem_of_cons; auto.
      * intros Hall x Hx. apply Hall. by apply list_elem_of_further.
Qed.

(** With pairwise distinct pairs, [match] finds each policy by its pair. *)
Lemma match_finds_unique (engine : PolicyEngine.t) (p : RoutePolicy.t) :
  NoDup (key <$> engine) -> p ∈ engine ->
  match_ (RoutePolicy.path p) (method_name (RoutePolicy.method p)) engine = Some p.
Proof.
  intros Hnd [i Hi]%list_elem_of_lookup. unfold match_. apply find_first.
  exists i. split; [done|]. split; [apply matches_own_key|].
  intros j q Hj Hq. destruct (matches _ _ q) eqn:Hm; [|done].
  apply matches_key in Hm. rewrite method_name_upper in Hm.
  assert (i = j); [|lia].
  eapply NoDup_lookup; [exact Hnd | |].
  - by rewrite list_lookup_fmap, Hi.
  - rewrite list_lookup_fmap, Hq. simpl. by rewrite Hm.
Qed.

Lemma NoDup_at_most_one (engine : PolicyEngine.t) :
  NoDup (key <$> engine) -> at_most_one_per_pair engine.
Proof.
  intros Hnd i j p q Hi Hj Hk.
  eapply NoDup_lookup; [exact Hnd | |].
  - by rewrite list_lookup_fmap, Hi.
  - rewrite list_lookup_fmap, Hj. simpl. by rewrite Hk.
Qed.

(** A policy registered twice, as [engine.add(p).add(p)] leaves it. *)
Definition sample_policy : RoutePolicy.t :=
  {| RoutePolicy.path := "/v1/premium/echo"; RoutePolicy.method := GET;
     RoutePolicy.scheme := "exact"; RoutePolicy.network := "stacks:2147483648";
     RoutePolicy.asset := "STX"; RoutePolicy.maxAmountRequired := "100000";
     RoutePolicy.payTo := "ST1PQHQKV0RJXZFY1DGX8MNSNYVE3VGZJSRTPGZGM";
     RoutePolicy.description := "echo"; RoutePolicy.mimeType := "application/json";
     RoutePolicy.maxTimeoutSeconds := 60; RoutePolicy.extra := None;
     RoutePolicy.outputSchema := None |}.

Definition cheaper_policy : RoutePolicy.t :=
  {| RoutePolicy.path := "/v1/premium/echo"; RoutePolicy.method := GET;
     RoutePolicy.scheme := "exact"; RoutePolicy.network := "stacks:2147483648";
     RoutePolicy.asset := "STX"; RoutePolicy.maxAmountRequired := "1";
     RoutePolicy.payTo := "ST1PQHQKV0RJXZFY1DGX8MNSNYVE3VGZJSRTPGZGM";
     RoutePolicy.description := "echo, cheaper"; RoutePolicy.mimeType := "application/json";
     RoutePolicy.maxTimeoutSeconds := 60; RoutePolicy.extra := None;
     RoutePolicy.outputSchema := None |}.

(** C9, as stated, fails: [add] never looks at what is registered, so two
    calls with the same path and method leave both policies in the
    registry. *)
Lemma C9_add_keeps_duplicates :
  ~ (forall calls : list (list RoutePolicy.t), at_most_one_per_pair (registry_after calls)).
Proof.
  intros Hall.
  specialize (Hall [[sample_policy]; [cheaper_policy]] 0%nat 1%nat
                   sample_policy cheaper_policy eq_refl eq_refl eq_refl).
  discriminate.
Qed.

Lemma at_most_one_NoDup (engine : PolicyEngine.t) :
  at_most_one_per_pair engine -> NoDup (key <$> engine).
Proof.
  intros Hone. apply NoDup_alt. intros i j k Hi Hj.
  rewrite list_lookup_fmap in Hi, Hj.
  destruct (engine !! i) as [p|] eqn:Hp; [|done].
  destruct (engine !! j) as [q|] eqn:Hq; [|done].
  simpl in Hi, Hj. apply (Hone i j p q Hp Hq). congruence.
Qed.

(** [match] returns the first registered policy with the pair. *)
Lemma match_first (path method : string) (engine : PolicyEngine.t) (p : RoutePolicy.t) :
  match_ path method engine = Some p
  <-> exists i, engine !! i = Some p
                /\ key p = (path, Js.toUpperCase method)
                /\ forall j q, (j < i)%nat -> engine !! j = Some q ->
                               key q <> (path, Js.toUpperCase method).
Proof.
  unfold match_. rewrite find_first. split.
  - intros (i & Hi & Hp & Hbefore). exists i. split; [done|].
    split; [by apply matches_key|].
    intros j q Hj Hq Hk. apply matches_key in Hk.
    specialize (Hbefore j q Hj Hq). congruence.
  - intros (i & Hi & Hp & Hbefore). exists i. split; [done|].
    split; [by apply matches_key|].
    intros j q Hj Hq. destruct (matches path method q) eqn:Hm; [|done].
    apply matches_key in Hm. by apply (Hbefore j q Hj Hq) in Hm.
Qed.

(** A second route on the echo path, and a route of its own. *)
Definition post_policy : RoutePolicy.t :=
  {| RoutePolicy.path := "/v1/premium/echo"; RoutePolicy.method := POST;
     RoutePolicy.scheme := "exact"; RoutePolicy.network := "stacks:2147483648";
     RoutePolicy.asset := "STX"; RoutePolicy.maxAmountRequired := "7";
     RoutePolicy.payTo := "ST1PQHQKV0RJXZFY1DGX8MNSNYVE3VGZJSRTPGZGM";
     RoutePolicy.description := "echo, posted"; RoutePolicy.mimeType := "application/json";
     RoutePolicy.maxTimeoutSeconds := 60; RoutePolicy.extra := None;
     RoutePolicy.outputSchema := None |}.

Definition report_policy : RoutePolicy.t :=
  {| RoutePolicy.path := "/v1/premium/report"; RoutePolicy.method := GET;
     RoutePolicy.scheme := "exact"; RoutePolicy.network := "stacks:2147483648";
     RoutePolicy.asset := "STX"; RoutePolicy.maxAmountRequired := "9";
     RoutePolicy.payTo := "ST1PQHQKV0RJXZFY1DGX8MNSNYVE3VGZJSRTPGZGM";
     RoutePolicy.description := "report"; RoutePolicy.mimeType := "application/json";
     RoutePolicy.maxTimeoutSeconds := 60; RoutePolicy.extra := None;
     RoutePolicy.outputSchema := None |}.

(** C9, amended. Of every registry: it is the concatenation of what was
    added, in order, a further [add] appends to it, and [match] returns
    the first registered policy with the path and the upper-cased
    method (and nothing exactly when there is none). Uniqueness is the
    caller's: no two registered policies share a (path, method) pair
    exactly when the added policies have pairwise distinct pairs, and
    [match] then returns each policy for its own pair. *)
Theorem C9_registry_unique_when_added_distinct (calls : list (list RoutePolicy.t)) :
  registry_after calls = concat calls
  /\ (forall items, registry_after (calls ++ [items]) = registry_after calls ++ items)
  /\ (forall path method p,
        match_ path method (registry_after calls) = Some p
        <-> exists i, registry_after calls !! i = Some p
                      /\ key p = (path, Js.toUpperCase method)
                      /\ forall j q, (j < i)%nat -> registry_after calls !! j = Some q ->
                                     key q <> (path, Js.toUpperCase method))
  /\ (forall path method,
        match_ path method (registry_after calls) = None
        <-> forall q, q ∈ registry_after calls -> key q <> (path, Js.toUpperCase method))
  /\ (at_most_one_per_pair (registry_after calls) <-> NoDup (key <$> concat calls))
  /\ (NoDup (key <$> concat calls) ->
      forall p, p ∈ registry_after calls ->
        match_ (RoutePolicy.path p) (method_name (RoutePolicy.method p)) (registry_after calls)
        = Some p).
Proof.
  split; [apply registry_after_concat|]. split; [|split; [|split; [|split]]].
  - intros items. unfold registry_after. by rewrite foldl_app.
  - intros path method p. apply match_first.
  - intros path method. unfold match_. rewrite find_none. split; intros Hall q Hq.
    + intros Hk%matches_key. specialize (Hall q Hq). congruence.
    + destruct (matches path method q) eqn:Hm; [|done].
      apply matches_key in Hm. by apply Hall in Hm.
  - rewrite registry_after_concat. split; [apply at_most_one_NoDup | apply NoDup_at_most_one].
  - intros Hnd p Hp. rewrite registry_after_concat in *. by apply match_finds_unique.
Qed.

(** Three routes added in two calls, two of them on the same path. *)
Lemma C9_registry_unique_witness :
  NoDup (key <$> concat [[sample_policy; post_policy]; [report_policy]])
  /\ registry_after [[sample_policy; post_policy]; [report_policy]]
     = [sample_policy; post_policy; report_policy]
  /\ match_ "/v1/premium/echo" "post" (registry_after [[sample_policy; post_policy]; [report_policy]])
     = Some post_policy
  /\ at_most_one_per_pair (registry_after [[sample_policy; post_policy]; [report_policy]]).
Proof.
  assert (Hnd : NoDup (key <$> concat [[sample_policy; post_policy]; [report_policy]])).
  { apply (bool_decide_unpack _). vm_compute. exact I. }
  destruct (C9_registry_unique_when_added_distinct
              [[sample_policy; post_policy]; [report_policy]])
    as (Hconcat & _ & _ & _ & Hone & Hmatch).
  split; [exact Hnd|]. split; [exact Hconcat|]. split.
  - apply (Hmatch Hnd post_policy). rewrite Hconcat. simpl. apply list_elem_of_further, list_elem_of_here.
  - exact (proj2 Hone Hnd).
Defined.

End RegistryFacts.

(** ** The discovery document *)

Module DiscoveryFacts.
Import Discovery.

Fixpoint slashes (n : nat) : string :=
  match n with O => "" | S n' => String "/" (slashes n') end.

Definition ends_with_slash (s : string) : Prop := exists r, s = r +:+ "/".

Lemma append_nil_r (s : string) : s +:+ "" = s.
Proof. induction s as [|c s IH]; [done | by rewrite <- IH at 2]. Qed.

Lemma append_assoc (a b c : string) : (a +:+ b) +:+ c = a +:+ (b +:+ c).
Proof. induction a as [|x a IH]; [done|]. cbn. unfold String.app in *. cbn. by rewrite IH. Qed.

Lemma append_cons (c : ascii) (a b : string) : String c a +:+ b = String c (a +:+ b).
Proof. done. Qed.

Lemma slash_is (c : ascii) : Js.byte_is c 47 = true <-> c = "/"%char.
Proof.
  unfold Js.byte_is. rewrite Nat.eqb_eq. split; [|by intros ->].
  intros Hc. rewrite <- (ascii_nat_embedding c), Hc. done.
Qed.

(** What the regular-expression replace leaves: the input is the result
    followed by slashes only, and the result does not end with a slash. *)
Lemma strip_trailing_slashes_spec (s : string) :
  (exists n, s = strip_trailing_slashes s +:+ slashes n)
  /\ ~ ends_with_slash (strip_trailing_slashes s).
Proof.
  induction s as [|c s [[n Hn] Hend]]; simpl.
  - split; [by exists 0%nat|]. intros [[|? r] Hr]; discriminate.
  - destruct (Js.byte_is c 47 && String.eqb (strip_trailing_slashes s) "") eqn:Hc.
    + apply andb_true_iff in Hc as [Hc%slash_is Hs%String.eqb_eq]. subst c.
      rewrite Hs in Hn. simpl in Hn. split.
      * exists (S n). simpl. by rewrite Hn at 1.
      * intros [[|? r] Hr]; discriminate.
    + split.
      * exists n. rewrite append_cons. by rewrite <- Hn.
      * intros [r Hr]. destruct r as [|x r].
        -- injection Hr as -> Hs. rewrite Hs in Hc. by simpl in Hc.
        -- rewrite append_cons in Hr. injection Hr as -> Hs. apply Hend. by exists r.
Qed.

Example strip_trailing_slashes_sample :
  strip_trailing_slashes "https://gateway.example.com//" = "https://gateway.example.com"
  /\ strip_trailing_slashes "https://a/b" = "https://a/b".
Proof. split; reflexivity. Qed.

(** Modelled after the specification's words ("the short token form,
    e.g. stacks for stacks:2147483648"): the chain identifier up to its
    first colon. The code has no such function. *)
Fixpoint spec_short_token (chain : string) : string :=
  match chain with
  | EmptyString => EmptyString
  | String c r => if Js.byte_is c 58 then EmptyString else String c (spec_short_token r)
  end.

Example spec_short_token_stacks : spec_short_token "stacks:2147483648" = "stacks".
Proof. reflexivity. Qed.

(** The schema the claim describes for a policy without one. *)
Definition is_fallback (p : RoutePolicy.t) (s : EndpointSchema.t) : Prop :=
  EndpointSchema.method s = method_name (RoutePolicy.method p)
  /\ EndpointSchema.query s = None /\ EndpointSchema.body s = None
  /\ exists f, EndpointSchema.output s = [("data", f)] /\ SchemaField.type f = "object".

(** What C8 says of the entry at position [i], with the law that gives
    the entry's network from the policy's left open. *)
Definition entry_describes (network_of : string -> string) (base : string)
    (p : RoutePolicy.t) (e : X402AcceptEntry.t) : Prop :=
  X402AcceptEntry.resource e = strip_trailing_slashes base +:+ RoutePolicy.path p
  /\ X402AcceptEntry.network e = network_of (RoutePolicy.network p)
  /\ (RoutePolicy.outputSchema p = None -> is_fallback p (X402AcceptEntry.outputSchema e)).

Definition document_lists (network_of : string -> string)
    (engine : PolicyEngine.t) (opts : DiscoveryOptions.t) : Prop :=
  let doc := generateDiscovery engine opts in
  length (X402Discovery.accepts doc) = length engine
  /\ forall i p, engine !! i = Some p ->
       exists e, X402Discovery.accepts doc !! i = Some e
                 /\ entry_describes network_of (DiscoveryOptions.publicBaseUrl opts) p e.

Definition sample_options : DiscoveryOptions.t :=
  {| DiscoveryOptions.name := Some "MoltGate Gateway";
     DiscoveryOptions.description := Some "x402 v2 payment gateway for the Stacks ecosystem";
     DiscoveryOptions.image := None;
     DiscoveryOptions.publicBaseUrl := "https://gateway.example.com/" |}.

(** C8, as stated, fails: the entry's network is not derived from the
    policy. A gateway started with [NETWORK=eip155:1] registers its
    policies on that chain, and its discovery document still says
    [stacks], not [eip155]. *)
Lemma C8_network_is_not_the_short_token :
  exists gw,
    Gateway.boot {[ "NETWORK" := "eip155:1" ]} = Ok gw
    /\ ~ document_lists spec_short_token (Gateway.engine gw) sample_options.
Proof.
  eexists. split; [reflexivity|].
  intros [_ Hall].
  destruct (Hall 0%nat _ eq_refl) as (e & He & _ & Hnet & _).
  injection He as <-. vm_compute in Hnet. discriminate.
Qed.

(** C8, amended: the document has one entry per registered policy, in
    registration order; the entry's resource is the public base URL
    without its trailing slashes followed by the policy's path; its
    network is the constant ["stacks"], whatever the policy's chain
    identifier; a policy without a schema gets the fallback schema (the
    policy's method, no input, the one output field [data] of type
    [object]) and a policy with a schema keeps its own. *)
Theorem C8_discovery_lists_every_policy
    (engine : PolicyEngine.t) (opts : DiscoveryOptions.t) (i : nat) (p : RoutePolicy.t) :
  engine !! i = Some p ->
  let doc := generateDiscovery engine opts in
  length (X402Discovery.accepts doc) = length engine
  /\ exists e, X402Discovery.accepts doc !! i = Some e
       /\ e = policyToAccept p (DiscoveryOptions.publicBaseUrl opts)
       /\ entry_describes (fun _ => "stacks") (DiscoveryOptions.publicBaseUrl opts) p e
       /\ (forall s, RoutePolicy.outputSchema p = Some s -> X402AcceptEntry.outputSchema e = s).
Proof.
  intros Hp. simpl. unfold PolicyEngine.all. split; [by rewrite length_map|].
  eexists. split; [by rewrite list_lookup_fmap, Hp|]. split; [done|].
  split; [|intros s Hs; simpl; by rewrite Hs].
  split; [done|]. split; [done|].
  intros Hnone. unfold policyToAccept. cbn [X402AcceptEntry.outputSchema].
  rewrite Hnone. unfold is_fallback, fallbackSchema. simpl.
  repeat split; try done. by eexists.
Qed.

Lemma C8_discovery_witness :
  exists e,
    X402Discovery.accepts
      (generateDiscovery [RegistryFacts.sample_policy] sample_options) !! 0%nat = Some e
    /\ X402AcceptEntry.resource e = "https://gateway.example.com/v1/premium/echo"
    /\ X402AcceptEntry.network e = "stacks".
Proof.
  destruct (C8_discovery_lists_every_policy [RegistryFacts.sample_policy] sample_options
              0%nat RegistryFacts.sample_policy eq_refl) as (_ & e & He & -> & _).
  exists (policyToAccept RegistryFacts.sample_policy
            (DiscoveryOptions.publicBaseUrl sample_options)).
  split; [exact He|]. split; reflexivity.
Defined.

End DiscoveryFacts.

(** ** Configuration loading *)

Module ConfigFacts.
Import Config.

Definition default_payTo : string := "ST1PQHQKV0RJXZFY1DGX8MNSNYVE3VGZJSRTPGZGM".
Definition default_amount : string := "100000".

(** Live mode, as the rest of the gateway sees it: [config.mockPayments]
    is false. *)
Definition live (env : gmap string string) : Prop := bool env "MOCK_PAYMENTS" true = false.

Lemma required_absent_no_fallback (env : gmap string string) (name : string) :
  env !! name = None -> required env name None = Throw ("Missing required env var: " +:+ name).
Proof. intros Hn. unfold required. by rewrite Hn. Qed.

Lemma required_absent_fallback (env : gmap string string) (name fallback : string) :
  env !! name = None -> fallback <> "" -> required env name (Some fallback) = Ok fallback.
Proof.
  intros Hn Hf. unfold required. rewrite Hn. simpl. unfold Js.truthy.
  destruct (String.eqb_spec fallback ""); [done | done].
Qed.

Lemma required_present (env : gmap string string) (name v : string) (fallback : option string) :
  env !! name = Some v -> v <> "" -> required env name fallback = Ok v.
Proof.
  intros Hn Hv. unfold required. rewrite Hn. simpl. unfold Js.truthy.
  destruct (String.eqb_spec v ""); [done | done].
Qed.

(** With [MOCK_PAYMENTS=false], start-up fails and names the variable
    that is absent: [PAY_TO] first, then [AMOUNT_MICROSTX]. *)
Lemma load_false_names_missing (env : gmap string string) :
  env !! "MOCK_PAYMENTS" = Some "false" ->
  live env
  /\ (env !! "PAY_TO" = None -> load env = Throw "Missing required env var: PAY_TO")
  /\ (forall payTo', env !! "PAY_TO" = Some payTo' -> payTo' <> "" ->
      env !! "AMOUNT_MICROSTX" = None ->
      load env = Throw "Missing required env var: AMOUNT_MICROSTX").
Proof.
  intros Hm. split; [unfold live, bool; by rewrite Hm|].
  assert (Hg : mock_not_false env = false).
  { unfold mock_not_false. by rewrite bool_decide_eq_true_2. }
  split.
  - intros Hp. unfold load. rewrite Hg. by rewrite required_absent_no_fallback.
  - intros payTo' Hp Hne Ha. unfold load. rewrite Hg.
    rewrite (required_present _ _ payTo') by done.
    by rewrite required_absent_no_fallback.
Qed.

(** In mock mode both variables fall back to their defaults when absent
    and start-up succeeds. *)
Lemma load_mock_defaults (env : gmap string string) :
  bool env "MOCK_PAYMENTS" true = true ->
  env !! "PAY_TO" = None -> env !! "AMOUNT_MICROSTX" = None ->
  exists config, load env = Ok config
                 /\ payTo config = default_payTo
                 /\ amountMicroStx config = default_amount
                 /\ mockPayments config = true.
Proof.
  intros Hmock Hp Ha.
  assert (Hg : mock_not_false env = true).
  { unfold mock_not_false. apply negb_true_iff, bool_decide_eq_false.
    intros Hf. unfold bool in Hmock. rewrite Hf in Hmock. discriminate. }
  unfold load. rewrite Hg.
  rewrite (required_absent_fallback _ _ default_payTo) by done.
  rewrite (required_absent_fallback _ _ default_amount) by done.
  eexists. split; [reflexivity|]. simpl. by rewrite Hmock.
Qed.

(** C7 fails on the code for [MOCK_PAYMENTS=0] (or [no], [off], [FALSE],
    ...): [bool] reads it as false, so the gateway runs in live mode and
    settles through the facilitator, while the fallbacks, guarded by
    [!== "false"], still apply; start-up succeeds with the test-net
    address and the default price, and names no missing variable. *)
Theorem C7_live_mode_keeps_mock_defaults :
  let env : gmap string string := {[ "MOCK_PAYMENTS" := "0" ]} in
  live env
  /\ env !! "PAY_TO" = None /\ env !! "AMOUNT_MICROSTX" = None
  /\ exists config, load env = Ok config
                    /\ mockPayments config = false
                    /\ payTo config = default_payTo
                    /\ amountMicroStx config = default_amount.
Proof.
  simpl. repeat split; try reflexivity.
  eexists. split; [reflexivity|]. repeat split; reflexivity.
Qed.

End ConfigFacts.

(** ** The TTL cache *)

Module TtlCacheFacts.
Import TtlCache.

Lemma get_live {T} (now : Z) (key : string) (c : TtlCache.t T) (e : CacheEntry T) :
  store c !! key = Some e -> now < expiresAt e -> get now key c = (Some (value e), c).
Proof.
  intros He Hlt. unfold get. rewrite He.
  destruct (Z.leb_spec (expiresAt e) now); [lia | done].
Qed.

Lemma get_expired {T} (now : Z) (key : string) (c : TtlCache.t T) (e : CacheEntry T) :
  store c !! key = Some e -> expiresAt e <= now ->
  get now key c = (None, with_store c (delete key (store c))).
Proof.
  intros He Hle. unfold get. rewrite He.
  destruct (Z.leb_spec (expiresAt e) now); [done | lia].
Qed.

Lemma get_absent {T} (now : Z) (key : string) (c : TtlCache.t T) :
  store c !! key = None -> get now key c = (None, c).
Proof. intros He. unfold get. by rewrite He. Qed.

(** A hit is a stored, unexpired entry, and leaves the cache as it was. *)
Lemma get_Some {T} (now : Z) (key : string) (c c' : TtlCache.t T) (v : T) :
  get now key c = (Some v, c') ->
  c' = c /\ exists e, store c !! key = Some e /\ value e = v /\ now < expiresAt e.
Proof.
  unfold get. destruct (store c !! key) as [e|] eqn:He; [|done].
  destruct (Z.leb_spec (expiresAt e) now); [done|].
  intros [= <- <-]. split; [done|]. by exists e.
Qed.

(** A miss can only drop the entry under the key that was read. *)
Lemma get_None_store {T} (now : Z) (key : string) (c c' : TtlCache.t T) :
  get now key c = (None, c') ->
  store c' !! key = None /\ defaultTtlMs c' = defaultTtlMs c
  /\ forall k, k <> key -> store c' !! k = store c !! k.
Proof.
  unfold get. destruct (store c !! key) as [e|] eqn:He.
  - destruct (Z.leb_spec (expiresAt e) now); [|done].
    intros [= <-]. simpl. split; [apply lookup_delete_eq|]. split; [done|].
    intros k Hk. by apply lookup_delete_ne.
  - intros [= <-]. done.
Qed.

Lemma store_set {T} (now : Z) (key : string) (v : T) (c : TtlCache.t T) :
  store (set now key v c) !! key = Some (mkEntry v (now + defaultTtlMs c)).
Proof. unfold set. simpl. apply lookup_insert_eq. Qed.

Lemma store_set_ne {T} (now : Z) (key k : string) (v : T) (c : TtlCache.t T) :
  k <> key -> store (set now key v c) !! k = store c !! k.
Proof. intros Hk. unfold set. simpl. by apply lookup_insert_ne. Qed.

(** What was set is there until its time to live has passed. *)
Lemma has_after_set {T} (now later : Z) (key : string) (v : T) (c : TtlCache.t T) :
  later < now + defaultTtlMs c ->
  has later key (set now key v c) = (true, set now key v c).
Proof.
  intros Hlt. unfold has.
  rewrite (get_live later key _ (mkEntry v (now + defaultTtlMs c))); [done | apply store_set | done].
Qed.

Lemma has_true {T} (now : Z) (key : string) (c c' : TtlCache.t T) :
  has now key c = (true, c') ->
  c' = c /\ exists e, store c !! key = Some e /\ now < expiresAt e.
Proof.
  unfold has. destruct (get now key c) as [[v|] c''] eqn:Hg; [|done].
  intros [= <-]. apply get_Some in Hg as (-> & e & He & _ & Hlt). eauto.
Qed.

Lemma has_false {T} (now : Z) (key : string) (c c' : TtlCache.t T) :
  has now key c = (false, c') -> get now key c = (None, c').
Proof.
  unfold has. destruct (get now key c) as [[v|] c''] eqn:Hg; [done|].
  by intros [= <-].
Qed.

End TtlCacheFacts.
(** ** The proxy's upstream headers *)

Module ProxyFacts.

(** A header the proxy must not forward: its lower-cased name is a
    hop-by-hop header (among them [host] and [content-length]) or one of
    the three x402 headers. *)
Definition stripped (name : string) : Prop :=
  Js.toLowerCase name ∈ HOP_BY_HOP ∪ PAYMENT_HEADERS.

#[global] Instance stripped_dec (name : string) : Decision (stripped name).
Proof. unfold stripped. apply _. Defined.

(** How a header that is forwarded reads upstream. *)
Definition forwarded (v : HeaderValue) : string :=
  match v with
  | HStr s => s
  | HArr values => Js.join ", " values
  end.

Lemma forward_header_lookup (key : string) (value : HeaderValue)
    (out : gmap string string) (k : string) :
  forward_header key value out !! k =
    if decide (k = key) then
      (if decide (stripped key) then out !! k else Some (forwarded value))
    else out !! k.
Proof.
  unfold forward_header, stripped.
  destruct (decide (k = key)) as [->|Hne].
  - destruct (decide (Js.toLowerCase key ∈ HOP_BY_HOP ∪ PAYMENT_HEADERS)) as [Hin|Hout].
    + apply elem_of_union in Hin as [Hin|Hin].
      * by rewrite bool_decide_eq_true_2.
      * case_bool_decide; [done|]. by rewrite bool_decide_eq_true_2.
    + rewrite not_elem_of_union in Hout. destruct Hout as [Hh Hp].
      rewrite !bool_decide_eq_false_2 by done.
      destruct value; simpl; apply lookup_insert_eq.
  - repeat case_bool_decide; try done.
    destruct value; by rewrite lookup_insert_ne.
Qed.

(** The loop, read key by key. *)
Lemma buildUpstreamHeaders_lookup (req : Request.t) (k : string) :
  buildUpstreamHeaders req !! k =
    if decide (stripped k) then None else forwarded <$> Request.headers req !! k.
Proof.
  unfold buildUpstreamHeaders.
  apply (map_fold_weak_ind
           (fun out (m : gmap string HeaderValue) =>
              out !! k = if decide (stripped k) then None else forwarded <$> m !! k)).
  - rewrite !lookup_empty. by destruct (decide (stripped k)).
  - intros key value m out Hfresh IH. rewrite forward_header_lookup.
    destruct (decide (k = key)) as [->|Hne].
    + rewrite lookup_insert_eq. destruct (decide (stripped key)); [|done].
      rewrite IH. done.
    + rewrite lookup_insert_ne by done. exact IH.
Qed.

Lemma content_type_not_stripped : ~ stripped "content-type".
Proof.
  intros Hin. apply (bool_decide_pack _) in Hin. vm_compute in Hin. done.
Qed.

(** The names the claim lists are stripped in any letter case. *)
Definition never_forwarded : list string :=
  ["payment-required"; "payment-signature"; "payment-response"; "host"; "content-length";
   "connection"; "keep-alive"; "proxy-authenticate"; "proxy-authorization"; "te";
   "trailer"; "transfer-encoding"; "upgrade"].

Lemma never_forwarded_stripped (name k : string) :
  name ∈ never_forwarded -> Js.toLowerCase k = name -> stripped k.
Proof.
  intros Hin Hk. unfold stripped. rewrite Hk. clear Hk.
  unfold never_forwarded in Hin.
  repeat (apply elem_of_cons in Hin as [->|Hin]; [by apply (bool_decide_unpack _); vm_compute|]).
  by apply elem_of_nil in Hin.
Qed.

(** C4, amended: the proxy handler makes one call to the upstream and
    answers with [relay] of its outcome; the header map of that call is
    [upstreamHeaders req]. Whatever the incoming header map, that map
    has no entry under a stripped name (the three payment headers and
    the hop-by-hop headers, [Host] and [Content-Length] included, in any
    letter case), and every other header is passed through under its
    own name, a string as it is and an array joined by [", "], with one
    exception: on a request with a body (any method but [GET] and
    [HEAD]) a [content-type] that is absent or empty goes upstream as
    [application/json]. *)
Theorem C4_upstream_headers `{Platform} (gw : Gateway.t) (req : Request.t) (res : Res.t)
    (w : World.t) (k : string) :
  proxyHandler gw req res w
  = relay (fetchUpstream
             (Discovery.strip_trailing_slashes (Config.upstreamUrl (Gateway.config gw))
              +:+ Js.drop_string (String.length STRIP_PREFIX) (Request.originalUrl req))
             (Request.method req)
             (upstreamHeaders req)
             (if hasBody req then Some (Json.stringify (Request.body req)) else None))
          res
  /\ (forall name, name ∈ never_forwarded -> Js.toLowerCase k = name -> stripped k)
  /\ (stripped k -> upstreamHeaders req !! k = None /\ buildUpstreamHeaders req !! k = None)
  /\ (~ stripped k ->
      buildUpstreamHeaders req !! k = forwarded <$> Request.headers req !! k)
  /\ (k <> "content-type" -> upstreamHeaders req !! k = buildUpstreamHeaders req !! k)
  /\ upstreamHeaders req !! "content-type"
     = if hasBody req
          && negb (Js.truthy_opt (forwarded <$> Request.headers req !! "content-type"))
       then Some "application/json"
       else forwarded <$> Request.headers req !! "content-type".
Proof.
  split; [reflexivity|].
  split; [intros name; apply never_forwarded_stripped|].
  assert (Hother : k <> "content-type" ->
                   upstreamHeaders req !! k = buildUpstreamHeaders req !! k).
  { intros Hk. unfold upstreamHeaders.
    destruct (hasBody req && negb (Js.truthy_opt (buildUpstreamHeaders req !! "content-type")));
      [by rewrite lookup_insert_ne | done]. }
  split; [|split; [|split; [done|]]].
  - intros Hs.
    assert (Hb : buildUpstreamHeaders req !! k = None).
    { rewrite buildUpstreamHeaders_lookup. by destruct (decide (stripped k)). }
    split; [|done]. rewrite Hother; [done|].
    intros ->. by apply content_type_not_stripped.
  - intros Hs. rewrite buildUpstreamHeaders_lookup. by destruct (decide (stripped k)).
  - assert (Hct : buildUpstreamHeaders req !! "content-type"
                  = forwarded <$> Request.headers req !! "content-type").
    { rewrite buildUpstreamHeaders_lookup.
      destruct (decide (stripped "content-type")) as [Hs|Hs]; [|done].
      by apply content_type_not_stripped in Hs. }
    unfold upstreamHeaders. rewrite Hct.
    destruct (hasBody req
              && negb (Js.truthy_opt (forwarded <$> Request.headers req !! "content-type")));
      [by rewrite lookup_insert_eq | exact Hct].
Qed.

Definition sample_request : Request.t :=
  {| Request.method := "POST";
     Request.path := "/proxy/api/summarize";
     Request.originalUrl := "/proxy/api/summarize";
     Request.protocol := "https";
     Request.headers :=
       list_to_map [("Host", HStr "gateway.example.com");
                    ("payment-signature", HStr "eyJ4IjoxfQ==");
                    ("PAYMENT-RESPONSE", HStr "stale");
                    ("content-length", HStr "17");
                    ("accept", HArr ["text/plain"; "application/json"]);
                    ("x-request-id", HStr "42")];
     Request.query := ∅;
     Request.body := Json.JObj [("text", Json.JStr "hello")] |}.

(** An upstream that answers with what it was sent: the method, the
    target, and the headers. *)
Definition told (target method : string) (headers : gmap string string) : string :=
  method +:+ " " +:+ target +:+ " with "
  +:+ Js.join "; " ((fun kv => kv.1 +:+ ": " +:+ kv.2) <$> map_to_list headers).

Definition echoing : Platform :=
  {| decodePayload := fun _ => Null;
     parseJson := fun text => Ok (Json.JStr text);
     postVerify := fun _ _ _ => Rejected "fetch failed";
     postSettle := fun _ _ _ => Rejected "fetch failed";
     fetchUpstream := fun target method headers _ =>
       Ok {| Upstream.status := 200;
             Upstream.headers := [("content-type", "text/plain")];
             Upstream.text := told target method headers |};
     toISOString := fun ms => Js.Z_to_string ms |}.

Definition local_gateway : Gateway.t :=
  match Gateway.boot ∅ with
  | Ok gw => gw
  | Throw _ => Gateway.mk (Config.mk "" "" "" "" true None "" None "") []
  end.

(** Of the six headers of the sample request the upstream is sent two,
    and the [content-type] the proxy adds. *)
Lemma C4_upstream_headers_witness :
  Response.body
    (serve (@proxyHandler echoing local_gateway) sample_request Res.fresh (World.initial 0)).1
  = TextBody ("POST http://localhost:4000/api/summarize with "
              +:+ "content-type: application/json; "
              +:+ "accept: text/plain, application/json; x-request-id: 42")
  /\ upstreamHeaders sample_request !! "Host" = None
  /\ upstreamHeaders sample_request !! "PAYMENT-RESPONSE" = None
  /\ upstreamHeaders sample_request !! "accept" = Some "text/plain, application/json".
Proof.
  assert (Hhost : stripped "Host") by (by apply (bool_decide_unpack _); vm_compute).
  assert (Hpay : stripped "PAYMENT-RESPONSE") by (by apply (bool_decide_unpack _); vm_compute).
  assert (Hacc : ~ stripped "accept").
  { intros Hin. apply (bool_decide_pack _) in Hin. vm_compute in Hin. done. }
  destruct (@C4_upstream_headers echoing local_gateway sample_request Res.fresh
              (World.initial 0) "Host") as (Hcall & _ & Hstripped & _).
  destruct (@C4_upstream_headers echoing local_gateway sample_request Res.fresh
              (World.initial 0) "PAYMENT-RESPONSE") as (_ & _ & Hstripped' & _).
  destruct (@C4_upstream_headers echoing local_gateway sample_request Res.fresh
              (World.initial 0) "accept") as (_ & _ & _ & Hpass & Hsame & _).
  split; [unfold serve; rewrite Hcall; vm_compute; reflexivity|].
  split; [exact (proj1 (Hstripped Hhost))|].
  split; [exact (proj1 (Hstripped' Hpay))|].
  rewrite Hsame by done. rewrite (Hpass Hacc). reflexivity.
Defined.

(** A [POST] whose [content-type] header has the empty value. *)
Definition empty_content_type : Request.t :=
  {| Request.method := "POST";
     Request.path := "/proxy/api/summarize";
     Request.originalUrl := "/proxy/api/summarize";
     Request.protocol := "https";
     Request.headers := list_to_map [("content-type", HStr ""); ("x-request-id", HStr "42")];
     Request.query := ∅;
     Request.body := Json.JObj [] |}.

(** C4, as stated, fails for one header: [content-type] is none of the
    payment and hop-by-hop headers, yet on a request with a body its
    empty value is not passed through; the upstream is sent
    [application/json]. *)
Lemma C4_empty_content_type_is_replaced :
  ~ stripped "content-type"
  /\ Request.header "content-type" empty_content_type = Some ""
  /\ buildUpstreamHeaders empty_content_type !! "content-type" = Some ""
  /\ upstreamHeaders empty_content_type !! "content-type" = Some "application/json"
  /\ Response.body
       (serve (@proxyHandler echoing local_gateway) empty_content_type Res.fresh
          (World.initial 0)).1
     = TextBody ("POST http://localhost:4000/api/summarize with "
                 +:+ "content-type: application/json; x-request-id: 42").
Proof.
  split; [apply content_type_not_stripped|].
  repeat split; vm_compute; reflexivity.
Qed.

Example upstream_headers_sample :
  map_to_list (upstreamHeaders sample_request)
  ≡ₚ [("accept", "text/plain, application/json"); ("x-request-id", "42");
      ("content-type", "application/json")].
Proof.
  apply (bool_decide_unpack _). vm_compute. done.
Qed.

End ProxyFacts.

(** ** The response object *)

Module ResFacts.

(** Setting the headers of a map one by one lays the map over the
    headers that were there and touches nothing else. *)
Lemma set_all (m : gmap string string) (res : Res.t) :
  map_fold (fun h v r => Res.set h v r) res m
  = Res.mk (Res.statusCode res) (m ∪ Res.headers res) (Res.paymentPayload res)
           (Res.receipt res) (Res.capture res).
Proof.
  apply (map_fold_weak_ind
           (fun r (m : gmap string string) =>
              r = Res.mk (Res.statusCode res) (m ∪ Res.headers res) (Res.paymentPayload res)
                         (Res.receipt res) (Res.capture res))).
  - rewrite (left_id_L ∅ (∪)). by destruct res.
  - intros h v m' r _ ->. unfold Res.set. simpl. by rewrite insert_union_l.
Qed.

Lemma capture_set_list (l : list (string * string)) (res : Res.t) :
  Res.capture (foldl (fun acc hv => Res.set hv.1 hv.2 acc) res l) = Res.capture res.
Proof. revert res. induction l as [|hv l IH]; intros res; simpl; [done | by rewrite IH]. Qed.

End ResFacts.

(** ** What the idempotency cache can hold *)

Section IdempotencyFacts.
Context `{Platform}.

Definition idem_store (w : World.t) : gmap string (TtlCache.CacheEntry CachedResponse.t) :=
  TtlCache.store (World.idempotencyCache w).

(** The [payment-response] header of a reply, as it is cached. *)
Definition receipt_header (headers : gmap string string) : gmap string string :=
  match headers !! X402_HEADERS.RESPONSE with
  | Some pr => if Js.truthy pr then {[ X402_HEADERS.RESPONSE := pr ]} else ∅
  | None => ∅
  end.

(** The entry [e] under [k] is the reply [r], captured: [r] is a 2xx sent
    with [res.json]. *)
Definition captures (r : Response.t) (e : TtlCache.CacheEntry CachedResponse.t) : Prop :=
  200 <= Response.status r < 300
  /\ CachedResponse.status (TtlCache.value e) = Response.status r
  /\ Response.body r = JsonBody (CachedResponse.body (TtlCache.value e))
  /\ CachedResponse.headers (TtlCache.value e) = receipt_header (Response.headers r).

(** An outcome stores nothing but, under the wrapper's key, its own 2xx
    reply: every entry of the cache afterwards was among [before] or is
    that capture. *)
Definition stores_only (cap : option string)
    (before : gmap string (TtlCache.CacheEntry CachedResponse.t))
    (o : Response.t * World.t) : Prop :=
  forall k e, idem_store o.2 !! k = Some e ->
    before !! k = Some e \/ (cap = Some k /\ captures o.1 e).

(** A continuation that behaves so, whatever it is handed. *)
Definition passes_on (cap : option string) (next : Next) : Prop :=
  forall res w, Res.capture res = cap -> stores_only cap (idem_store w) (next res w).

Lemma stores_only_mono (cap : option string)
    (before before' : gmap string (TtlCache.CacheEntry CachedResponse.t))
    (o : Response.t * World.t) :
  (forall k e, before !! k = Some e -> before' !! k = Some e) ->
  stores_only cap before o -> stores_only cap before' o.
Proof. intros Hsub Ho k e He. destruct (Ho k e He) as [?|?]; [left; auto | by right]. Qed.

Lemma json_stores_only (body : Json.t) (res : Res.t) (w : World.t) :
  stores_only (Res.capture res) (idem_store w) (Res.json body res w).
Proof.
  intros k e. unfold Res.json. simpl.
  destruct (Res.capture res) as [key|]; [|by left].
  unfold Res.captured.
  destruct ((200 <=? Res.statusCode res) && (Res.statusCode res <? 300)) eqn:Hs; [|by left].
  apply andb_true_iff in Hs as [Hlo%Z.leb_le Hhi%Z.ltb_lt].
  unfold idem_store. simpl. destruct (decide (k = key)) as [->|Hne].
  - rewrite lookup_insert_eq. intros [= <-]. right. split; [done|].
    unfold captures. simpl. done.
  - rewrite lookup_insert_ne by done. by left.
Qed.

Lemma send_stores_only (cap : option string) (text : string) (res : Res.t) (w : World.t) :
  stores_only cap (idem_store w) (Res.send text res w).
Proof. intros k e He. by left. Qed.

Lemma reject_stores_only (code : Z) (message : string) (res : Res.t) (w : World.t) :
  stores_only (Res.capture res) (idem_store w) (reject code message res w).
Proof. unfold reject. apply (json_stores_only _ (Res.status code res)). Qed.

Lemma respond_stores_only (r : Reply.t) (res : Res.t) (w : World.t) :
  stores_only (Res.capture res) (idem_store w) (respond r res w).
Proof.
  unfold respond.
  set (res1 := foldl _ res _).
  set (res2 := match Reply.status r with Some code => Res.status code res1 | None => res1 end).
  assert (Hcap : Res.capture res2 = Res.capture res).
  { unfold res2, res1. destruct (Reply.status r); simpl; apply ResFacts.capture_set_list. }
  destruct (Reply.body r).
  - rewrite <- Hcap. apply json_stores_only.
  - apply send_stores_only.
Qed.

Lemma serve_passes_on (cap : option string) (handler : Handler) (req : Request.t) :
  passes_on cap (serve handler req).
Proof. intros res w <-. apply respond_stores_only. Qed.

Lemma validateSignature_stores_only (gw : Gateway.t) (req : Request.t) (res : Res.t)
    (w : World.t) (next : Next) :
  passes_on (Res.capture res) next ->
  stores_only (Res.capture res) (idem_store w) (validateSignature gw req res w next).
Proof.
  intros Hnext. unfold validateSignature.
  repeat case_match; try apply reject_stores_only; try (by apply Hnext);
    try (unfold Res.uncaught; apply send_stores_only).
Qed.

Lemma replayProtection_stores_only (req : Request.t) (res : Res.t) (w : World.t) (next : Next) :
  passes_on (Res.capture res) next ->
  stores_only (Res.capture res) (idem_store w) (replayProtection req res w next).
Proof.
  intros Hnext. unfold replayProtection.
  repeat case_match; try (by apply Hnext).
  - exact (reject_stores_only 409 _ res (World.with_replayNonces w _)).
  - exact (Hnext res (World.with_replayNonces _ _) eq_refl).
Qed.

Lemma paymentRequired_stores_only (gw : Gateway.t) (req : Request.t) (res : Res.t)
    (w : World.t) (next : Next) :
  passes_on (Res.capture res) next ->
  stores_only (Res.capture res) (idem_store w) (paymentRequired gw req res w next).
Proof.
  intros Hnext. unfold paymentRequired.
  repeat case_match; try apply reject_stores_only; try (by apply Hnext).
  apply (json_stores_only _ (Res.set _ _ (Res.status 402 res))).
Qed.

(** The key idempotency() wraps [res.json] under, if the request has a
    non-empty [idempotency-key]. *)
Definition capture_key (req : Request.t) : option string :=
  match Request.header "idempotency-key" req with
  | Some token =>
      if Js.truthy token
      then Some (idempotencyKey token (Request.method req) (Request.path req))
      else None
  | None => None
  end.

Lemma replay_unfold (c : CachedResponse.t) (res : Res.t) (w : World.t) :
  replay c res w =
  ({| Response.status := CachedResponse.status c;
      Response.headers := CachedResponse.headers c ∪ Res.headers res;
      Response.body := JsonBody (CachedResponse.body c) |},
   match Res.capture res with
   | Some key =>
       Res.captured key (CachedResponse.body c)
         (Res.mk (CachedResponse.status c) (CachedResponse.headers c ∪ Res.headers res)
                 (Res.paymentPayload res) (Res.receipt res) (Res.capture res)) w
   | None => w
   end).
Proof. unfold replay. rewrite ResFacts.set_all. done. Qed.

Lemma idempotency_stores_only (req : Request.t) (w : World.t) (next : Next) :
  (forall cap, passes_on cap next) ->
  stores_only (capture_key req) (idem_store w) (idempotency req Res.fresh w next).
Proof.
  intros Hnext. unfold idempotency, capture_key.
  destruct (Request.header "idempotency-key" req) as [token|]; [|by apply Hnext].
  destruct (Js.truthy token); simpl; [|by apply Hnext].
  destruct (TtlCache.get _ _ _) as [[c|] cache] eqn:Hget.
  - apply TtlCacheFacts.get_Some in Hget as [-> _].
    rewrite replay_unfold. simpl. intros k e He. left. by destruct w.
  - apply TtlCacheFacts.get_None_store in Hget as (Hkey & _ & Hother).
    eapply stores_only_mono; [|apply (Hnext _ (Res.wrap_json _ Res.fresh)); done].
    intros k e. unfold idem_store. simpl.
    destruct (decide (k = idempotencyKey token (Request.method req) (Request.path req)))
      as [->|Hne]; [by rewrite Hkey | by rewrite Hother].
Qed.

(** One request through the whole stack stores nothing but its own 2xx
    JSON reply, under the key of its [idempotency-key]. *)
Lemma handle_stores_only (gw : Gateway.t) (handler : Handler) (req : Request.t) (w : World.t) :
  stores_only (capture_key req) (idem_store w) (handle gw handler req w).
Proof.
  unfold handle, protected. apply idempotency_stores_only.
  intros cap res1 w1 Hc1. rewrite <- Hc1. apply validateSignature_stores_only.
  intros res2 w2 Hc2. rewrite <- Hc2. apply replayProtection_stores_only.
  intros res3 w3 Hc3. rewrite <- Hc3. apply paymentRequired_stores_only.
  apply serve_passes_on.
Qed.

End IdempotencyFacts.

(** ** A concrete gateway, for examples

    The gateway started with an empty environment (mock mode, default
    recipient and price), a client that encodes payloads the way
    packages/autopay does, and a platform that decodes exactly what that
    client encodes. *)

Module Fixture.

Definition fallback_gateway : Gateway.t :=
  Gateway.mk (Config.mk "" "" "" "" true None "" None "") [].

Definition booted (env : gmap string string) : Gateway.t :=
  match Gateway.boot env with Ok gw => gw | Throw _ => fallback_gateway end.

Definition gateway : Gateway.t := booted ∅.

(** signer.ts: the payload object, in its key order. *)
Definition payload_json (p : PaymentPayload.t) : Json.t :=
  Json.JObj (Json.member_opt "x402Version" (Json.JNum <$> PaymentPayload.x402Version p)
             ++ Json.member_opt "scheme" (Json.JStr <$> PaymentPayload.scheme p)
             ++ Json.member_opt "network" (Json.JStr <$> PaymentPayload.network p)
             ++ Json.member_opt "asset" (Json.JStr <$> PaymentPayload.asset p)
             ++ Json.member_opt "payTo" (Json.JStr <$> PaymentPayload.payTo p)
             ++ Json.member_opt "amount" (Json.JStr <$> PaymentPayload.amount p)
             ++ Json.member_opt "nonce" (Json.JStr <$> PaymentPayload.nonce p)
             ++ Json.member_opt "signature" (Json.JStr <$> PaymentPayload.signature p)
             ++ Json.member_opt "resource" (Json.JStr <$> PaymentPayload.resource p)
             ++ Json.member_opt "memo" (Json.JStr <$> PaymentPayload.memo p)).

Definition sign (p : PaymentPayload.t) : string := toBase64 (payload_json p).

Definition payment (nonce : string) (memo : option string) (amount : string)
  : PaymentPayload.t :=
  {| PaymentPayload.x402Version := Some 2;
     PaymentPayload.scheme := Some "exact";
     PaymentPayload.network := Some "stacks:2147483648";
     PaymentPayload.asset := Some "STX";
     PaymentPayload.payTo := Some "ST1PQHQKV0RJXZFY1DGX8MNSNYVE3VGZJSRTPGZGM";
     PaymentPayload.amount := Some amount;
     PaymentPayload.nonce := Some nonce;
     PaymentPayload.signature := Some "sig-1";
     PaymentPayload.resource := Some "http://127.0.0.1/v1/premium/echo";
     PaymentPayload.memo := memo |}.

Definition version1 : PaymentPayload.t :=
  {| PaymentPayload.x402Version := Some 1;
     PaymentPayload.scheme := Some "exact";
     PaymentPayload.network := Some "stacks:2147483648";
     PaymentPayload.asset := Some "STX";
     PaymentPayload.payTo := Some "ST1PQHQKV0RJXZFY1DGX8MNSNYVE3VGZJSRTPGZGM";
     PaymentPayload.amount := Some "100000";
     PaymentPayload.nonce := Some "n-v1";
     PaymentPayload.signature := Some "sig-1";
     PaymentPayload.resource := Some "http://127.0.0.1/health";
     PaymentPayload.memo := None |}.

Definition known_payloads : list PaymentPayload.t :=
  [payment "n-1" None "100000"; payment "n-2" None "100000";
   payment "a:b" None "100000"; payment "a" (Some "b") "100000";
   payment "n-3" None "99999"; payment "n-4" None "12abc";
   payment "n-5" None "340282366920938463463374607431768211456";
   payment "n-6" None "10"; payment "n-7" None "49";
   payment "shared" (Some "memo-A") "100000"; payment "shared" (Some "memo-B") "100000";
   version1].

Definition decode (raw : string) : Decoded :=
  match List.find (fun p => String.eqb (sign p) raw) known_payloads with
  | Some p => Parsed p
  | None =>
      if String.eqb raw (toBase64 Json.JNull) then Null
      else NotJson "Unexpected token in JSON"
  end.

Definition platform : Platform :=
  {| decodePayload := decode;
     parseJson := fun text => Ok (Json.JStr text);
     postVerify := fun _ _ _ => Rejected "fetch failed";
     postSettle := fun _ _ _ => Rejected "fetch failed";
     fetchUpstream := fun _ _ _ _ => Throw "fetch failed";
     toISOString := fun ms => Js.Z_to_string ms |}.

Definition request (method path : string) (headers : list (string * HeaderValue))
  : Request.t :=
  {| Request.method := method;
     Request.path := path;
     Request.originalUrl := path;
     Request.protocol := "http";
     Request.headers := list_to_map (("host", HStr "127.0.0.1:3000") :: headers);
     Request.query := {[ "msg" := "hello" ]};
     Request.body := Json.JObj [] |}.

Definition echo (headers : list (string * HeaderValue)) : Request.t :=
  request "GET" "/v1/premium/echo" headers.

(** One request to the echo route, at time [t]. *)
Definition send (t : Z) (req : Request.t) (w : World.t) : Response.t * World.t :=
  @handle platform gateway (@echoHandler platform) req (World.at_time t w).

Lemma gateway_booted : Gateway.boot ∅ = Ok gateway.
Proof. reflexivity. Qed.

End Fixture.

(** ** Idempotency (C2) *)

Section Idempotency.
Context `{Platform}.

(** C2: through the whole stack, the idempotency cache gains an entry
    only under the key of the request's [idempotency-key] and only for
    a 2xx reply sent with [res.json] (so a reply that is not 2xx, a 402
    in particular, stores nothing); and when the key of (method, path,
    idempotency-key) hits, the reply is the stored status, the stored
    headers (the [payment-response] header, if one was stored) and the
    stored body, whatever the downstream stages are, and no cache
    changes. *)
Theorem C2_idempotency_cache (gw : Gateway.t) (handler : Handler) (req : Request.t)
    (w : World.t) :
  (forall k e,
      idem_store (handle gw handler req w).2 !! k = Some e ->
      idem_store w !! k = Some e
      \/ (capture_key req = Some k /\ captures (handle gw handler req w).1 e))
  /\ (~ (200 <= Response.status (handle gw handler req w).1 < 300) ->
      forall k e, idem_store (handle gw handler req w).2 !! k = Some e ->
                  idem_store w !! k = Some e)
  /\ (forall token c cache,
        Request.header "idempotency-key" req = Some token -> token <> "" ->
        TtlCache.get (World.now w)
          (idempotencyKey token (Request.method req) (Request.path req))
          (World.idempotencyCache w) = (Some c, cache) ->
        forall next : Next,
          idempotency req Res.fresh w next
          = ({| Response.status := CachedResponse.status c;
                Response.headers := CachedResponse.headers c;
                Response.body := JsonBody (CachedResponse.body c) |}, w)).
Proof.
  pose proof (handle_stores_only gw handler req w) as Hstores.
  split; [exact Hstores|]. split.
  - intros Hnot k e He. destruct (Hstores k e He) as [Hold|[_ Hcap]]; [done|].
    destruct Hcap as [H2xx _]. contradiction.
  - intros token c cache Htoken Hne Hget next. unfold idempotency.
    rewrite Htoken. unfold Js.truthy.
    destruct (String.eqb_spec token ""); [done|]. simpl.
    rewrite Hget. apply TtlCacheFacts.get_Some in Hget as [-> _].
    rewrite replay_unfold. simpl. rewrite (right_id_L ∅ (∪)). by destruct w.
Qed.

End Idempotency.

Module IdempotencyExample.
Import Fixture.

Definition paid_with_key : Request.t :=
  echo [("payment-signature", HStr (sign (payment "n-1" None "100000")));
        ("idempotency-key", HStr "k1")].

Definition retry_with_key : Request.t :=
  echo [("payment-signature", HStr (sign (payment "n-2" None "100000")));
        ("idempotency-key", HStr "k1")].

Definition after_first : World.t := (send 1000 paid_with_key (World.initial 0)).2.

(** The second request with the key of the first is answered from the
    cache with the first reply, whatever comes after idempotency(). *)
Lemma C2_idempotency_witness :
  exists c cache,
    TtlCache.get 2000 (idempotencyKey "k1" "GET" "/v1/premium/echo")
      (World.idempotencyCache after_first) = (Some c, cache)
    /\ CachedResponse.status c = 200
    /\ forall next : Next,
         idempotency retry_with_key Res.fresh (World.at_time 2000 after_first) next
         = ({| Response.status := CachedResponse.status c;
               Response.headers := CachedResponse.headers c;
               Response.body := JsonBody (CachedResponse.body c) |},
            World.at_time 2000 after_first).
Proof.
  destruct (TtlCache.get 2000 (idempotencyKey "k1" "GET" "/v1/premium/echo")
              (World.idempotencyCache after_first)) as [[c|] cache] eqn:Hget;
    [|vm_compute in Hget; discriminate].
  exists c, cache. split; [reflexivity|]. split.
  { vm_compute in Hget. injection Hget as <- _. reflexivity. }
  destruct (@C2_idempotency_cache platform gateway (@echoHandler platform) retry_with_key
              (World.at_time 2000 after_first)) as (_ & _ & Hhit).
  apply (Hhit "k1" c cache); [reflexivity | done | exact Hget].
Defined.

Example retry_is_first_reply :
  (send 2000 retry_with_key after_first).1 = (send 1000 paid_with_key (World.initial 0)).1.
Proof. vm_compute. reflexivity. Qed.

End IdempotencyExample.
(** ** Replay protection (C3) *)

Section Replay.
Context `{Platform}.

(** What happens to the gateway between two requests of interest: other
    requests arrive, and the caches' timers sweep. *)
Inductive Event :=
  | Arrival (t : Z) (req : Request.t) (handler : Handler)
  | SweepNonces (t : Z)
  | SweepIdempotency (t : Z).

Definition event_time (ev : Event) : Z :=
  match ev with Arrival t _ _ => t | SweepNonces t => t | SweepIdempotency t => t end.

Definition step (gw : Gateway.t) (w : World.t) (ev : Event) : World.t :=
  match ev with
  | Arrival t req handler => (handle gw handler req (World.at_time t w)).2
  | SweepNonces t =>
      World.with_replayNonces (World.at_time t w) (TtlCache.sweep t (World.replayNonces w))
  | SweepIdempotency t =>
      World.with_idempotencyCache (World.at_time t w)
        (TtlCache.sweep t (World.idempotencyCache w))
  end.

Definition run (gw : Gateway.t) (events : list Event) (w : World.t) : World.t :=
  foldl (step gw) w events.

Definition nonce_store (w : World.t) : gmap string (TtlCache.CacheEntry ()) :=
  TtlCache.store (World.replayNonces w).

(** The invariant: the key is recorded with expiry [expiry], and the
    cache's time to live is [ttl]. *)
Definition recorded (key : string) (expiry ttl : Z) (w : World.t) : Prop :=
  nonce_store w !! key = Some (TtlCache.mkEntry () expiry)
  /\ TtlCache.defaultTtlMs (World.replayNonces w) = ttl.

Definition replay_message : string := "Replay detected: payment nonce has already been used".

Lemma eta_world (w : World.t) :
  World.mk (World.now w) (World.idempotencyCache w) (World.replayNonces w) = w.
Proof. by destruct w. Qed.

Lemma eta_replayNonces (w : World.t) : World.with_replayNonces w (World.replayNonces w) = w.
Proof. by destruct w. Qed.

(** Use: a recorded, unexpired key stops the request with 409. *)
Lemma replayProtection_seen (req : Request.t) (res : Res.t) (w : World.t) (next : Next)
    (raw : string) (payload : PaymentPayload.t) :
  Request.header X402_HEADERS.SIGNATURE req = Some raw -> raw <> "" ->
  Res.paymentPayload res = Some payload ->
  (TtlCache.has (World.now w) (extractNonceKey payload) (World.replayNonces w)).1 = true ->
  replayProtection req res w next = reject 409 replay_message res w.
Proof.
  intros Hraw Hne Hpayload Hseen. unfold replayProtection.
  change (Js.toLowerCase X402_HEADERS.SIGNATURE) with X402_HEADERS.SIGNATURE.
  rewrite Hraw. unfold Js.truthy. destruct (String.eqb_spec raw ""); [done|]. simpl.
  rewrite Hpayload.
  destruct (TtlCache.has _ _ _) as [seen nonces] eqn:Hhas. simpl in Hseen. subst seen.
  apply TtlCacheFacts.has_true in Hhas as [-> _]. by rewrite eta_replayNonces.
Qed.

(** The world the stage hands on for a key that was not there: the read
    has dropped the key's expired entry, if any, and the key is set. *)
Definition record_nonce (key : string) (w : World.t) : World.t :=
  let w1 := World.with_replayNonces w
              (TtlCache.has (World.now w) key (World.replayNonces w)).2 in
  World.with_replayNonces w1 (TtlCache.set (World.now w1) key () (World.replayNonces w1)).

(** Establish: a key that is not there is recorded, and only then does
    the rest of the stack run. *)
Lemma replayProtection_fresh (req : Request.t) (res : Res.t) (w : World.t) (next : Next)
    (raw : string) (payload : PaymentPayload.t) :
  Request.header X402_HEADERS.SIGNATURE req = Some raw -> raw <> "" ->
  Res.paymentPayload res = Some payload ->
  (TtlCache.has (World.now w) (extractNonceKey payload) (World.replayNonces w)).1 = false ->
  replayProtection req res w next = next res (record_nonce (extractNonceKey payload) w).
Proof.
  intros Hraw Hne Hpayload Hseen. unfold replayProtection, record_nonce.
  change (Js.toLowerCase X402_HEADERS.SIGNATURE) with X402_HEADERS.SIGNATURE.
  rewrite Hraw. unfold Js.truthy. destruct (String.eqb_spec raw ""); [done|]. simpl.
  rewrite Hpayload.
  destruct (TtlCache.has _ _ _) as [seen nonces] eqn:Hhas. simpl in Hseen. by subst seen.
Qed.

Lemma record_nonce_recorded (key : string) (w : World.t) :
  (TtlCache.has (World.now w) key (World.replayNonces w)).1 = false ->
  recorded key (World.now w + TtlCache.defaultTtlMs (World.replayNonces w))
    (TtlCache.defaultTtlMs (World.replayNonces w)) (record_nonce key w)
  /\ World.now (record_nonce key w) = World.now w
  /\ World.idempotencyCache (record_nonce key w) = World.idempotencyCache w.
Proof.
  intros Hseen. unfold record_nonce.
  destruct (TtlCache.has _ _ _) as [seen nonces] eqn:Hhas. simpl in Hseen. subst seen.
  apply TtlCacheFacts.has_false, TtlCacheFacts.get_None_store in Hhas as (_ & Httl & _).
  simpl. split; [|done].
  unfold recorded, nonce_store. simpl. rewrite lookup_insert_eq. by rewrite Httl.
Qed.

(** Preserve, stage by stage: while the entry has not expired, no stage
    removes or replaces it. *)
Definition keeps (key : string) (expiry ttl : Z) (o : Response.t * World.t) : Prop :=
  recorded key expiry ttl o.2.

Definition live (key : string) (expiry ttl : Z) (w : World.t) : Prop :=
  recorded key expiry ttl w /\ World.now w < expiry.

Definition carries (key : string) (expiry ttl : Z) (next : Next) : Prop :=
  forall res w, live key expiry ttl w -> keeps key expiry ttl (next res w).

Lemma json_keeps (key : string) (expiry ttl : Z) (body : Json.t) (res : Res.t) (w : World.t) :
  recorded key expiry ttl w -> keeps key expiry ttl (Res.json body res w).
Proof.
  intros Hrec. unfold keeps, Res.json. simpl.
  destruct (Res.capture res); [|done]. unfold Res.captured. by case_match.
Qed.

Lemma respond_keeps (key : string) (expiry ttl : Z) (r : Reply.t) (res : Res.t) (w : World.t) :
  recorded key expiry ttl w -> keeps key expiry ttl (respond r res w).
Proof. intros Hrec. unfold respond. destruct (Reply.body r); [by apply json_keeps | done]. Qed.

Lemma validateSignature_keeps (key : string) (expiry ttl : Z) (gw : Gateway.t)
    (req : Request.t) (res : Res.t) (w : World.t) (next : Next) :
  carries key expiry ttl next -> live key expiry ttl w ->
  keeps key expiry ttl (validateSignature gw req res w next).
Proof.
  intros Hnext Hlive. unfold validateSignature.
  repeat case_match; try (by apply Hnext); try (apply json_keeps; apply Hlive);
    apply Hlive.
Qed.

Lemma paymentRequired_keeps (key : string) (expiry ttl : Z) (gw : Gateway.t)
    (req : Request.t) (res : Res.t) (w : World.t) (next : Next) :
  carries key expiry ttl next -> live key expiry ttl w ->
  keeps key expiry ttl (paymentRequired gw req res w next).
Proof.
  intros Hnext Hlive. unfold paymentRequired.
  repeat case_match; try (by apply Hnext); apply json_keeps; apply Hlive.
Qed.

Lemma replayProtection_keeps (key : string) (expiry ttl : Z) (req : Request.t)
    (res : Res.t) (w : World.t) (next : Next) :
  carries key expiry ttl next -> live key expiry ttl w ->
  keeps key expiry ttl (replayProtection req res w next).
Proof.
  intros Hnext Hlive. unfold replayProtection.
  destruct (Request.header _ req) as [raw|]; [|by apply Hnext].
  destruct (negb (Js.truthy raw)); [by apply Hnext|].
  destruct (Res.paymentPayload res) as [payload|]; [|by apply Hnext].
  destruct Hlive as [[Hentry Httl] Hnow].
  destruct (TtlCache.has _ _ _) as [seen nonces] eqn:Hhas. destruct seen.
  - apply TtlCacheFacts.has_true in Hhas as [-> _]. apply json_keeps.
    by rewrite eta_replayNonces.
  - apply TtlCacheFacts.has_false in Hhas.
    assert (Hne : key <> extractNonceKey payload).
    { intros Heq. rewrite <- Heq in Hhas. unfold nonce_store in Hentry.
      rewrite (TtlCacheFacts.get_live _ _ _ _ Hentry) in Hhas; [done | exact Hnow]. }
    apply TtlCacheFacts.get_None_store in Hhas as (_ & Httl' & Hother).
    apply Hnext. split; [|done]. unfold recorded, nonce_store. simpl.
    rewrite lookup_insert_ne by done. rewrite Hother by done. split; [done | congruence].
Qed.

Lemma idempotency_keeps (key : string) (expiry ttl : Z) (req : Request.t)
    (res : Res.t) (w : World.t) (next : Next) :
  carries key expiry ttl next -> live key expiry ttl w ->
  keeps key expiry ttl (idempotency req res w next).
Proof.
  intros Hnext Hlive. unfold idempotency.
  destruct (Request.header _ req) as [token|]; [|by apply Hnext].
  destruct (negb (Js.truthy token)); [by apply Hnext|].
  destruct (TtlCache.get _ _ _) as [[c|] cache].
  - unfold replay. apply json_keeps. apply Hlive.
  - apply Hnext. exact Hlive.
Qed.

Lemma handle_keeps (key : string) (expiry ttl : Z) (gw : Gateway.t) (handler : Handler)
    (req : Request.t) (w : World.t) :
  live key expiry ttl w -> keeps key expiry ttl (handle gw handler req w).
Proof.
  intros Hlive. unfold handle, protected.
  apply idempotency_keeps; [|done]. intros res1 w1 H1.
  apply validateSignature_keeps; [|done]. intros res2 w2 H2.
  apply replayProtection_keeps; [|done]. intros res3 w3 H3.
  apply paymentRequired_keeps; [|done]. intros res4 w4 H4.
  apply respond_keeps. apply H4.
Qed.

Lemma step_keeps (key : string) (expiry ttl : Z) (gw : Gateway.t) (ev : Event) (w : World.t) :
  recorded key expiry ttl w -> event_time ev < expiry ->
  recorded key expiry ttl (step gw w ev).
Proof.
  intros Hrec Hlt. destruct ev as [t req handler|t|t]; simpl in *.
  - apply handle_keeps. split; [by destruct w | done].
  - destruct Hrec as [Hentry Httl]. split; [|done].
    unfold nonce_store, TtlCache.sweep. simpl.
    apply map_lookup_filter_Some. split; [done|]. simpl. lia.
  - by destruct w.
Qed.

Lemma run_keeps (key : string) (expiry ttl : Z) (gw : Gateway.t) (events : list Event)
    (w : World.t) :
  recorded key expiry ttl w ->
  Forall (fun ev => event_time ev < expiry) events ->
  recorded key expiry ttl (run gw events w).
Proof.
  intros Hrec Hall. revert w Hrec. unfold run.
  induction Hall as [|ev events Hev _ IH]; intros w Hrec; simpl; [done|].
  apply IH. by apply step_keeps.
Qed.

Lemma recorded_has (key : string) (expiry ttl t : Z) (w : World.t) :
  recorded key expiry ttl w -> t < expiry ->
  (TtlCache.has t key (World.replayNonces w)).1 = true.
Proof.
  intros [Hentry _] Hlt. unfold TtlCache.has.
  by rewrite (TtlCacheFacts.get_live _ _ _ _ Hentry).
Qed.

Lemma same_tuple_same_key (p q : PaymentPayload.t) :
  PaymentPayload.nonce q = PaymentPayload.nonce p ->
  PaymentPayload.memo q = PaymentPayload.memo p ->
  extractNonceKey q = extractNonceKey p.
Proof. intros Hn Hm. unfold extractNonceKey. by rewrite Hn, Hm. Qed.

(** C3: for a request with a [payment-signature] header and a validated
    payload, a nonce key that is in the nonce cache gives 409 with the
    replay error and the rest of the stack does not run; a key that is
    not there is recorded first and only then is control passed on (to
    the payment gate, which settles); and from then on, whatever other
    requests and sweeps happen in between, a request with the same
    (nonce, memo) that reaches the stage before the time to live has
    passed is rejected with 409. *)
Theorem C3_replay_protection (gw : Gateway.t) (req : Request.t) (res : Res.t) (w : World.t)
    (raw : string) (payload : PaymentPayload.t) :
  Request.header X402_HEADERS.SIGNATURE req = Some raw -> raw <> "" ->
  Res.paymentPayload res = Some payload ->
  let key := extractNonceKey payload in
  let ttl := TtlCache.defaultTtlMs (World.replayNonces w) in
  ((TtlCache.has (World.now w) key (World.replayNonces w)).1 = true ->
   forall next : Next, replayProtection req res w next = reject 409 replay_message res w)
  /\ ((TtlCache.has (World.now w) key (World.replayNonces w)).1 = false ->
      let w' := record_nonce key w in
      (forall next : Next, replayProtection req res w next = next res w')
      /\ nonce_store w' !! key = Some (TtlCache.mkEntry () (World.now w + ttl))
      /\ World.idempotencyCache w' = World.idempotencyCache w
      /\ forall (events : list Event) (t2 : Z) (req2 : Request.t) (res2 : Res.t)
                (raw2 : string) (payload2 : PaymentPayload.t) (next2 : Next),
           Forall (fun ev => event_time ev < World.now w + ttl) events ->
           t2 < World.now w + ttl ->
           Request.header X402_HEADERS.SIGNATURE req2 = Some raw2 -> raw2 <> "" ->
           Res.paymentPayload res2 = Some payload2 ->
           PaymentPayload.nonce payload2 = PaymentPayload.nonce payload ->
           PaymentPayload.memo payload2 = PaymentPayload.memo payload ->
           replayProtection req2 res2 (World.at_time t2 (run gw events w')) next2
           = reject 409 replay_message res2 (World.at_time t2 (run gw events w'))).
Proof.
  intros Hraw Hne Hpayload key ttl. split.
  - intros Hseen next. by eapply replayProtection_seen.
  - intros Hfresh w'.
    destruct (record_nonce_recorded key w Hfresh) as (Hrec & _ & Hidem).
    split; [|split; [apply Hrec|split; [exact Hidem|]]].
    + intros next. by eapply replayProtection_fresh.
    + intros events t2 req2 res2 raw2 payload2 next2 Hevents Ht2 Hraw2 Hne2 Hpayload2 Hn Hm.
      eapply replayProtection_seen; [done..|].
      rewrite (same_tuple_same_key payload payload2 Hn Hm).
      eapply recorded_has; [|exact Ht2]. simpl.
      pose proof (run_keeps _ _ _ gw events w' Hrec Hevents) as [Hentry Httl].
      split; [exact Hentry | exact Httl].
Qed.

End Replay.

Module ReplayExample.
Import Fixture.

Definition first : Request.t :=
  echo [("payment-signature", HStr (sign (payment "n-1" None "100000")))].
Definition other : Request.t :=
  echo [("payment-signature", HStr (sign (payment "n-2" None "100000")))].
Definition validated : Res.t :=
  Res.set_paymentPayload (payment "n-1" None "100000") Res.fresh.
Definition arrival : World.t := World.at_time 1000 (World.initial 0).
Definition between : list Event :=
  [Arrival 1500 other (@echoHandler platform); SweepNonces 61000; SweepIdempotency 61000].

(** A nonce used at time 1000 is refused at time 120000, other traffic
    and sweeps notwithstanding. *)
Lemma C3_replay_protection_witness :
  (forall next : Next,
      replayProtection first validated arrival next
      = next validated (record_nonce "nonce:n-1" arrival))
  /\ forall next : Next,
      replayProtection first validated
        (World.at_time 120000
           (@run platform gateway between (record_nonce "nonce:n-1" arrival))) next
      = reject 409 replay_message validated
          (World.at_time 120000
             (@run platform gateway between (record_nonce "nonce:n-1" arrival))).
Proof.
  destruct (@C3_replay_protection platform gateway first validated arrival
              (sign (payment "n-1" None "100000")) (payment "n-1" None "100000")
              eq_refl ltac:(done) eq_refl) as [_ Hfresh].
  destruct (Hfresh eq_refl) as (Hnext & _ & _ & Hlater).
  split; [exact Hnext|].
  intros next.
  apply (Hlater between 120000 first validated (sign (payment "n-1" None "100000"))
           (payment "n-1" None "100000") next);
    [repeat constructor | done | reflexivity | done | reflexivity | reflexivity | reflexivity].
Defined.

End ReplayExample.

(** ** The nonce key (C6) *)

Module NonceKeyExample.
Import Fixture.

Definition colon_in_nonce : PaymentPayload.t := payment "a:b" None "100000".
Definition nonce_and_memo : PaymentPayload.t := payment "a" (Some "b") "100000".

Definition tuple (p : PaymentPayload.t) : option string * option string :=
  (PaymentPayload.nonce p, PaymentPayload.memo p).

(** Where the key does tell tuples apart: nonces without a colon, and
    memos that are absent or not empty. *)
Fixpoint colon_free (s : string) : Prop :=
  match s with
  | EmptyString => True
  | String c r => c <> ":"%char /\ colon_free r
  end.

Definition empty_or_colon (s : string) : Prop := s = "" \/ exists r, s = String ":" r.

Lemma app_inv_head (a x y : string) : a +:+ x = a +:+ y -> x = y.
Proof. induction a as [|c a IH]; [done|]. intros [= Heq]. by apply IH. Qed.

Lemma split_at_colon (a b s t : string) :
  colon_free a -> colon_free b -> empty_or_colon s -> empty_or_colon t ->
  a +:+ s = b +:+ t -> a = b /\ s = t.
Proof.
  revert b. induction a as [|c a IH]; intros b Ha Hb Hs Ht Heq.
  - destruct b as [|d b]; [done|]. exfalso.
    change (s = String d (b +:+ t)) in Heq. destruct Hb as [Hd _].
    destruct Hs as [->|[r ->]]; [done | congruence].
  - destruct b as [|d b].
    + exfalso. change (String c (a +:+ s) = t) in Heq. destruct Ha as [Hc _].
      destruct Ht as [->|[r ->]]; [done | congruence].
    + injection Heq as -> Heq. destruct Ha as [_ Ha], Hb as [_ Hb].
      destruct (IH b Ha Hb Hs Ht Heq) as [-> ->]. done.
Qed.

Lemma key_shape (p : PaymentPayload.t) :
  extractNonceKey p
  = "nonce:" +:+ (Js.join_item (PaymentPayload.nonce p)
                  +:+ (if Js.truthy_opt (PaymentPayload.memo p)
                       then ":" +:+ Js.join_item (PaymentPayload.memo p) else "")).
Proof.
  unfold extractNonceKey. destruct (Js.truthy_opt (PaymentPayload.memo p)); simpl.
  - done.
  - by rewrite DiscoveryFacts.append_nil_r.
Qed.

Lemma key_injective_without_colon (p q : PaymentPayload.t) (n n' : string) :
  PaymentPayload.nonce p = Some n -> PaymentPayload.nonce q = Some n' ->
  colon_free n -> colon_free n' ->
  PaymentPayload.memo p <> Some "" -> PaymentPayload.memo q <> Some "" ->
  extractNonceKey p = extractNonceKey q ->
  tuple p = tuple q.
Proof.
  intros Hn Hn' Hc Hc' Hm Hm'. rewrite !key_shape, Hn, Hn'. simpl.
  intros Heq%app_inv_head. unfold tuple. rewrite Hn, Hn'.
  assert (Hs : forall o, empty_or_colon
                           (if Js.truthy_opt o then ":" +:+ Js.join_item o else "")).
  { intros o. destruct (Js.truthy_opt o); [right; eexists; reflexivity | by left]. }
  apply split_at_colon in Heq as [-> Hmemo]; [|done|done|apply Hs|apply Hs].
  assert (Htruthy : forall m, Some m <> Some "" -> negb (String.eqb m "") = true).
  { intros m Hne. destruct (String.eqb_spec m ""); [congruence | done]. }
  f_equal. destruct (PaymentPayload.memo p) as [m|], (PaymentPayload.memo q) as [m'|];
    simpl in Hmemo; unfold Js.truthy in Hmemo; rewrite ?Htruthy in Hmemo by done.
  - change (String ":" m = String ":" m') in Hmemo. by injection Hmemo as ->.
  - change (String ":" m = "") in Hmemo. discriminate.
  - change ("" = String ":" m') in Hmemo. discriminate.
  - done.
Qed.

(** C6 fails on the code: [parts.join(":")] does not tell where the nonce
    ends. The payload with nonce [a:b] and no memo and the payload with
    nonce [a] and memo [b] are different tuples with the one key
    [nonce:a:b]; after the first is paid, the second is refused with 409. *)
Theorem C6_nonce_key_collision :
  tuple colon_in_nonce <> tuple nonce_and_memo
  /\ extractNonceKey colon_in_nonce = "nonce:a:b"
  /\ extractNonceKey nonce_and_memo = "nonce:a:b"
  /\ Response.status
       (send 1000 (echo [("payment-signature", HStr (sign colon_in_nonce))])
          (World.initial 0)).1 = 200
  /\ Response.status
       (send 2000 (echo [("payment-signature", HStr (sign nonce_and_memo))])
          (send 1000 (echo [("payment-signature", HStr (sign colon_in_nonce))])
             (World.initial 0)).2).1 = 409.
Proof. repeat split; try reflexivity. discriminate. Qed.

End NonceKeyExample.

(** ** The gateway's registry after start-up *)

Module GatewayFacts.

Definition registered_pairs : list (string * string) :=
  [("/v1/premium/echo", "GET"); ("/proxy/api/weather", "GET"); ("/proxy/api/summarize", "POST")].

(** Whatever the environment, a gateway that starts has exactly the three
    routes of policies.ts. *)
Lemma boot_pairs (env : gmap string string) (gw : Gateway.t) :
  Gateway.boot env = Ok gw -> RegistryFacts.key <$> Gateway.engine gw = registered_pairs.
Proof.
  unfold Gateway.boot. destruct (Config.load env) as [config|]; [|done].
  destruct (Policies.engine config) as [engine|] eqn:Hengine; [|done].
  intros [= <-]. simpl. revert Hengine. unfold Policies.engine.
  destruct (PolicyBuilder.build (Policies.echo config)) as [p1|] eqn:H1; [|done].
  destruct (PolicyBuilder.build (Policies.weather config)) as [p2|] eqn:H2; [|done].
  destruct (PolicyBuilder.build (Policies.summarize config)) as [p3|] eqn:H3; [|done].
  intros [= <-].
  unfold PolicyBuilder.build in H1, H2, H3. simpl in H1, H2, H3.
  repeat case_match; simplify_eq. reflexivity.
Qed.

Lemma registered_pairs_NoDup : NoDup registered_pairs.
Proof. apply (bool_decide_unpack _). vm_compute. done. Qed.

Lemma match_upper (path m m' : string) (engine : PolicyEngine.t) :
  Js.toUpperCase m = Js.toUpperCase m' ->
  PolicyEngine.match_ path m engine = PolicyEngine.match_ path m' engine.
Proof. intros Hm. unfold PolicyEngine.match_, PolicyEngine.matches. by rewrite Hm. Qed.

(** Every registered policy is found by its own path and method, in any
    letter case of the method. *)
Lemma findPolicy_registered (env : gmap string string) (gw : Gateway.t)
    (policy : RoutePolicy.t) (method : string) :
  Gateway.boot env = Ok gw -> policy ∈ Gateway.engine gw ->
  Js.toUpperCase method = method_name (RoutePolicy.method policy) ->
  Gateway.findPolicy gw (RoutePolicy.path policy) method = Some policy.
Proof.
  intros Hboot Hin Hmethod. unfold Gateway.findPolicy.
  rewrite (match_upper _ method (method_name (RoutePolicy.method policy))).
  - apply RegistryFacts.match_finds_unique; [|done].
    rewrite (boot_pairs env gw Hboot). apply registered_pairs_NoDup.
  - by rewrite RegistryFacts.method_name_upper.
Qed.

End GatewayFacts.
(** ** The 402 offer (C1) *)

Section Offer.
Context `{Platform}.

(** The stored reply the request would be answered with, if its
    [idempotency-key] hits the cache. *)
Definition cache_hit (req : Request.t) (w : World.t) : option CachedResponse.t :=
  match capture_key req with
  | Some key => (TtlCache.get (World.now w) key (World.idempotencyCache w)).1
  | None => None
  end.

(** What idempotency() hands on when there is no hit. *)
Definition after_miss (req : Request.t) (w : World.t) : Res.t * World.t :=
  match capture_key req with
  | Some key =>
      (Res.wrap_json key Res.fresh,
       World.with_idempotencyCache w
         (TtlCache.get (World.now w) key (World.idempotencyCache w)).2)
  | None => (Res.fresh, w)
  end.

Lemma idempotency_miss (req : Request.t) (w : World.t) (next : Next) :
  cache_hit req w = None ->
  idempotency req Res.fresh w next = next (after_miss req w).1 (after_miss req w).2.
Proof.
  unfold cache_hit, after_miss, capture_key, idempotency.
  destruct (Request.header "idempotency-key" req) as [token|]; [|done].
  destruct (Js.truthy token); simpl; [|done].
  destruct (TtlCache.get _ _ _) as [[c|] cache]; [done | done].
Qed.

Lemma idempotency_hit (req : Request.t) (w : World.t) (next : Next) (c : CachedResponse.t) :
  cache_hit req w = Some c ->
  idempotency req Res.fresh w next
  = ({| Response.status := CachedResponse.status c;
        Response.headers := CachedResponse.headers c;
        Response.body := JsonBody (CachedResponse.body c) |}, w).
Proof.
  unfold cache_hit, capture_key, idempotency.
  destruct (Request.header "idempotency-key" req) as [token|]; [|done].
  destruct (Js.truthy token); simpl; [|done].
  destruct (TtlCache.get _ _ _) as [[c'|] cache] eqn:Hget; [|done].
  simpl. intros [= ->]. apply TtlCacheFacts.get_Some in Hget as [-> _].
  rewrite replay_unfold. simpl. rewrite (right_id_L ∅ (∪)). by destruct w.
Qed.

Lemma after_miss_res (req : Request.t) (w : World.t) :
  Res.statusCode (after_miss req w).1 = 200
  /\ Res.headers (after_miss req w).1 = ∅
  /\ Res.paymentPayload (after_miss req w).1 = None
  /\ Res.receipt (after_miss req w).1 = None
  /\ Res.capture (after_miss req w).1 = capture_key req.
Proof. unfold after_miss. by destruct (capture_key req). Qed.

Lemma after_miss_world (req : Request.t) (w : World.t) :
  World.now (after_miss req w).2 = World.now w
  /\ World.replayNonces (after_miss req w).2 = World.replayNonces w
  /\ forall k e, idem_store (after_miss req w).2 !! k = Some e -> idem_store w !! k = Some e.
Proof.
  unfold after_miss. destruct (capture_key req) as [key|]; [|done]. simpl.
  split; [done|]. split; [done|]. intros k e. unfold idem_store. simpl.
  unfold TtlCache.get. destruct (TtlCache.store _ !! key) as [entry|] eqn:He; [|done].
  destruct (TtlCache.expiresAt entry <=? World.now w); [|done]. simpl.
  intros [_ Hk]%lookup_delete_Some. done.
Qed.

(** The payment gate alone: a policy and no payload in scratch give 402. *)
Lemma paymentRequired_no_payload (gw : Gateway.t) (policy : RoutePolicy.t) (req : Request.t)
    (res : Res.t) (w : World.t) (next : Next) :
  Gateway.findPolicy gw (Request.path req) (Request.method req) = Some policy ->
  Res.paymentPayload res = None ->
  let requirements :=
    PaymentRequirements.to_json (buildRequirements (buildAccept gw policy req)) in
  paymentRequired gw req res w next
  = Res.json requirements
      (Res.set X402_HEADERS.REQUIRED (toBase64 requirements) (Res.status 402 res)) w.
Proof. intros Hpolicy Hpayload. unfold paymentRequired. by rewrite Hpolicy, Hpayload. Qed.

Lemma no_signature_passes (gw : Gateway.t) (req : Request.t) (res : Res.t) (w : World.t)
    (next : Next) :
  Request.header X402_HEADERS.SIGNATURE req = None ->
  validateSignature gw req res w (fun res2 w2 => replayProtection req res2 w2 next)
  = next res w.
Proof.
  intros Hnone. unfold validateSignature, replayProtection.
  change (Js.toLowerCase X402_HEADERS.SIGNATURE) with X402_HEADERS.SIGNATURE.
  by rewrite Hnone.
Qed.

(** The nine members the claim lists, read off the policy. *)
Definition carries_policy (gw : Gateway.t) (policy : RoutePolicy.t) (req : Request.t)
    (accept : PaymentAccept.t) : Prop :=
  PaymentAccept.scheme accept = RoutePolicy.scheme policy
  /\ PaymentAccept.network accept = RoutePolicy.network policy
  /\ PaymentAccept.maxAmountRequired accept = RoutePolicy.maxAmountRequired policy
  /\ PaymentAccept.resource accept
     = default (Request.protocol req +:+ "://" +:+ Js.interpolate (Request.header "host" req))
               (Config.baseUrl (Gateway.config gw))
       +:+ RoutePolicy.path policy
  /\ PaymentAccept.description accept = RoutePolicy.description policy
  /\ PaymentAccept.mimeType accept = RoutePolicy.mimeType policy
  /\ PaymentAccept.payTo accept = RoutePolicy.payTo policy
  /\ PaymentAccept.maxTimeoutSeconds accept = RoutePolicy.maxTimeoutSeconds policy
  /\ PaymentAccept.asset accept = RoutePolicy.asset policy.

(** The stack on a request that has passed the body parser: the offer. *)
Lemma protected_offers (gw : Gateway.t) (policy : RoutePolicy.t) (req : Request.t)
    (w : World.t) (handler : Next) :
  Gateway.findPolicy gw (Request.path req) (Request.method req) = Some policy ->
  Request.header X402_HEADERS.SIGNATURE req = None ->
  cache_hit req w = None ->
  let requirements :=
    PaymentRequirements.to_json (buildRequirements (buildAccept gw policy req)) in
  protected gw req w handler
  = ({| Response.status := 402;
        Response.headers := {[ "payment-required" := toBase64 requirements ]};
        Response.body := JsonBody requirements |},
     (after_miss req w).2).
Proof.
  intros Hpolicy Hnosig Hmiss requirements.
  unfold protected. rewrite idempotency_miss by done.
  rewrite no_signature_passes by done.
  destruct (after_miss_res req w) as (Hcode & Hheaders & Hpayload & Hreceipt & Hcap).
  rewrite (paymentRequired_no_payload gw policy) by done.
  unfold Res.json. simpl.
  rewrite Hheaders. rewrite insert_empty. f_equal.
  destruct (Res.capture _); [|done]. unfold Res.captured. simpl. done.
Qed.

(** C1, amended: for every policy of a gateway that has started, a
    request to the policy's path with the policy's method that carries
    no [payment-signature] header, whose body the body parser of
    index.ts accepts and which is not answered from the idempotency
    cache gets 402; the [payment-required] header is base64(JSON) of
    [{ x402Version: 2, accepts: [accept] }] (and reads back as that JSON
    text), the body is that same value, and the one accept entry has
    the policy's scheme, network, maxAmountRequired, description,
    mimeType, payTo, maxTimeoutSeconds and asset, and the base URL
    followed by the policy's path as its resource. No handler runs, and
    nothing is stored for the reply. A body the parser refuses is
    answered with the status of the parser's error (400 for a body that
    is not JSON) before the stack is reached, with no offer. *)
Theorem C1_payment_required_offer (env : gmap string string) (gw : Gateway.t)
    (policy : RoutePolicy.t) (req : Request.t) (w : World.t) (handler : Handler) :
  Gateway.boot env = Ok gw ->
  policy ∈ Gateway.engine gw ->
  Request.path req = RoutePolicy.path policy ->
  Js.toUpperCase (Request.method req) = method_name (RoutePolicy.method policy) ->
  Request.header X402_HEADERS.SIGNATURE req = None ->
  cache_hit req w = None ->
  exists (accept : PaymentAccept.t) (requirements : Json.t),
    carries_policy gw policy req accept
    /\ requirements = Json.JObj [("x402Version", Json.JNum 2);
                                 ("accepts", Json.JArr [PaymentAccept.to_json accept])]
    /\ (forall body,
          app gw handler req (BodyOk body) w
          = ({| Response.status := 402;
                Response.headers := {[ "payment-required" := toBase64 requirements ]};
                Response.body := JsonBody requirements |},
             (after_miss req w).2))
    /\ (forall status message,
          app gw handler req (BodyError status message) w
          = ({| Response.status := status;
                Response.headers := ∅;
                Response.body := TextBody message |}, w))
    /\ Base64.decode (toBase64 requirements) = Some (Json.stringify requirements)
    /\ (forall k e, idem_store (after_miss req w).2 !! k = Some e -> idem_store w !! k = Some e).
Proof.
  intros Hboot Hin Hpath Hmethod Hnosig Hmiss.
  exists (buildAccept gw policy req),
    (PaymentRequirements.to_json (buildRequirements (buildAccept gw policy req))).
  split; [|split; [done|split; [|split; [done|split]]]].
  - unfold carries_policy, buildAccept. simpl.
    by destruct (Config.baseUrl (Gateway.config gw)).
  - intros body. unfold app, expressJson, handle.
    apply (protected_offers gw policy (Request.with_body body req) w); [|done|done].
    simpl. rewrite Hpath. by eapply GatewayFacts.findPolicy_registered.
  - apply Base64Facts.toBase64_decodes.
  - apply after_miss_world.
Qed.

End Offer.

Module OfferExample.
Import Fixture.

Definition echo_policy : RoutePolicy.t :=
  match PolicyBuilder.build (Policies.echo (Gateway.config gateway)) with
  | Ok p => p
  | Throw _ => RegistryFacts.sample_policy
  end.

Lemma echo_policy_registered : echo_policy ∈ Gateway.engine gateway.
Proof. apply list_elem_of_lookup. exists 0%nat. reflexivity. Qed.

(** A request without a payment, with the idempotency key of an earlier
    paid request. *)
Definition unpaid_with_key : Request.t := echo [("idempotency-key", HStr "k1")].

(** C1, as stated, fails: idempotency() runs first, and a request to a
    registered path with the key of an earlier paid request is answered
    with that request's stored 200 although it carries no
    [payment-signature]; the payment gate is not reached. *)
Lemma C1_cached_reply_instead_of_402 :
  Gateway.boot ∅ = Ok gateway
  /\ echo_policy ∈ Gateway.engine gateway
  /\ Request.path unpaid_with_key = RoutePolicy.path echo_policy
  /\ Request.method unpaid_with_key = method_name (RoutePolicy.method echo_policy)
  /\ Request.header X402_HEADERS.SIGNATURE unpaid_with_key = None
  /\ Response.status (send 1000 IdempotencyExample.paid_with_key (World.initial 0)).1 = 200
  /\ Response.status (send 2000 unpaid_with_key IdempotencyExample.after_first).1 = 200
  /\ Response.status (send 2000 unpaid_with_key IdempotencyExample.after_first).1 <> 402.
Proof.
  split; [reflexivity|]. split; [apply echo_policy_registered|].
  repeat split; try reflexivity. vm_compute. discriminate.
Qed.

Definition unpaid : Request.t := echo [].

(** E1: the offer of the echo route, to a request without a body. *)
Lemma C1_payment_required_witness :
  exists accept,
    PaymentAccept.maxAmountRequired accept = "100000"
    /\ PaymentAccept.resource accept = "http://127.0.0.1:3000/v1/premium/echo"
    /\ (@app platform gateway (@echoHandler platform) unpaid (BodyOk (Json.JObj []))
          (World.initial 0)).1
       = {| Response.status := 402;
            Response.headers :=
              {[ "payment-required" :=
                   toBase64 (Json.JObj [("x402Version", Json.JNum 2);
                                        ("accepts", Json.JArr [PaymentAccept.to_json accept])]) ]};
            Response.body :=
              JsonBody (Json.JObj [("x402Version", Json.JNum 2);
                                   ("accepts", Json.JArr [PaymentAccept.to_json accept])]) |}
    /\ Response.status
         (@app platform gateway (@echoHandler platform) unpaid
            (BodyError 400 "Unexpected token } in JSON at position 1") (World.initial 0)).1
       = 400.
Proof.
  destruct (@C1_payment_required_offer platform ∅ gateway echo_policy unpaid
              (World.initial 0) (@echoHandler platform)
              gateway_booted echo_policy_registered eq_refl eq_refl eq_refl eq_refl)
    as (accept & requirements & Hcarries & -> & Hreply & Hrefused & _).
  exists accept. destruct Hcarries as (_ & _ & -> & -> & _).
  split; [reflexivity|]. split; [reflexivity|].
  split; [by rewrite Hreply | by rewrite Hrefused].
Defined.

Example offer_of_echo :
  PaymentAccept.to_json (buildAccept gateway echo_policy unpaid)
  = Json.JObj
      [("scheme", Json.JStr "exact");
       ("network", Json.JStr "stacks:2147483648");
       ("maxAmountRequired", Json.JStr "100000");
       ("resource", Json.JStr "http://127.0.0.1:3000/v1/premium/echo");
       ("description",
        Json.JStr "Premium echo endpoint — returns your message (x402 protected)");
       ("mimeType", Json.JStr "application/json");
       ("payTo", Json.JStr "ST1PQHQKV0RJXZFY1DGX8MNSNYVE3VGZJSRTPGZGM");
       ("maxTimeoutSeconds", Json.JNum 60);
       ("asset", Json.JStr "STX")].
Proof. reflexivity. Qed.

End OfferExample.

(** ** [BigInt] reads decimal strings exactly *)

Module BigIntFacts.
Import Js.


















Example StringToBigInt_samples :
  StringToBigInt "100000" = Some 100000
  /\ StringToBigInt "18446744073709551617" = Some (2 ^ 64 + 1)
  /\ StringToBigInt "  42 " = Some 42
  /\ StringToBigInt "-7" = Some (-7)
  /\ StringToBigInt "0x1f" = Some 31
  /\ StringToBigInt "12abc" = None
  /\ StringToBigInt "1e3" = None
  /\ StringToBigInt "1.5" = None
  /\ StringToBigInt "ten" = None.
Proof. repeat split; reflexivity. Qed.

End BigIntFacts.
(** ** Signature validation (C5, C10) *)

Section Validation.
Context `{Platform}.

Lemma reject_reply (code : Z) (message : string) (res : Res.t) (w : World.t) :
  (reject code message res w).1
  = {| Response.status := code;
       Response.headers := Res.headers res;
       Response.body := JsonBody (error_body message) |}.
Proof. done. Qed.

(** Steps 1 to 3: a payload that decodes, has every required member and
    is of version 2 reaches the policy lookup. *)
Lemma validateSignature_well_formed (gw : Gateway.t) (req : Request.t) (res : Res.t)
    (w : World.t) (next : Next) (raw : string) (payload : PaymentPayload.t) :
  Request.header X402_HEADERS.SIGNATURE req = Some raw -> raw <> "" ->
  decodePayload raw = Parsed payload ->
  missing_fields payload = [] ->
  PaymentPayload.x402Version payload = Some 2 ->
  validateSignature gw req res w next =
  match Gateway.findPolicy gw (Request.path req) (Request.method req) with
  | None => next (Res.set_paymentPayload payload res) w
  | Some policy =>
    let accept := buildAccept gw policy req in
    let mm := mismatches payload accept in
    if negb (bool_decide (mm = [])) then
      reject 400 ("PAYMENT-SIGNATURE does not match offer: " +:+ Js.join "; " mm) res w
    else
      match Js.StringToBigInt (PaymentAccept.maxAmountRequired accept) with
      | None =>
          Res.uncaught ("Cannot convert " +:+ PaymentAccept.maxAmountRequired accept
                        +:+ " to a BigInt") res w
      | Some offeredAmount =>
        match BigInt (PaymentPayload.amount payload) with
        | None => reject 400 "PAYMENT-SIGNATURE amount is not a valid integer string" res w
        | Some paidAmount =>
          if paidAmount <? offeredAmount then
            reject 400 ("Insufficient payment: required "
                        +:+ PaymentAccept.maxAmountRequired accept +:+ ", got "
                        +:+ Js.interpolate (PaymentPayload.amount payload)) res w
          else next (Res.set_paymentPayload payload res) w
        end
      end
  end.
Proof.
  intros Hraw Hne Hdecode Hmissing Hversion. unfold validateSignature.
  rewrite Hraw. unfold Js.truthy. destruct (String.eqb_spec raw ""); [done|]. simpl.
  rewrite Hdecode, Hmissing, Hversion. simpl. done.
Qed.

(** A header that decodes to the JSON [null] is not rejected with 400:
    reading its members throws, and the request ends in Express's error
    handler. *)
Lemma validateSignature_null (gw : Gateway.t) (req : Request.t) (res : Res.t)
    (w : World.t) (next : Next) (raw : string) :
  Request.header X402_HEADERS.SIGNATURE req = Some raw -> raw <> "" ->
  decodePayload raw = Null ->
  Response.status (validateSignature gw req res w next).1 = 500.
Proof.
  intros Hraw Hne Hdecode. unfold validateSignature.
  rewrite Hraw. unfold Js.truthy. destruct (String.eqb_spec raw ""); [done|]. simpl.
  by rewrite Hdecode.
Qed.

Lemma validateSignature_null_reply (gw : Gateway.t) (req : Request.t) (res : Res.t)
    (w : World.t) (next : Next) (raw : string) :
  Request.header X402_HEADERS.SIGNATURE req = Some raw -> raw <> "" ->
  decodePayload raw = Null ->
  validateSignature gw req res w next
  = ({| Response.status := 500;
        Response.headers := Res.headers res;
        Response.body := TextBody "Cannot read properties of null (reading 'x402Version')" |},
     w).
Proof.
  intros Hraw Hne Hdecode. unfold validateSignature.
  rewrite Hraw. unfold Js.truthy. destruct (String.eqb_spec raw ""); [done|]. simpl.
  by rewrite Hdecode.
Qed.


(** On a route without a policy, a request with a [payment-signature]
    header whose value is not JSON, or is a JSON value other than
    [null], is validated in structure as the claim says: a header that
    does not decode, a payload with a required member missing, or a
    version other than 2 gives 400; a well-formed payload is stashed and
    passed on with no cross-reference and no amount check, whatever its
    scheme, network, asset, recipient and amount are; and the payment
    gate passes every request on such a route on, with no receipt and no
    call to the facilitator. Through the whole stack, when the request
    is not answered from the idempotency cache and its nonce is new, the
    handler runs on that unpaid request. *)
Lemma unpriced_route_validation (gw : Gateway.t) (req : Request.t) (res : Res.t)
    (w : World.t) (raw : string) :
  Gateway.findPolicy gw (Request.path req) (Request.method req) = None ->
  Request.header X402_HEADERS.SIGNATURE req = Some raw -> raw <> "" ->
  (forall (next : Next) e, decodePayload raw = NotJson e ->
     validateSignature gw req res w next
     = reject 400 "PAYMENT-SIGNATURE is not valid base64-encoded JSON" res w)
  /\ (forall (next : Next) payload, decodePayload raw = Parsed payload ->
        missing_fields payload <> [] ->
        validateSignature gw req res w next
        = reject 400 ("PAYMENT-SIGNATURE missing required fields: "
                      +:+ Js.join ", " (field_name <$> missing_fields payload)) res w)
  /\ (forall (next : Next) payload, decodePayload raw = Parsed payload ->
        missing_fields payload = [] ->
        PaymentPayload.x402Version payload <> Some 2 ->
        validateSignature gw req res w next
        = reject 400 ("Unsupported x402Version: "
                      +:+ Js.interpolate (Js.Z_to_string <$> PaymentPayload.x402Version payload)
                      +:+ " (expected 2)") res w)
  /\ (forall (next : Next) payload, decodePayload raw = Parsed payload ->
        missing_fields payload = [] ->
        PaymentPayload.x402Version payload = Some 2 ->
        validateSignature gw req res w next = next (Res.set_paymentPayload payload res) w)
  /\ (forall (next : Next) res' w', paymentRequired gw req res' w' next = next res' w')
  /\ (forall (handler : Next) payload, decodePayload raw = Parsed payload ->
        missing_fields payload = [] ->
        PaymentPayload.x402Version payload = Some 2 ->
        cache_hit req w = None ->
        (TtlCache.has (World.now w) (extractNonceKey payload) (World.replayNonces w)).1 = false ->
        protected gw req w handler
        = handler (Res.set_paymentPayload payload (after_miss req w).1)
                  (record_nonce (extractNonceKey payload) (after_miss req w).2)
          /\ Res.receipt (Res.set_paymentPayload payload (after_miss req w).1) = None
          /\ Res.getHeader X402_HEADERS.RESPONSE
               (Res.set_paymentPayload payload (after_miss req w).1) = None).
Proof.
  intros Hnone Hraw Hne.
  assert (Hgate : forall (next : Next) res' w', paymentRequired gw req res' w' next = next res' w').
  { intros next res' w'. unfold paymentRequired. by rewrite Hnone. }
  assert (Hok : forall (next : Next) res0 w0 payload, decodePayload raw = Parsed payload ->
            missing_fields payload = [] -> PaymentPayload.x402Version payload = Some 2 ->
            validateSignature gw req res0 w0 next = next (Res.set_paymentPayload payload res0) w0).
  { intros next res0 w0 payload Hdecode Hmissing Hversion.
    rewrite (validateSignature_well_formed gw req res0 w0 next raw payload) by done.
    by rewrite Hnone. }
  split; [|split; [|split; [|split; [|split; [exact Hgate|]]]]].
  - intros next e Hdecode. unfold validateSignature.
    rewrite Hraw. unfold Js.truthy. destruct (String.eqb_spec raw ""); [done|]. simpl.
    by rewrite Hdecode.
  - intros next payload Hdecode Hmissing. unfold validateSignature.
    rewrite Hraw. unfold Js.truthy. destruct (String.eqb_spec raw ""); [done|]. simpl.
    rewrite Hdecode. by rewrite bool_decide_eq_false_2.
  - intros next payload Hdecode Hmissing Hversion. unfold validateSignature.
    rewrite Hraw. unfold Js.truthy. destruct (String.eqb_spec raw ""); [done|]. simpl.
    rewrite Hdecode, Hmissing. simpl. by rewrite bool_decide_eq_false_2.
  - intros next payload. apply Hok.
  - intros handler payload Hdecode Hmissing Hversion Hmiss Hfresh.
    destruct (after_miss_res req w) as (_ & Hheaders & _ & Hreceipt & _).
    destruct (after_miss_world req w) as (Hnow & Hnonces & _).
    split; [|split; [exact Hreceipt|]].
    + unfold protected. rewrite idempotency_miss by done.
      rewrite (Hok _ _ _ payload) by done.
      rewrite (replayProtection_fresh req _ _ _ raw payload); [apply Hgate|done..|].
      by rewrite Hnow, Hnonces.
    + unfold Res.getHeader. simpl. by rewrite Hheaders.
Qed.

End Validation.

Module ValidationExample.
Import Fixture.

Definition underpaid : PaymentPayload.t := payment "n-3" None "99999".
Definition huge : PaymentPayload.t :=
  payment "n-5" None "340282366920938463463374607431768211456".

Definition pays (p : PaymentPayload.t) : Request.t :=
  echo [("payment-signature", HStr (sign p))].

Lemma encode_nonempty (c : ascii) (r : string) : Base64.encode (String c r) <> "".
Proof. by destruct r as [|b [|d r']]. Qed.

Lemma sign_nonempty (p : PaymentPayload.t) : sign p <> "".
Proof. unfold sign, toBase64, payload_json. cbn [Json.stringify]. apply encode_nonempty. Qed.


Example amount_beyond_64_bits_accepted :
  Response.status (send 0 (pays huge) (World.initial 0)).1 = 200
  /\ Js.StringToBigInt "340282366920938463463374607431768211456" = Some (2 ^ 128).
Proof. split; reflexivity. Qed.

(** A route without a policy. *)
Definition unpriced (p : PaymentPayload.t) : Request.t :=
  request "GET" "/proxy/api/free" [("payment-signature", HStr (sign p))].

Lemma unpriced_route_validation_example :
  (forall next : Next,
     @validateSignature platform gateway (unpriced version1) Res.fresh (World.initial 0) next
     = reject 400 "Unsupported x402Version: 1 (expected 2)" Res.fresh (World.initial 0))
  /\ (forall next : Next,
        @validateSignature platform gateway (unpriced underpaid) Res.fresh (World.initial 0) next
        = next (Res.set_paymentPayload underpaid Res.fresh) (World.initial 0)).
Proof.
  split; intros next.
  - destruct (@unpriced_route_validation platform gateway (unpriced version1) Res.fresh
                (World.initial 0) (sign version1) eq_refl eq_refl (sign_nonempty _))
      as (_ & _ & Hversion & _).
    apply (Hversion next version1); [reflexivity | reflexivity | discriminate].
  - destruct (@unpriced_route_validation platform gateway (unpriced underpaid) Res.fresh
                (World.initial 0) (sign underpaid) eq_refl eq_refl (sign_nonempty _))
      as (_ & _ & _ & Hpass & _).
    apply (Hpass next underpaid); reflexivity.
Qed.



(** A request to a route without a policy whose [payment-signature] is
    base64 of the JSON text [null]. *)
Definition null_header : Request.t :=
  request "GET" "/proxy/api/free" [("payment-signature", HStr "bnVsbA==")].

(** C10, the defect: a header that decodes to the JSON [null] has every
    required member missing, but it is not answered 400. [payload[f]]
    is read outside the [try] that guards the decoding, reading a
    member of [null] throws, and the request ends in Express's error
    handler with 500, on a route without a policy as on any other; no
    later stage and no handler runs, and nothing is recorded. *)
Theorem C10_null_payload_is_a_500 :
  Base64.decode "bnVsbA==" = Some "null"
  /\ toBase64 Json.JNull = "bnVsbA=="
  /\ @decodePayload platform "bnVsbA==" = Null
  /\ Gateway.findPolicy gateway (Request.path null_header) (Request.method null_header) = None
  /\ (forall handler : Next,
        @protected platform gateway null_header (World.initial 0) handler
        = ({| Response.status := 500;
              Response.headers := ∅;
              Response.body :=
                TextBody "Cannot read properties of null (reading 'x402Version')" |},
           World.initial 0))
  /\ (forall (P : Platform) (gw : Gateway.t) (req : Request.t) (res : Res.t) (w : World.t)
             (next : Next) (raw : string),
        Request.header X402_HEADERS.SIGNATURE req = Some raw -> raw <> "" ->
        @decodePayload P raw = Null ->
        @validateSignature P gw req res w next
        = ({| Response.status := 500;
              Response.headers := Res.headers res;
              Response.body :=
                TextBody "Cannot read properties of null (reading 'x402Version')" |},
           w)).
Proof.
  split; [vm_compute; reflexivity|]. split; [vm_compute; reflexivity|].
  split; [vm_compute; reflexivity|]. split; [vm_compute; reflexivity|]. split.
  - intros handler. vm_compute. reflexivity.
  - intros P gw req res w next raw. apply validateSignature_null_reply.
Qed.

End ValidationExample.

(** ** The specification's end-to-end scenarios, run on the model *)

Module Scenarios.
Import Fixture.

Definition pays (p : PaymentPayload.t) (more : list (string * HeaderValue)) : Request.t :=
  echo (("payment-signature", HStr (sign p)) :: more).

Definition status_of (o : Response.t * World.t) : Z := Response.status o.1.

(** The receipt of mock mode, as JSON. *)
Definition receipt (amount : string) (now : Z) : Json.t :=
  Json.JObj [("txHash",
              Json.JStr "0x0000000000000000000000000000000000000000000000000000000000000000");
             ("network", Json.JStr "stacks:2147483648");
             ("payer", Json.JStr "ST1MOCK000000000000000000000000000000000");
             ("amount", Json.JStr amount);
             ("timestamp", Json.JNum now);
             ("settled", Json.JBool true)].

(** E2: a paid echo in mock mode; the header carries the receipt that
    the envelope shows. *)
Example E2_paid_echo :
  let reply := (send 1000 (pays (payment "n-1" None "100000") []) (World.initial 0)).1 in
  Response.status reply = 200
  /\ Response.body reply
     = JsonBody (Json.JObj [("success", Json.JBool true);
                            ("data", Json.JObj [("echo", Json.JStr "hello");
                                                ("ts", Json.JStr "1000")]);
                            ("receipt", receipt "100000" 1000)])
  /\ (Response.headers reply !! "payment-response") ≫= Base64.decode
     = Some (Json.stringify (receipt "100000" 1000)).
Proof. repeat split; vm_compute; reflexivity. Qed.

(** E3: one nonce twice with one memo is a replay; with two memos it is
    two payments. *)
Example E3_replay :
  let first := send 1000 (pays (payment "shared" (Some "memo-A") "100000") []) (World.initial 0) in
  let second := send 2000 (pays (payment "shared" (Some "memo-B") "100000") []) first.2 in
  let third := send 3000 (pays (payment "shared" (Some "memo-B") "100000") []) second.2 in
  status_of first = 200 /\ status_of second = 200 /\ status_of third = 409.
Proof. repeat split; vm_compute; reflexivity. Qed.

(** E4: the key of the first request answers the second, whose nonce is
    never recorded. *)
Example E4_idempotent_retry :
  let key := [("idempotency-key", HStr "k1")] in
  let first := send 1000 (pays (payment "n-1" None "100000") key) (World.initial 0) in
  let second := send 2000 (pays (payment "n-2" None "100000") key) first.2 in
  second.1 = first.1
  /\ nonce_store second.2 !! "nonce:n-2" = None.
Proof. split; vm_compute; reflexivity. Qed.

(** The test "does not cache 402 responses": the key of a 402 does not
    lock the client out. *)
Example unpaid_then_paid_with_one_key :
  let key := [("idempotency-key", HStr "idem-no-cache-402")] in
  let first := send 1000 (echo key) (World.initial 0) in
  let second := send 2000 (pays (payment "n-1" None "100000") key) first.2 in
  status_of first = 402 /\ status_of second = 200.
Proof. split; vm_compute; reflexivity. Qed.

(** An upstream that answers with the names of the headers it was sent. *)
Definition telling_upstream : Platform :=
  {| decodePayload := decode;
     parseJson := fun text => Ok (Json.JStr text);
     postVerify := fun _ _ _ => Rejected "fetch failed";
     postSettle := fun _ _ _ => Rejected "fetch failed";
     fetchUpstream := fun target method headers body =>
       Ok {| Upstream.status := 200;
             Upstream.headers := [("content-type", "application/json")];
             Upstream.text := target +:+ " " +:+ Js.join "," (fst <$> map_to_list headers) |};
     toISOString := fun ms => Js.Z_to_string ms |}.

Definition weather : Request.t :=
  {| Request.method := "GET";
     Request.path := "/proxy/api/weather";
     Request.originalUrl := "/proxy/api/weather?city=Tokyo";
     Request.protocol := "http";
     Request.headers :=
       list_to_map [("host", HStr "127.0.0.1:3000");
                    ("payment-signature", HStr (sign (payment "n-6" None "10")));
                    ("payment-response", HStr "forged");
                    ("accept", HStr "application/json")];
     Request.query := {[ "city" := "Tokyo" ]};
     Request.body := Json.JObj [] |}.

(** E5: the upstream is asked for the path without the prefix, and of
    the request's headers it sees [accept] alone. *)
Example E5_proxy_strips_payment_headers :
  let reply :=
    (@handle telling_upstream gateway (@proxyHandler telling_upstream gateway) weather
       (World.initial 0)).1 in
  Response.status reply = 200
  /\ Response.body reply
     = JsonBody (Json.JObj [("success", Json.JBool true);
                            ("data", Json.JStr
                               "http://localhost:4000/api/weather?city=Tokyo accept");
                            ("receipt", receipt "10" 0)])
  /\ Response.headers reply !! "payment-response" = Some (toBase64 (receipt "10" 0)).
Proof. repeat split; vm_compute; reflexivity. Qed.

Definition summarize : Request.t :=
  {| Request.method := "POST";
     Request.path := "/proxy/api/summarize";
     Request.originalUrl := "/proxy/api/summarize";
     Request.protocol := "http";
     Request.headers :=
       list_to_map [("host", HStr "127.0.0.1:3000");
                    ("payment-signature", HStr (sign (payment "n-7" None "49")));
                    ("content-type", HStr "application/json")];
     Request.query := ∅;
     Request.body := Json.JObj [("text", Json.JStr "test")] |}.

(** E6: 49 against the 50 of the summarize route. *)
Example E6_underpayment :
  (@handle telling_upstream gateway (@proxyHandler telling_upstream gateway) summarize
     (World.initial 0)).1
  = {| Response.status := 400;
       Response.headers := ∅;
       Response.body :=
         JsonBody (error_body "Insufficient payment: required 50, got 49") |}.
Proof. vm_compute. reflexivity. Qed.

End Scenarios.
(* ===================================================================== *)
(** * Part III: further properties of the code                            *)
(* ===================================================================== *)

(** ** The TTL cache, operation by operation *)

Module TtlCacheLaws.
Import TtlCache.

Lemma get_fst {T} (t : Z) (k : string) (c : TtlCache.t T) :
  (get t k c).1
  = match store c !! k with
    | Some e => if expiresAt e <=? t then None else Some (value e)
    | None => None
    end.
Proof. unfold get. destruct (store c !! k) as [e|]; [|done]. by destruct (expiresAt e <=? t). Qed.

Lemma has_fst {T} (t : Z) (k : string) (c : TtlCache.t T) :
  (has t k c).1 = bool_decide (is_Some (get t k c).1).
Proof. unfold has. by destruct (get t k c). Qed.

Lemma has_snd {T} (t : Z) (k : string) (c : TtlCache.t T) : (has t k c).2 = (get t k c).2.
Proof. unfold has. by destruct (get t k c). Qed.

Lemma store_sweep {T} (now : Z) (k : string) (c : TtlCache.t T) :
  store (sweep now c) !! k
  = match store c !! k with
    | Some e => if expiresAt e <=? now then None else Some e
    | None => None
    end.
Proof.
  unfold sweep. simpl. rewrite map_lookup_filter.
  destruct (store c !! k) as [e|]; [|done]. simpl.
  destruct (Z.leb_spec (expiresAt e) now).
  - rewrite option_guard_False by lia. done.
  - rewrite option_guard_True by lia. done.
Qed.

(** X1: What [set] stored is read back until its time to live has passed,
    and not from then on: at [now + ttl] exactly the entry is expired,
    and the read that finds it expired removes it. Other keys read as
    before. *)
Theorem set_then_get {T} (now later : Z) (key : string) (v : T) (c : TtlCache.t T) :
  (later < now + defaultTtlMs c ->
   get later key (set now key v c) = (Some v, set now key v c)
   /\ has later key (set now key v c) = (true, set now key v c))
  /\ (now + defaultTtlMs c <= later ->
      get later key (set now key v c) = (None, with_store c (delete key (store c)))
      /\ has later key (set now key v c) = (false, with_store c (delete key (store c))))
  /\ (forall k, k <> key -> (get later k (set now key v c)).1 = (get later k c).1).
Proof.
  split; [|split].
  - intros Hlt.
    assert (Hget : get later key (set now key v c) = (Some v, set now key v c)).
    { by rewrite (TtlCacheFacts.get_live later key _ (mkEntry v (now + defaultTtlMs c)))
        by (apply TtlCacheFacts.store_set || done). }
    split; [exact Hget|]. unfold has. by rewrite Hget.
  - intros Hle.
    assert (Hget : get later key (set now key v c)
                   = (None, with_store c (delete key (store c)))).
    { rewrite (TtlCacheFacts.get_expired later key _ (mkEntry v (now + defaultTtlMs c)))
        by (apply TtlCacheFacts.store_set || done).
      unfold set, with_store. simpl. by rewrite delete_insert_eq. }
    split; [exact Hget|]. unfold has. by rewrite Hget.
  - intros k Hk. rewrite !get_fst. by rewrite TtlCacheFacts.store_set_ne.
Qed.

Lemma get_after_get {T} (t t' : Z) (k k' : string) (c : TtlCache.t T) :
  t <= t' -> (get t' k' (get t k c).2).1 = (get t' k' c).1.
Proof.
  intros Hle. rewrite !get_fst. unfold get at 1.
  destruct (store c !! k) as [e|] eqn:He; [|done].
  destruct (Z.leb_spec (expiresAt e) t); [|done]. simpl.
  destruct (decide (k' = k)) as [->|Hne].
  - rewrite lookup_delete_eq, He. by destruct (Z.leb_spec (expiresAt e) t'); [|lia].
  - by rewrite lookup_delete_ne.
Qed.

Lemma get_after_sweep {T} (t t' : Z) (k' : string) (c : TtlCache.t T) :
  t <= t' -> (get t' k' (sweep t c)).1 = (get t' k' c).1.
Proof.
  intros Hle. rewrite !get_fst, store_sweep. destruct (store c !! k') as [e|]; [|done].
  destruct (Z.leb_spec (expiresAt e) t); [|done].
  by destruct (Z.leb_spec (expiresAt e) t'); [|lia].
Qed.

(** What is absent or expired stays so as time passes. *)
Lemma get_none_later {T} (t t' : Z) (k : string) (c : TtlCache.t T) :
  t <= t' -> (get t k c).1 = None -> (get t' k c).1 = None.
Proof.
  intros Hle. rewrite !get_fst. destruct (store c !! k) as [e|]; [|done].
  destruct (Z.leb_spec (expiresAt e) t); [|done].
  by destruct (Z.leb_spec (expiresAt e) t'); [|lia].
Qed.

(** X2: Eviction cannot be observed: the entry a read drops because it has
    expired, and the entries a sweep (or [size], which sweeps) drops,
    would have read as absent at any later time anyway. *)
Theorem eviction_is_unobservable {T} (t t' : Z) (k k' : string) (c : TtlCache.t T) :
  t <= t' ->
  (get t' k' (get t k c).2).1 = (get t' k' c).1
  /\ (get t' k' (has t k c).2).1 = (get t' k' c).1
  /\ (get t' k' (sweep t c)).1 = (get t' k' c).1
  /\ (get t' k' (size t c).2).1 = (get t' k' c).1.
Proof.
  intros Hle. split; [by apply get_after_get|]. split; [rewrite has_snd; by apply get_after_get|].
  split; by apply get_after_sweep.
Qed.

Definition sample : TtlCache.t string := set 0 "a" "hello" (new 50).

Lemma eviction_is_unobservable_witness :
  (get 80 "a" (get 60 "a" sample).2).1 = (get 80 "a" sample).1
  /\ (get 80 "a" sample).1 = None.
Proof.
  split; [|reflexivity].
  apply (eviction_is_unobservable 60 80 "a" "a" sample). lia.
Defined.

(** X3: After a sweep the store holds exactly the entries that are still
    alive, so [size] counts the keys [has] answers true for, and never
    more than were stored. *)
Theorem sweep_keeps_the_live_entries {T} (now : Z) (c : TtlCache.t T) :
  (forall k, is_Some (store (sweep now c) !! k) <-> (has now k c).1 = true)
  /\ (forall k e, store (sweep now c) !! k = Some e ->
        store c !! k = Some e /\ now < expiresAt e)
  /\ (size now c).1 = base.size (store (sweep now c))
  /\ ((size now c).1 <= base.size (store c))%nat
  /\ defaultTtlMs (sweep now c) = defaultTtlMs c.
Proof.
  split; [|split; [|split; [done|split; [|done]]]].
  - intros k. rewrite has_fst, get_fst, store_sweep.
    destruct (store c !! k) as [e|]; [|split; [by intros [? ?] | done]].
    destruct (expiresAt e <=? now); split; try done; by intros [? ?].
  - intros k e. rewrite store_sweep. destruct (store c !! k) as [e'|]; [|done].
    destruct (Z.leb_spec (expiresAt e') now); [done|]. by intros [= <-].
  - unfold size, sweep. simpl. apply map_size_filter.
Qed.

(** X4: [delete] answers for the store, not for the clock: it reports [true]
    for an entry that has expired and not yet been evicted, which [has]
    reports absent. After it the key reads as absent and the other keys
    as before. *)
Theorem delete_reports_stored_entries {T} (key : string) (c : TtlCache.t T) :
  ((delete_ key c).1 = true <-> is_Some (store c !! key))
  /\ (forall t, get t key (delete_ key c).2 = (None, (delete_ key c).2))
  /\ (forall t k, k <> key -> (get t k (delete_ key c).2).1 = (get t k c).1)
  /\ (forall now e, store c !! key = Some e -> expiresAt e <= now ->
        (has now key c).1 = false /\ (delete_ key c).1 = true).
Proof.
  split; [|split; [|split]].
  - unfold delete_. simpl. apply bool_decide_eq_true.
  - intros t. apply TtlCacheFacts.get_absent. unfold delete_. simpl. apply lookup_delete_eq.
  - intros t k Hk. rewrite !get_fst. unfold delete_. simpl. by rewrite lookup_delete_ne.
  - intros now e He Hle. split.
    + rewrite has_fst, get_fst, He. by destruct (Z.leb_spec (expiresAt e) now); [|lia].
    + unfold delete_. simpl. rewrite He. by apply bool_decide_eq_true.
Qed.

End TtlCacheLaws.

(** ** Configuration loading, case by case *)

Module ConfigLaws.
Import Config.

(** A required variable is missing when it is set to the empty string
    (the fallback is not consulted: [??] only replaces [undefined]), or
    when it is absent and [MOCK_PAYMENTS] is the string [false]. *)
Definition missing (env : gmap string string) (name : string) : Prop :=
  env !! name = Some "" \/ (env !! name = None /\ env !! "MOCK_PAYMENTS" = Some "false").

Lemma required_missing (env : gmap string string) (name fallback : string) :
  missing env name ->
  required env name (if mock_not_false env then Some fallback else None)
  = Throw ("Missing required env var: " +:+ name).
Proof.
  intros [He|[He Hm]]; unfold required; rewrite He; [done|].
  unfold mock_not_false. by rewrite bool_decide_eq_true_2.
Qed.

Lemma required_not_missing (env : gmap string string) (name fallback : string) :
  fallback <> "" -> ~ missing env name ->
  required env name (if mock_not_false env then Some fallback else None)
  = Ok (default fallback (env !! name)) /\ default fallback (env !! name) <> "".
Proof.
  intros Hf Hnot. unfold required, missing in *.
  destruct (env !! name) as [v|] eqn:He; simpl.
  - assert (v <> "") by (intros ->; apply Hnot; by left).
    unfold Js.truthy. by destruct (String.eqb_spec v "").
  - unfold mock_not_false. case_bool_decide as Hm; simpl.
    + exfalso. apply Hnot. by right.
    + unfold Js.truthy. by destruct (String.eqb_spec fallback "").
Qed.

Lemma load_failure (env : gmap string string) :
  (missing env "PAY_TO" -> load env = Throw "Missing required env var: PAY_TO")
  /\ (~ missing env "PAY_TO" -> missing env "AMOUNT_MICROSTX" ->
      load env = Throw "Missing required env var: AMOUNT_MICROSTX")
  /\ (~ missing env "PAY_TO" -> ~ missing env "AMOUNT_MICROSTX" ->
      exists config, load env = Ok config).
Proof.
  split; [|split].
  - intros Hm. unfold load. by rewrite required_missing.
  - intros Hp Ha. unfold load.
    destruct (required_not_missing env "PAY_TO" "ST1PQHQKV0RJXZFY1DGX8MNSNYVE3VGZJSRTPGZGM")
      as [-> _]; [done | done |].
    by rewrite required_missing.
  - intros Hp Ha. unfold load.
    destruct (required_not_missing env "PAY_TO" "ST1PQHQKV0RJXZFY1DGX8MNSNYVE3VGZJSRTPGZGM")
      as [-> _]; [done | done |].
    destruct (required_not_missing env "AMOUNT_MICROSTX" "100000") as [-> _]; [done | done |].
    by eexists.
Qed.

#[global] Instance missing_dec (env : gmap string string) (name : string) :
  Decision (missing env name).
Proof. unfold missing. apply _. Defined.

(** X5: Start-up fails exactly when [PAY_TO] or [AMOUNT_MICROSTX] is
    missing, and the message names [PAY_TO] when both are. An empty
    value is missing in every mode, mock mode included. *)
Theorem load_fails_exactly_when_missing (env : gmap string string) :
  (missing env "PAY_TO" -> load env = Throw "Missing required env var: PAY_TO")
  /\ (~ missing env "PAY_TO" -> missing env "AMOUNT_MICROSTX" ->
      load env = Throw "Missing required env var: AMOUNT_MICROSTX")
  /\ ((exists message, load env = Throw message)
      <-> missing env "PAY_TO" \/ missing env "AMOUNT_MICROSTX").
Proof.
  destruct (load_failure env) as (H1 & H2 & H3).
  split; [exact H1|]. split; [exact H2|]. split.
  - intros [message Hthrow].
    destruct (decide (missing env "PAY_TO")) as [Hp|Hp]; [by left|].
    destruct (decide (missing env "AMOUNT_MICROSTX")) as [Ha|Ha]; [by right|].
    destruct (H3 Hp Ha) as [config Hok]. congruence.
  - intros [Hp|Ha].
    + eexists. by apply H1.
    + destruct (decide (missing env "PAY_TO")) as [Hp|Hp]; eexists; [by apply H1 | by apply H2].
Qed.

Lemma loaded_nonempty (env : gmap string string) (config : Config.t) :
  load env = Ok config -> payTo config <> "" /\ amountMicroStx config <> "".
Proof.
  intros Hload. destruct (load_failure env) as (H1 & H2 & _).
  destruct (decide (missing env "PAY_TO")) as [Hp|Hp]; [rewrite H1 in Hload; done|].
  destruct (decide (missing env "AMOUNT_MICROSTX")) as [Ha|Ha]; [rewrite H2 in Hload; done|].
  revert Hload. unfold load.
  destruct (required_not_missing env "PAY_TO" "ST1PQHQKV0RJXZFY1DGX8MNSNYVE3VGZJSRTPGZGM")
    as [-> Hpay]; [done | done |].
  destruct (required_not_missing env "AMOUNT_MICROSTX" "100000") as [-> Hamt]; [done | done |].
  by intros [= <-].
Qed.

(** X6: A configuration that loads never has an empty recipient or price:
    each is the variable's value or, when the variable is absent, the
    mock default; and mock mode is on exactly when [MOCK_PAYMENTS] is
    absent, [true] or [1]. *)
Theorem load_ok (env : gmap string string) (config : Config.t) :
  load env = Ok config ->
  payTo config <> "" /\ amountMicroStx config <> ""
  /\ payTo config = default "ST1PQHQKV0RJXZFY1DGX8MNSNYVE3VGZJSRTPGZGM" (env !! "PAY_TO")
  /\ amountMicroStx config = default "100000" (env !! "AMOUNT_MICROSTX")
  /\ (mockPayments config = true
      <-> env !! "MOCK_PAYMENTS" = None \/ env !! "MOCK_PAYMENTS" = Some "true"
          \/ env !! "MOCK_PAYMENTS" = Some "1")
  /\ ~ missing env "PAY_TO" /\ ~ missing env "AMOUNT_MICROSTX".
Proof.
  intros Hload.
  destruct (load_failure env) as (H1 & H2 & _).
  destruct (decide (missing env "PAY_TO")) as [Hp|Hp]; [rewrite H1 in Hload; done|].
  destruct (decide (missing env "AMOUNT_MICROSTX")) as [Ha|Ha]; [rewrite H2 in Hload; done|].
  revert Hload. unfold load.
  destruct (required_not_missing env "PAY_TO" "ST1PQHQKV0RJXZFY1DGX8MNSNYVE3VGZJSRTPGZGM")
    as [-> Hpay]; [done | done |].
  destruct (required_not_missing env "AMOUNT_MICROSTX" "100000") as [-> Hamt]; [done | done |].
  intros [= <-]. simpl. repeat split; try done.
  - unfold bool. destruct (env !! "MOCK_PAYMENTS") as [raw|]; [|by left].
    intros [->%String.eqb_eq | ->%String.eqb_eq]%orb_true_iff; auto.
  - unfold bool. intros [->|[->| ->]]; done.
Qed.

Definition strict_env : gmap string string :=
  {[ "MOCK_PAYMENTS" := "false"; "PAY_TO" := "SP2J6ZY48GV1EZ5V2V5RB9MP66SW86PYKKNRV9EJ7";
     "AMOUNT_MICROSTX" := "250" ]}.

Definition strict_config : Config.t :=
  match load strict_env with
  | Ok config => config
  | Throw _ => Config.mk "" "" "" "" true None "" None ""
  end.

Lemma load_ok_witness :
  load strict_env = Ok strict_config
  /\ payTo strict_config = "SP2J6ZY48GV1EZ5V2V5RB9MP66SW86PYKKNRV9EJ7"
  /\ amountMicroStx strict_config <> "".
Proof.
  destruct (load_ok strict_env strict_config eq_refl) as (_ & Hamt & Hpay & _).
  split; [reflexivity|]. split; [exact Hpay | exact Hamt].
Defined.

End ConfigLaws.

(** ** The policy builder and the registry it fills *)

Module BuilderLaws.
Import PolicyBuilder.

(** Everything [build] asks for is there. *)
Definition complete (b : PolicyBuilder.t) : Prop :=
  is_Some (method b)
  /\ Js.truthy_opt (network b) = true
  /\ Js.truthy_opt (asset b) = true
  /\ Js.truthy_opt (maxAmountRequired b) = true
  /\ Js.truthy_opt (payTo b) = true
  /\ Js.truthy_opt (description b) = true.

Definition messages : list string :=
  ["PolicyBuilder: method is required";
   "PolicyBuilder: network is required (.on())";
   "PolicyBuilder: cost is required (.costs())";
   "PolicyBuilder: payTo is required";
   "PolicyBuilder: description is required (.describe())"].

Lemma truthy_opt_Some (o : option string) :
  Js.truthy_opt o = true <-> exists s, o = Some s /\ s <> "".
Proof.
  destruct o as [s|]; simpl; [|split; [done | by intros (? & ? & ?)]].
  unfold Js.truthy. destruct (String.eqb_spec s ""); split; try done.
  - intros (? & [= <-] & ?). done.
  - intros _. by exists s.
Qed.

Lemma truthy_opt_of (s : string) : s <> "" -> Js.truthy_opt (Some s) = true.
Proof. intros Hs. apply truthy_opt_Some. by exists s. Qed.

Lemma build_complete (b : PolicyBuilder.t) (m : HttpMethod) :
  method b = Some m ->
  Js.truthy_opt (network b) = true -> Js.truthy_opt (asset b) = true ->
  Js.truthy_opt (maxAmountRequired b) = true -> Js.truthy_opt (payTo b) = true ->
  Js.truthy_opt (description b) = true ->
  build b = Ok {| RoutePolicy.path := path b;
                  RoutePolicy.method := m;
                  RoutePolicy.scheme := default "exact" (scheme b);
                  RoutePolicy.network := default "" (network b);
                  RoutePolicy.asset := default "" (asset b);
                  RoutePolicy.maxAmountRequired := default "" (maxAmountRequired b);
                  RoutePolicy.payTo := default "" (payTo b);
                  RoutePolicy.description := default "" (description b);
                  RoutePolicy.mimeType := default "application/json" (mimeType b);
                  RoutePolicy.maxTimeoutSeconds := default 60 (maxTimeoutSeconds b);
                  RoutePolicy.extra := extra b;
                  RoutePolicy.outputSchema := outputSchema b |}.
Proof. intros Hm Hn Ha Hc Hp Hd. unfold build. by rewrite Hm, Hn, Ha, Hc, Hp, Hd. Qed.

(** X7: [build] returns a policy exactly for a complete builder; the policy
    then has the builder's path and method and a non-empty network,
    asset, amount, recipient and description. Otherwise it throws one of
    its five messages, and a missing method is reported whatever else is
    missing. *)
Theorem build_checks (b : PolicyBuilder.t) :
  ((exists p, build b = Ok p) <-> complete b)
  /\ (forall p, build b = Ok p ->
        RoutePolicy.path p = path b
        /\ method b = Some (RoutePolicy.method p)
        /\ network b = Some (RoutePolicy.network p) /\ RoutePolicy.network p <> ""
        /\ asset b = Some (RoutePolicy.asset p) /\ RoutePolicy.asset p <> ""
        /\ maxAmountRequired b = Some (RoutePolicy.maxAmountRequired p)
        /\ RoutePolicy.maxAmountRequired p <> ""
        /\ payTo b = Some (RoutePolicy.payTo p) /\ RoutePolicy.payTo p <> ""
        /\ description b = Some (RoutePolicy.description p)
        /\ RoutePolicy.description p <> ""
        /\ RoutePolicy.extra p = extra b
        /\ RoutePolicy.outputSchema p = outputSchema b)
  /\ (forall message, build b = Throw message -> message ∈ messages)
  /\ (method b = None -> build b = Throw "PolicyBuilder: method is required").
Proof.
  split; [|split; [|split]].
  - split.
    + intros [p Hp]. unfold build in Hp. unfold complete.
      destruct (method b) as [m|]; [|done].
      destruct (Js.truthy_opt (network b)); [|done].
      destruct (Js.truthy_opt (asset b)); [|done].
      destruct (Js.truthy_opt (maxAmountRequired b)); [|done].
      destruct (Js.truthy_opt (payTo b)); [|done].
      destruct (Js.truthy_opt (description b)); [|done]. by repeat split.
    + intros ([m Hm] & Hn & Ha & Hc & Hp & Hd). eexists. by apply (build_complete b m).
  - intros p Hp. unfold build in Hp.
    destruct (method b) as [m|]; [|done].
    destruct (Js.truthy_opt (network b)) eqn:Hn; [|done].
    destruct (Js.truthy_opt (asset b)) eqn:Ha; [|done].
    destruct (Js.truthy_opt (maxAmountRequired b)) eqn:Hc; [|done].
    destruct (Js.truthy_opt (payTo b)) eqn:Hpay; [|done].
    destruct (Js.truthy_opt (description b)) eqn:Hd; [|done].
    simpl in Hp. injection Hp as <-. simpl.
    apply truthy_opt_Some in Hn as (n & -> & ?), Ha as (a & -> & ?), Hc as (c & -> & ?),
      Hpay as (y & -> & ?), Hd as (d & -> & ?).
    by repeat split.
  - intros message. unfold build, messages.
    destruct (method b) as [m|]; [|intros [= <-]; set_solver].
    destruct (Js.truthy_opt (network b)); [|intros [= <-]; set_solver].
    destruct (Js.truthy_opt (asset b)); [|intros [= <-]; set_solver].
    destruct (Js.truthy_opt (maxAmountRequired b)); [|intros [= <-]; set_solver].
    destruct (Js.truthy_opt (payTo b)); [|intros [= <-]; set_solver].
    destruct (Js.truthy_opt (description b)); [done|intros [= <-]; set_solver].
  - intros Hm. unfold build. by rewrite Hm.
Qed.

(** The policy a chain of the five mandatory calls describes. *)
Definition chained (path : string) (m : HttpMethod) (amount asset network addr desc : string)
  : RoutePolicy.t :=
  {| RoutePolicy.path := path; RoutePolicy.method := m;
     RoutePolicy.scheme := "exact"; RoutePolicy.network := network;
     RoutePolicy.asset := asset; RoutePolicy.maxAmountRequired := amount;
     RoutePolicy.payTo := addr; RoutePolicy.description := desc;
     RoutePolicy.mimeType := "application/json"; RoutePolicy.maxTimeoutSeconds := 60;
     RoutePolicy.extra := None; RoutePolicy.outputSchema := None |}.

Lemma chain_builds (path : string) (m : HttpMethod) (amount asset network addr desc : string) :
  amount <> "" -> asset <> "" -> network <> "" -> addr <> "" -> desc <> "" ->
  let b := describe desc (payTo_ addr (on network (costs amount asset
             (set_method m (policy path))))) in
  build b = Ok (chained path m amount asset network addr desc)
  /\ (forall s, build (ioSchema s b)
                = Ok {| RoutePolicy.path := path; RoutePolicy.method := m;
                        RoutePolicy.scheme := "exact"; RoutePolicy.network := network;
                        RoutePolicy.asset := asset; RoutePolicy.maxAmountRequired := amount;
                        RoutePolicy.payTo := addr; RoutePolicy.description := desc;
                        RoutePolicy.mimeType := "application/json";
                        RoutePolicy.maxTimeoutSeconds := 60;
                        RoutePolicy.extra := None; RoutePolicy.outputSchema := Some s |}).
Proof.
  intros Hc Ha Hn Hp Hd b. split; [|intros s];
    (erewrite build_complete; [reflexivity | reflexivity | by apply truthy_opt_of ..]).
Qed.

(** X8: The fluent chain [policy(path).get().costs(amount, asset).on(network)
    .payTo(addr).describe(desc).build()] with non-empty arguments gives
    the policy with those members and the constructor's defaults
    (scheme [exact], [application/json], 60 seconds); [scheme], [mime],
    [timeout] and [extra] replace a default each and nothing else; and
    the chain without [on] does not build. *)
Theorem fluent_chain_builds (path : string) (m : HttpMethod)
    (amount asset network addr desc : string) :
  amount <> "" -> asset <> "" -> network <> "" -> addr <> "" -> desc <> "" ->
  let b := describe desc (payTo_ addr (on network (costs amount asset
             (PolicyBuilderApi.method_ m (policy path))))) in
  build b = Ok (chained path m amount asset network addr desc)
  /\ (forall s type seconds e,
        exists p,
          build (PolicyBuilderApi.extra_ e (PolicyBuilderApi.timeout seconds
                   (PolicyBuilderApi.mime type (PolicyBuilderApi.scheme_ s b)))) = Ok p
          /\ RoutePolicy.scheme p = s /\ RoutePolicy.mimeType p = type
          /\ RoutePolicy.maxTimeoutSeconds p = seconds /\ RoutePolicy.extra p = Some e
          /\ RoutePolicy.path p = path /\ RoutePolicy.method p = m
          /\ RoutePolicy.network p = network /\ RoutePolicy.asset p = asset
          /\ RoutePolicy.maxAmountRequired p = amount /\ RoutePolicy.payTo p = addr
          /\ RoutePolicy.description p = desc)
  /\ build (describe desc (payTo_ addr (costs amount asset
              (PolicyBuilderApi.method_ m (policy path)))))
     = Throw "PolicyBuilder: network is required (.on())".
Proof.
  intros Hc Ha Hn Hp Hd b. split; [|split].
  - by apply chain_builds.
  - intros s type seconds e. eexists. split.
    + erewrite build_complete; [reflexivity | reflexivity | by apply truthy_opt_of ..].
    + by repeat split.
  - reflexivity.
Qed.

Lemma fluent_chain_builds_witness :
  build (describe "Weather lookup" (payTo_ "ST1PQHQKV0RJXZFY1DGX8MNSNYVE3VGZJSRTPGZGM"
           (on "stacks:2147483648" (costs "10" "STX" (get (policy "/proxy/api/weather"))))))
  = Ok (chained "/proxy/api/weather" GET "10" "STX" "stacks:2147483648"
          "ST1PQHQKV0RJXZFY1DGX8MNSNYVE3VGZJSRTPGZGM" "Weather lookup").
Proof.
  apply (fluent_chain_builds "/proxy/api/weather" GET "10" "STX" "stacks:2147483648"
           "ST1PQHQKV0RJXZFY1DGX8MNSNYVE3VGZJSRTPGZGM" "Weather lookup"); done.
Defined.

End BuilderLaws.

(** ** The registry: how [match] reads what [add] wrote *)

Module RegistryLaws.
Import PolicyEngine.

Lemma find_app {A} (f : A -> bool) (l1 l2 : list A) :
  List.find f (l1 ++ l2)
  = match List.find f l1 with Some x => Some x | None => List.find f l2 end.
Proof. induction l1 as [|a l1 IH]; simpl; [done|]. by destruct (f a). Qed.

Lemma upper_char_idem (c : ascii) : Js.upper_char (Js.upper_char c) = Js.upper_char c.
Proof. destruct c as [[] [] [] [] [] [] [] []]; reflexivity. Qed.

Lemma toUpperCase_idem (s : string) : Js.toUpperCase (Js.toUpperCase s) = Js.toUpperCase s.
Proof.
  unfold Js.toUpperCase. induction s as [|c s IH]; simpl; [done|].
  by rewrite upper_char_idem, IH.
Qed.

Lemma match_sound (path method : string) (engine : PolicyEngine.t) (p : RoutePolicy.t) :
  match_ path method engine = Some p ->
  p ∈ engine /\ RegistryFacts.key p = (path, Js.toUpperCase method).
Proof.
  unfold match_. intros Hf. apply RegistryFacts.find_first in Hf as (i & Hi & Hm & _).
  split; [by eapply list_elem_of_lookup_2 | by apply RegistryFacts.matches_key].
Qed.

Lemma match_none (path method : string) (engine : PolicyEngine.t) :
  match_ path method engine = None
  <-> forall p, p ∈ engine -> RegistryFacts.key p <> (path, Js.toUpperCase method).
Proof.
  unfold match_. rewrite RegistryFacts.find_none. split; intros Hall p Hp.
  - intros Hk%RegistryFacts.matches_key. specialize (Hall p Hp). congruence.
  - destruct (matches path method p) eqn:Hm; [|done].
    apply RegistryFacts.matches_key in Hm. by apply Hall in Hm.
Qed.

(** X9: [match] after [add]: a policy that was found before is still the
    one found (a policy added later never takes the place of an earlier
    one with the same path and method), and the added policies are
    searched only when none was found. What [match] returns is
    registered under the path and the upper-cased method; it returns
    nothing exactly when no registered policy has that pair; and the
    letter case of the method does not matter. *)
Theorem match_after_add (path method : string) (items : list RoutePolicy.t)
    (engine : PolicyEngine.t) :
  match_ path method (add items engine)
  = match match_ path method engine with
    | Some p => Some p
    | None => match_ path method items
    end
  /\ (forall p, match_ path method engine = Some p ->
        p ∈ engine /\ RoutePolicy.path p = path
        /\ method_name (RoutePolicy.method p) = Js.toUpperCase method)
  /\ (match_ path method engine = None
      <-> forall p, p ∈ engine ->
            (RoutePolicy.path p, method_name (RoutePolicy.method p))
            <> (path, Js.toUpperCase method))
  /\ match_ path (Js.toUpperCase method) engine = match_ path method engine
  /\ match_ path (Js.toLowerCase method) engine = match_ path method engine.
Proof.
  split; [|split; [|split; [|split]]].
  - unfold match_, add. apply find_app.
  - intros p [Hin [= Hp Hm]]%match_sound. done.
  - apply match_none.
  - apply GatewayFacts.match_upper. apply toUpperCase_idem.
  - apply GatewayFacts.match_upper. unfold Js.toUpperCase, Js.toLowerCase.
    induction method as [|c s IH]; simpl; [done|]. rewrite IH. f_equal.
    destruct c as [[] [] [] [] [] [] [] []]; reflexivity.
Qed.

End RegistryLaws.

(** ** Start-up: configuration, builder and registry together *)

Module BootLaws.

(** What every policy of policies.ts takes from the configuration and
    from the builder's defaults. *)
Definition from_config (config : Config.t) (p : RoutePolicy.t) : Prop :=
  RoutePolicy.payTo p = Config.payTo config
  /\ RoutePolicy.network p = Config.network config
  /\ RoutePolicy.asset p = "STX"
  /\ RoutePolicy.scheme p = "exact"
  /\ RoutePolicy.mimeType p = "application/json"
  /\ RoutePolicy.maxTimeoutSeconds p = 60
  /\ RoutePolicy.extra p = None
  /\ is_Some (RoutePolicy.outputSchema p).

Definition route (p : RoutePolicy.t) : string * HttpMethod * string :=
  (RoutePolicy.path p, RoutePolicy.method p, RoutePolicy.maxAmountRequired p).

Lemma boot_ok (env : gmap string string) (config : Config.t) :
  Config.load env = Ok config -> Config.network config <> "" ->
  exists echo weather summarize,
    Gateway.boot env = Ok (Gateway.mk config [echo; weather; summarize])
    /\ route echo = ("/v1/premium/echo", GET, Config.amountMicroStx config)
    /\ route weather = ("/proxy/api/weather", GET, "10")
    /\ route summarize = ("/proxy/api/summarize", POST, "50")
    /\ Forall (from_config config) [echo; weather; summarize].
Proof.
  intros Hload Hnet. destruct (ConfigLaws.loaded_nonempty env config Hload) as [Hpay Hamt].
  unfold Gateway.boot. rewrite Hload. unfold Policies.engine.
  unfold Policies.echo, Policies.weather, Policies.summarize.
  destruct (BuilderLaws.chain_builds "/v1/premium/echo" GET (Config.amountMicroStx config)
              "STX" (Config.network config) (Config.payTo config)
              "Premium echo endpoint — returns your message (x402 protected)")
    as [_ ->]; [done..|].
  destruct (BuilderLaws.chain_builds "/proxy/api/weather" GET "10"
              "STX" (Config.network config) (Config.payTo config)
              "Weather lookup — proxied upstream, 10 µSTX per call")
    as [_ ->]; [done..|].
  destruct (BuilderLaws.chain_builds "/proxy/api/summarize" POST "50"
              "STX" (Config.network config) (Config.payTo config)
              "Text summarization — proxied upstream, 50 µSTX per call")
    as [_ ->]; [done..|].
  do 3 eexists. split; [reflexivity|]. split; [done|]. split; [done|]. split; [done|].
  repeat constructor; by eexists.
Qed.

Lemma boot_inversion (env : gmap string string) (gw : Gateway.t) :
  Gateway.boot env = Ok gw ->
  Config.load env = Ok (Gateway.config gw)
  /\ Config.network (Gateway.config gw) <> ""
  /\ exists echo weather summarize,
       Gateway.engine gw = [echo; weather; summarize]
       /\ route echo = ("/v1/premium/echo", GET, Config.amountMicroStx (Gateway.config gw))
       /\ route weather = ("/proxy/api/weather", GET, "10")
       /\ route summarize = ("/proxy/api/summarize", POST, "50")
       /\ Forall (from_config (Gateway.config gw)) [echo; weather; summarize].
Proof.
  intros Hboot. destruct (Config.load env) as [config|message] eqn:Hload;
    [|unfold Gateway.boot in Hboot; by rewrite Hload in Hboot].
  destruct (decide (Config.network config = "")) as [Hnet|Hnet].
  - exfalso. revert Hboot. unfold Gateway.boot. rewrite Hload.
    unfold Policies.engine, Policies.echo, PolicyBuilder.build. simpl. by rewrite Hnet.
  - destruct (boot_ok env config Hload Hnet) as (e & x & s & Hok & He & Hx & Hs & Hall).
    rewrite Hok in Hboot. injection Hboot as <-. simpl. split; [done|]. split; [done|].
    by exists e, x, s.
Qed.

(** What holds of every policy of a gateway that has started. *)
Lemma booted_policy (env : gmap string string) (gw : Gateway.t) (p : RoutePolicy.t) :
  Gateway.boot env = Ok gw -> p ∈ Gateway.engine gw ->
  from_config (Gateway.config gw) p
  /\ RoutePolicy.path p <> "" /\ RoutePolicy.maxAmountRequired p <> ""
  /\ RoutePolicy.payTo p <> "" /\ RoutePolicy.network p <> "".
Proof.
  intros Hboot Hp.
  destruct (boot_inversion env gw Hboot) as (Hload & Hnet & e & x & s & Hengine & He & Hx & Hs & Hall).
  destruct (ConfigLaws.loaded_nonempty env _ Hload) as [Hpay Hamt].
  rewrite Hengine in Hp. rewrite Forall_forall in Hall.
  pose proof (Hall p Hp) as Hfrom. split; [exact Hfrom|].
  destruct Hfrom as (-> & -> & _).
  assert (Hroute : RoutePolicy.path p <> "" /\ RoutePolicy.maxAmountRequired p <> "").
  { unfold route in *.
    apply elem_of_cons in Hp as [->|Hp]; [injection He as -> _ ->; by split|].
    apply elem_of_cons in Hp as [->|Hp]; [injection Hx as -> _ ->; by split|].
    apply elem_of_cons in Hp as [->|Hp]; [injection Hs as -> _ ->; by split|].
    by apply elem_of_nil in Hp. }
  destruct Hroute as [Hpath Hprice]. done.
Qed.

(** X10: Start-up as a whole: the gateway starts exactly when the
    configuration loads and the network is not the empty string
    ([NETWORK=] set to nothing stops the first [build]); it then has the
    three routes of policies.ts, in their order, the echo route priced
    at [AMOUNT_MICROSTX] and the proxied routes at 10 and 50, all paid
    to the configured recipient on the configured network. *)
Theorem boot_result (env : gmap string string) :
  match Config.load env with
  | Throw message => Gateway.boot env = Throw message
  | Ok config =>
      if decide (Config.network config = "") then
        Gateway.boot env = Throw "PolicyBuilder: network is required (.on())"
      else
        exists echo weather summarize,
          Gateway.boot env = Ok (Gateway.mk config [echo; weather; summarize])
          /\ route echo = ("/v1/premium/echo", GET, Config.amountMicroStx config)
          /\ route weather = ("/proxy/api/weather", GET, "10")
          /\ route summarize = ("/proxy/api/summarize", POST, "50")
          /\ Forall (from_config config) [echo; weather; summarize]
  end.
Proof.
  destruct (Config.load env) as [config|message] eqn:Hload.
  - destruct (decide (Config.network config = "")) as [Hnet|Hnet].
    + unfold Gateway.boot. rewrite Hload. unfold Policies.engine, Policies.echo.
      unfold PolicyBuilder.build. simpl. by rewrite Hnet.
    + by apply boot_ok.
  - unfold Gateway.boot. by rewrite Hload.
Qed.

Example empty_network_stops_start_up :
  Gateway.boot {[ "NETWORK" := "" ]} = Throw "PolicyBuilder: network is required (.on())".
Proof. reflexivity. Qed.

End BootLaws.

(** ** Signature validation on a priced route, as a whole *)

Section ValidationLaws.
Context `{Platform}.

(** What validation asks of a payload on a priced route. *)
Definition acceptable (payload : PaymentPayload.t) (accept : PaymentAccept.t) (minimum : Z)
  : Prop :=
  missing_fields payload = []
  /\ PaymentPayload.x402Version payload = Some 2
  /\ PaymentPayload.network payload = Some (PaymentAccept.network accept)
  /\ PaymentPayload.asset payload = Some (PaymentAccept.asset accept)
  /\ PaymentPayload.payTo payload = Some (PaymentAccept.payTo accept)
  /\ PaymentPayload.scheme payload = Some (PaymentAccept.scheme accept)
  /\ exists paid, BigInt (PaymentPayload.amount payload) = Some paid /\ minimum <= paid.

Lemma mismatch_nil (name expected : string) (got : option string) :
  mismatch name expected got = [] <-> got = Some expected.
Proof. unfold mismatch. case_bool_decide; split; done. Qed.

Lemma mismatches_nil (payload : PaymentPayload.t) (accept : PaymentAccept.t) :
  mismatches payload accept = []
  <-> PaymentPayload.network payload = Some (PaymentAccept.network accept)
      /\ PaymentPayload.asset payload = Some (PaymentAccept.asset accept)
      /\ PaymentPayload.payTo payload = Some (PaymentAccept.payTo accept)
      /\ PaymentPayload.scheme payload = Some (PaymentAccept.scheme accept).
Proof.
  unfold mismatches. split.
  - intros Hnil.
    apply app_eq_nil in Hnil as [H1 Hnil]. apply app_eq_nil in Hnil as [H2 Hnil].
    apply app_eq_nil in Hnil as [H3 H4].
    by rewrite mismatch_nil in H1, H2, H3, H4.
  - intros (H1 & H2 & H3 & H4). rewrite <- mismatch_nil in H1, H2, H3, H4.
    by rewrite H1, H2, H3, H4.
Qed.

Lemma validateSignature_accepts (gw : Gateway.t) (req : Request.t) (res : Res.t) (w : World.t)
    (raw : string) (payload : PaymentPayload.t) (policy : RoutePolicy.t) (minimum : Z)
    (next : Next) :
  Request.header X402_HEADERS.SIGNATURE req = Some raw -> raw <> "" ->
  decodePayload raw = Parsed payload ->
  Gateway.findPolicy gw (Request.path req) (Request.method req) = Some policy ->
  Js.StringToBigInt (RoutePolicy.maxAmountRequired policy) = Some minimum ->
  acceptable payload (buildAccept gw policy req) minimum ->
  validateSignature gw req res w next = next (Res.set_paymentPayload payload res) w.
Proof.
  intros Hraw Hne Hdecode Hpolicy Hminimum (Hmissing & Hversion & Hn & Ha & Hp & Hs & paid & Hpaid & Hle).
  rewrite (validateSignature_well_formed gw req res w next raw payload) by done.
  rewrite Hpolicy. cbn zeta.
  rewrite (proj2 (mismatches_nil payload (buildAccept gw policy req))) by done. simpl.
  rewrite Hminimum, Hpaid. by destruct (Z.ltb_spec paid minimum); [lia|].
Qed.

Lemma validateSignature_refuses (gw : Gateway.t) (req : Request.t) (res : Res.t) (w : World.t)
    (raw : string) (payload : PaymentPayload.t) (policy : RoutePolicy.t) (minimum : Z) :
  Request.header X402_HEADERS.SIGNATURE req = Some raw -> raw <> "" ->
  decodePayload raw = Parsed payload ->
  Gateway.findPolicy gw (Request.path req) (Request.method req) = Some policy ->
  Js.StringToBigInt (RoutePolicy.maxAmountRequired policy) = Some minimum ->
  ~ acceptable payload (buildAccept gw policy req) minimum ->
  exists message, forall next : Next,
    validateSignature gw req res w next = reject 400 message res w.
Proof.
  intros Hraw Hne Hdecode Hpolicy Hminimum Hnot.
  assert (Hstart : forall next : Next,
    validateSignature gw req res w next
    = if negb (bool_decide (missing_fields payload = [])) then
        reject 400 ("PAYMENT-SIGNATURE missing required fields: "
                    +:+ Js.join ", " (field_name <$> missing_fields payload)) res w
      else if negb (bool_decide (PaymentPayload.x402Version payload = Some 2)) then
        reject 400 ("Unsupported x402Version: "
                    +:+ Js.interpolate (Js.Z_to_string <$> PaymentPayload.x402Version payload)
                    +:+ " (expected 2)") res w
      else
        let accept := buildAccept gw policy req in
        let mm := mismatches payload accept in
        if negb (bool_decide (mm = [])) then
          reject 400 ("PAYMENT-SIGNATURE does not match offer: " +:+ Js.join "; " mm) res w
        else
          match BigInt (PaymentPayload.amount payload) with
          | None => reject 400 "PAYMENT-SIGNATURE amount is not a valid integer string" res w
          | Some paidAmount =>
              if paidAmount <? minimum then
                reject 400 ("Insufficient payment: required "
                            +:+ PaymentAccept.maxAmountRequired accept +:+ ", got "
                            +:+ Js.interpolate (PaymentPayload.amount payload)) res w
              else next (Res.set_paymentPayload payload res) w
          end).
  { intros next. unfold validateSignature. rewrite Hraw. unfold Js.truthy.
    destruct (String.eqb_spec raw "") as [|_]; [done|]. simpl. rewrite Hdecode, Hpolicy.
    cbn zeta. change (PaymentAccept.maxAmountRequired (buildAccept gw policy req))
      with (RoutePolicy.maxAmountRequired policy). by rewrite Hminimum. }
  destruct (decide (missing_fields payload = [])) as [Hmissing|Hmissing];
    [|eexists; intros next; rewrite Hstart; by rewrite bool_decide_eq_false_2].
  destruct (decide (PaymentPayload.x402Version payload = Some 2)) as [Hversion|Hversion];
    [|eexists; intros next; rewrite Hstart, Hmissing; simpl;
      by rewrite bool_decide_eq_false_2].
  destruct (decide (mismatches payload (buildAccept gw policy req) = [])) as [Hmm|Hmm];
    [|eexists; intros next; rewrite Hstart, Hmissing; simpl;
      rewrite (bool_decide_eq_true_2 (PaymentPayload.x402Version payload = Some 2)) by done;
      simpl; by rewrite bool_decide_eq_false_2].
  destruct (BigInt (PaymentPayload.amount payload)) as [paid|] eqn:Hpaid;
    [|eexists; intros next; rewrite Hstart, Hmissing; simpl;
      rewrite (bool_decide_eq_true_2 (PaymentPayload.x402Version payload = Some 2)) by done;
      simpl; by rewrite Hmm].
  destruct (Z.ltb_spec paid minimum) as [Hlt|Hge].
  - eexists. intros next. rewrite Hstart, Hmissing. simpl.
    rewrite (bool_decide_eq_true_2 (PaymentPayload.x402Version payload = Some 2)) by done.
    simpl. rewrite Hmm. simpl.
    by destruct (Z.ltb_spec paid minimum); [|lia].
  - exfalso. apply Hnot. apply mismatches_nil in Hmm as (? & ? & ? & ?).
    repeat split; try done. by exists paid.
Qed.

(** X11: On a priced route whose price [BigInt] reads, validation lets a
    header that decodes to a payload through exactly when every
    required member is there, the version is 2, network, asset,
    recipient and scheme are the offer's and the amount is an integer
    not below the price; the payload is then stashed unchanged, and its
    [resource], [signature], [nonce] and [memo] are not compared with
    anything. Every other payload is answered 400, and so is a header
    that is not base64 of JSON. A header that decodes to the JSON
    [null] is answered 500: reading its members throws. In none of
    these refusals does the rest of the stack run. *)
Theorem validation_accepts_exactly (gw : Gateway.t) (req : Request.t) (res : Res.t)
    (w : World.t) (raw : string) (policy : RoutePolicy.t) (minimum : Z) :
  Request.header X402_HEADERS.SIGNATURE req = Some raw -> raw <> "" ->
  Gateway.findPolicy gw (Request.path req) (Request.method req) = Some policy ->
  Js.StringToBigInt (RoutePolicy.maxAmountRequired policy) = Some minimum ->
  match decodePayload raw with
  | Parsed payload =>
      (acceptable payload (buildAccept gw policy req) minimum ->
       forall next : Next,
         validateSignature gw req res w next = next (Res.set_paymentPayload payload res) w)
      /\ (~ acceptable payload (buildAccept gw policy req) minimum ->
          exists message, forall next : Next,
            validateSignature gw req res w next = reject 400 message res w)
  | NotJson _ =>
      forall next : Next,
        validateSignature gw req res w next
        = reject 400 "PAYMENT-SIGNATURE is not valid base64-encoded JSON" res w
  | Null =>
      forall next : Next,
        validateSignature gw req res w next
        = ({| Response.status := 500;
              Response.headers := Res.headers res;
              Response.body :=
                TextBody "Cannot read properties of null (reading 'x402Version')" |},
           w)
  end.
Proof.
  intros Hraw Hne Hpolicy Hminimum.
  destruct (decodePayload raw) as [e| |payload] eqn:Hdecode.
  - intros next. unfold validateSignature.
    rewrite Hraw. unfold Js.truthy. destruct (String.eqb_spec raw ""); [done|]. simpl.
    by rewrite Hdecode.
  - intros next. by apply (validateSignature_null_reply gw req res w next raw).
  - split.
    + intros Hacc next. by eapply validateSignature_accepts.
    + intros Hnot. by eapply validateSignature_refuses.
Qed.

End ValidationLaws.

(** ** A payment through the whole stack *)

Section GateLaws.
Context `{Platform}.

(** The stack in front of the payment gate. *)
Definition before_gate (gw : Gateway.t) (req : Request.t) (w : World.t) (gate : Next)
  : Response.t * World.t :=
  idempotency req Res.fresh w (fun res1 w1 =>
    validateSignature gw req res1 w1 (fun res2 w2 =>
      replayProtection req res2 w2 gate)).

(** [res] and the world as the gate receives them for a payment that
    was validated and whose nonce was new. *)
Definition stashed (req : Request.t) (w : World.t) (payload : PaymentPayload.t) : Res.t :=
  Res.set_paymentPayload payload (after_miss req w).1.

Definition nonce_taken (req : Request.t) (w : World.t) (payload : PaymentPayload.t) : World.t :=
  record_nonce (extractNonceKey payload) (after_miss req w).2.

(** An acceptable payment on a priced route, not answered from the
    idempotency cache, with a nonce that is not in the nonce cache. *)
Record fresh_payment (gw : Gateway.t) (req : Request.t) (w : World.t) (raw : string)
    (payload : PaymentPayload.t) (policy : RoutePolicy.t) (minimum : Z) : Prop := {
  fp_header : Request.header X402_HEADERS.SIGNATURE req = Some raw;
  fp_nonempty : raw <> "";
  fp_decodes : decodePayload raw = Parsed payload;
  fp_policy : Gateway.findPolicy gw (Request.path req) (Request.method req) = Some policy;
  fp_price : Js.StringToBigInt (RoutePolicy.maxAmountRequired policy) = Some minimum;
  fp_acceptable : acceptable payload (buildAccept gw policy req) minimum;
  fp_miss : cache_hit req w = None;
  fp_new :
    (TtlCache.has (World.now w) (extractNonceKey payload) (World.replayNonces w)).1 = false;
}.

Lemma reaches_gate (gw : Gateway.t) (req : Request.t) (w : World.t) (raw : string)
    (payload : PaymentPayload.t) (policy : RoutePolicy.t) (minimum : Z) (gate : Next) :
  fresh_payment gw req w raw payload policy minimum ->
  before_gate gw req w gate = gate (stashed req w payload) (nonce_taken req w payload).
Proof.
  intros [Hraw Hne Hdecode Hpolicy Hprice Hacc Hmiss Hnew].
  unfold before_gate. rewrite idempotency_miss by done.
  rewrite (validateSignature_accepts gw req _ _ raw payload policy minimum) by done.
  destruct (after_miss_world req w) as (Hnow & Hnonces & _).
  rewrite (replayProtection_fresh req _ _ _ raw payload); [done..|].
  by rewrite Hnow, Hnonces.
Qed.

Lemma protected_before_gate (gw : Gateway.t) (req : Request.t) (w : World.t) (handler : Next) :
  protected gw req w handler
  = before_gate gw req w (fun res3 w3 => paymentRequired gw req res3 w3 handler).
Proof. done. Qed.

Lemma nonce_taken_now (req : Request.t) (w : World.t) (payload : PaymentPayload.t) :
  World.now (nonce_taken req w payload) = World.now w.
Proof.
  unfold nonce_taken, record_nonce. simpl.
  by destruct (after_miss_world req w) as (-> & _).
Qed.

(** X12: With mock payments on, an acceptable payment with a new nonce
    reaches the handler, whatever the facilitator would say: the
    handler finds the mock receipt in scratch (the amount is the
    payload's own string, the time is now, settled) and the same
    receipt, base64 of its JSON, in the [payment-response] header; the
    nonce has been recorded. The echo route then answers 200 with the
    message and the receipt in the envelope. *)
Theorem paid_request_in_mock_mode (gw : Gateway.t) (req : Request.t) (w : World.t)
    (raw : string) (payload : PaymentPayload.t) (policy : RoutePolicy.t) (minimum : Z) :
  Config.mockPayments (Gateway.config gw) = true ->
  fresh_payment gw req w raw payload policy minimum ->
  let receipt := mockReceipt gw payload (World.now w) in
  let header := toBase64 (PaymentReceipt.to_json receipt) in
  (forall handler : Next,
     protected gw req w handler
     = handler (Res.set_receipt receipt
                  (Res.set X402_HEADERS.RESPONSE header (stashed req w payload)))
               (nonce_taken req w payload))
  /\ Some (PaymentReceipt.amount receipt) = PaymentPayload.amount payload
  /\ PaymentReceipt.timestamp receipt = World.now w
  /\ PaymentReceipt.settled receipt = true
  /\ Base64.decode header = Some (Json.stringify (PaymentReceipt.to_json receipt))
  /\ (handle gw echoHandler req w).1
     = {| Response.status := 200;
          Response.headers := {[ "payment-response" := header ]};
          Response.body :=
            JsonBody (Json.JObj
              [("success", Json.JBool true);
               ("data", Json.JObj
                  [("echo", Json.JStr (default "" (Request.query req !! "msg")));
                   ("ts", Json.JStr (toISOString (World.now w)))]);
               ("receipt", PaymentReceipt.to_json receipt)]) |}.
Proof.
  intros Hmock Hfresh receipt header.
  assert (Hstack : forall handler : Next,
    protected gw req w handler
    = handler (Res.set_receipt receipt
                 (Res.set X402_HEADERS.RESPONSE header (stashed req w payload)))
              (nonce_taken req w payload)).
  { intros handler. rewrite protected_before_gate.
    rewrite (reaches_gate gw req w raw payload policy minimum) by done.
    unfold paymentRequired. rewrite (fp_policy _ _ _ _ _ _ _ Hfresh). cbn zeta.
    change (Res.paymentPayload (stashed req w payload)) with (Some payload). cbn iota.
    rewrite Hmock. by rewrite nonce_taken_now. }
  split; [exact Hstack|].
  destruct Hfresh as [_ _ _ _ _ (_ & _ & _ & _ & _ & _ & paid & Hpaid & _) _ _].
  split; [|split; [done|split; [done|split; [apply Base64Facts.toBase64_decodes|]]]].
  - simpl. destruct (PaymentPayload.amount payload); [done | discriminate].
  - unfold handle. rewrite Hstack. unfold serve, respond, echoHandler. simpl.
    destruct (after_miss_world req w) as (-> & _).
    destruct (after_miss_res req w) as (-> & -> & _). by rewrite insert_empty.
Qed.

(** The facilitator has verified and settled the payment of [req]. *)
Definition facilitator_settles (gw : Gateway.t) (req : Request.t) (accept : PaymentAccept.t)
    (v : FacilitatorVerifyResponse.t) (s : FacilitatorSettleResponse.t) : Prop :=
  let rawSig := Js.join_item (Request.header X402_HEADERS.SIGNATURE req) in
  postVerify (Config.facilitatorUrl (Gateway.config gw) +:+ "/verify") rawSig accept = OkJson v
  /\ FacilitatorVerifyResponse.valid v = true
  /\ postSettle (Config.facilitatorUrl (Gateway.config gw) +:+ "/settle") rawSig accept = OkJson s.

Definition settled_receipt (v : FacilitatorVerifyResponse.t) (s : FacilitatorSettleResponse.t)
  : PaymentReceipt.t :=
  {| PaymentReceipt.txHash := Some (FacilitatorSettleResponse.txHash s);
     PaymentReceipt.network := FacilitatorSettleResponse.network s;
     PaymentReceipt.payer := FacilitatorVerifyResponse.payer v;
     PaymentReceipt.amount := FacilitatorVerifyResponse.amount v;
     PaymentReceipt.timestamp := FacilitatorSettleResponse.timestamp s;
     PaymentReceipt.settled := FacilitatorSettleResponse.settled s |}.

Lemma gate_live (gw : Gateway.t) (req : Request.t) (res : Res.t) (w : World.t)
    (policy : RoutePolicy.t) (payload : PaymentPayload.t) (next : Next) :
  Config.mockPayments (Gateway.config gw) = false ->
  Gateway.findPolicy gw (Request.path req) (Request.method req) = Some policy ->
  Res.paymentPayload res = Some payload ->
  paymentRequired gw req res w next
  = match verifyPayment (Gateway.config gw)
            (Js.join_item (Request.header X402_HEADERS.SIGNATURE req))
            (buildAccept gw policy req) with
    | Throw message => reject 502 message res w
    | Ok verification =>
        if negb (FacilitatorVerifyResponse.valid verification) then
          reject 401 "Payment signature verification failed" res w
        else
          match settlePayment (Gateway.config gw)
                  (Js.join_item (Request.header X402_HEADERS.SIGNATURE req))
                  (buildAccept gw policy req) with
          | Throw message => reject 502 message res w
          | Ok settlement =>
              next (Res.set_receipt (settled_receipt verification settlement)
                      (Res.set X402_HEADERS.RESPONSE
                         (toBase64 (PaymentReceipt.to_json
                                      (settled_receipt verification settlement))) res)) w
          end
    end.
Proof. intros Hlive Hpolicy Hpayload. unfold paymentRequired. by rewrite Hpolicy, Hpayload, Hlive. Qed.

Lemma verifyPayment_Ok (config : Config.t) (rawSig : string) (accept : PaymentAccept.t)
    (v : FacilitatorVerifyResponse.t) :
  verifyPayment config rawSig accept = Ok v
  <-> postVerify (Config.facilitatorUrl config +:+ "/verify") rawSig accept = OkJson v.
Proof. unfold verifyPayment. destruct (postVerify _ _ _); split; congruence. Qed.

Lemma settlePayment_Ok (config : Config.t) (rawSig : string) (accept : PaymentAccept.t)
    (s : FacilitatorSettleResponse.t) :
  settlePayment config rawSig accept = Ok s
  <-> postSettle (Config.facilitatorUrl config +:+ "/settle") rawSig accept = OkJson s.
Proof. unfold settlePayment. destruct (postSettle _ _ _); split; congruence. Qed.

Lemma gate_settles (gw : Gateway.t) (req : Request.t) (res : Res.t) (w : World.t)
    (policy : RoutePolicy.t) (payload : PaymentPayload.t)
    (v : FacilitatorVerifyResponse.t) (s : FacilitatorSettleResponse.t) (next : Next) :
  Config.mockPayments (Gateway.config gw) = false ->
  Gateway.findPolicy gw (Request.path req) (Request.method req) = Some policy ->
  Res.paymentPayload res = Some payload ->
  facilitator_settles gw req (buildAccept gw policy req) v s ->
  paymentRequired gw req res w next
  = next (Res.set_receipt (settled_receipt v s)
            (Res.set X402_HEADERS.RESPONSE
               (toBase64 (PaymentReceipt.to_json (settled_receipt v s))) res)) w.
Proof.
  intros Hlive Hpolicy Hpayload (Hv%verifyPayment_Ok & Hvalid & Hs%settlePayment_Ok).
  rewrite (gate_live gw req res w policy payload) by done.
  by rewrite Hv, Hvalid, Hs.
Qed.

Lemma gate_refuses (gw : Gateway.t) (req : Request.t) (res : Res.t) (w : World.t)
    (policy : RoutePolicy.t) (payload : PaymentPayload.t) :
  Config.mockPayments (Gateway.config gw) = false ->
  Gateway.findPolicy gw (Request.path req) (Request.method req) = Some policy ->
  Res.paymentPayload res = Some payload ->
  (forall v s, ~ facilitator_settles gw req (buildAccept gw policy req) v s) ->
  exists code message,
    (code = 401 \/ code = 502)
    /\ forall next : Next, paymentRequired gw req res w next = reject code message res w.
Proof.
  intros Hlive Hpolicy Hpayload Hnot.
  destruct (verifyPayment (Gateway.config gw)
              (Js.join_item (Request.header X402_HEADERS.SIGNATURE req))
              (buildAccept gw policy req)) as [v|message] eqn:Hv;
    [|exists 502, message; split; [by right|]; intros next;
      rewrite (gate_live gw req res w policy payload) by done; by rewrite Hv].
  destruct (FacilitatorVerifyResponse.valid v) eqn:Hvalid;
    [|exists 401, "Payment signature verification failed"; split; [by left|]; intros next;
      rewrite (gate_live gw req res w policy payload) by done; by rewrite Hv, Hvalid].
  destruct (settlePayment (Gateway.config gw)
              (Js.join_item (Request.header X402_HEADERS.SIGNATURE req))
              (buildAccept gw policy req)) as [s|message] eqn:Hs;
    [|exists 502, message; split; [by right|]; intros next;
      rewrite (gate_live gw req res w policy payload) by done; by rewrite Hv, Hvalid, Hs].
  exfalso. apply (Hnot v s). split; [by apply verifyPayment_Ok|].
  split; [done | by apply settlePayment_Ok].
Qed.

Lemma stack_refuses (gw : Gateway.t) (req : Request.t) (w : World.t)
    (raw : string) (payload : PaymentPayload.t) (policy : RoutePolicy.t) (minimum : Z) :
  Config.mockPayments (Gateway.config gw) = false ->
  fresh_payment gw req w raw payload policy minimum ->
  (forall v s, ~ facilitator_settles gw req (buildAccept gw policy req) v s) ->
  exists code message,
    (code = 401 \/ code = 502)
    /\ forall handler : Next,
         protected gw req w handler
         = reject code message (stashed req w payload) (nonce_taken req w payload).
Proof.
  intros Hlive Hfresh Hnot.
  destruct (gate_refuses gw req (stashed req w payload) (nonce_taken req w payload)
              policy payload Hlive (fp_policy _ _ _ _ _ _ _ Hfresh) eq_refl Hnot)
    as (code & message & Hcode & Hgate).
  exists code, message. split; [done|]. intros handler. rewrite protected_before_gate.
  rewrite (reaches_gate gw req w raw payload policy minimum) by done. apply Hgate.
Qed.

(** X13: With mock payments off, the handler runs only for a payment the
    facilitator has verified as valid and settled, with a receipt made
    of the facilitator's two answers (whatever [settled] says in the
    second); in every other case the reply is 401 or 502 and the
    handler does not run. The nonce is recorded in both cases. *)
Theorem live_gate (gw : Gateway.t) (req : Request.t) (w : World.t)
    (raw : string) (payload : PaymentPayload.t) (policy : RoutePolicy.t) (minimum : Z) :
  Config.mockPayments (Gateway.config gw) = false ->
  fresh_payment gw req w raw payload policy minimum ->
  (forall v s, facilitator_settles gw req (buildAccept gw policy req) v s ->
     forall handler : Next,
       protected gw req w handler
       = handler (Res.set_receipt (settled_receipt v s)
                    (Res.set X402_HEADERS.RESPONSE
                       (toBase64 (PaymentReceipt.to_json (settled_receipt v s)))
                       (stashed req w payload)))
                 (nonce_taken req w payload))
  /\ ((forall v s, ~ facilitator_settles gw req (buildAccept gw policy req) v s) ->
      exists code message,
        (code = 401 \/ code = 502)
        /\ forall handler : Next,
             protected gw req w handler
             = reject code message (stashed req w payload) (nonce_taken req w payload)).
Proof.
  intros Hlive Hfresh. split.
  - intros v s Hsettles handler. rewrite protected_before_gate.
    rewrite (reaches_gate gw req w raw payload policy minimum) by done.
    by apply (gate_settles gw req _ _ policy payload); [|apply Hfresh|..].
  - by apply (stack_refuses gw req w raw payload policy minimum).
Qed.

(** A miss stays a miss while nothing is stored: the read of the first
    request may have dropped an expired entry, no more. *)
Lemma cache_hit_later (req : Request.t) (w w2 : World.t) :
  cache_hit req w = None -> World.now w <= World.now w2 ->
  World.idempotencyCache w2 = World.idempotencyCache (after_miss req w).2 ->
  cache_hit req w2 = None.
Proof.
  unfold cache_hit, after_miss. destruct (capture_key req) as [key|]; [|done]. simpl.
  intros Hmiss Hle ->. rewrite TtlCacheLaws.get_after_get by done.
  by apply (TtlCacheLaws.get_none_later (World.now w)).
Qed.

Lemma nonce_taken_cache (req : Request.t) (w : World.t) (payload : PaymentPayload.t) :
  World.idempotencyCache (nonce_taken req w payload)
  = World.idempotencyCache (after_miss req w).2.
Proof. done. Qed.

(** The same payment again, while the recorded nonce is alive. *)
Lemma second_attempt (gw : Gateway.t) (req : Request.t) (w : World.t)
    (raw : string) (payload : PaymentPayload.t) (policy : RoutePolicy.t) (minimum : Z)
    (t2 : Z) (handler : Next) :
  fresh_payment gw req w raw payload policy minimum ->
  World.now w <= t2 < World.now w + TtlCache.defaultTtlMs (World.replayNonces w) ->
  (protected gw req (World.at_time t2 (nonce_taken req w payload)) handler).1
  = {| Response.status := 409;
       Response.headers := ∅;
       Response.body := JsonBody (error_body replay_message) |}.
Proof.
  intros Hfresh [Hle Hlt]. set (w2 := World.at_time t2 (nonce_taken req w payload)).
  assert (Hmiss2 : cache_hit req w2 = None).
  { apply (cache_hit_later req w); [apply Hfresh | done | done]. }
  destruct Hfresh as [Hraw Hne Hdecode Hpolicy Hprice Hacc Hmiss Hnew].
  unfold protected. rewrite idempotency_miss by done.
  rewrite (validateSignature_accepts gw req _ _ raw payload policy minimum) by done.
  destruct (after_miss_world req w2) as (Hnow2 & Hnonces2 & _).
  destruct (after_miss_world req w) as (Hnow & Hnonces & _).
  rewrite (replayProtection_seen req _ _ _ raw payload); [|done..|].
  - rewrite reject_reply. simpl. by destruct (after_miss_res req w2) as (_ & -> & _).
  - rewrite Hnow2, Hnonces2. change (World.now w2) with t2.
    change (World.replayNonces w2)
      with (World.replayNonces (record_nonce (extractNonceKey payload) (after_miss req w).2)).
    assert (Hfresh' : (TtlCache.has (World.now (after_miss req w).2)
                         (extractNonceKey payload)
                         (World.replayNonces (after_miss req w).2)).1 = false)
      by (by rewrite Hnow, Hnonces).
    destruct (record_nonce_recorded (extractNonceKey payload) (after_miss req w).2 Hfresh')
      as (Hrec & _).
    eapply recorded_has; [exact Hrec|]. by rewrite Hnow, Hnonces.
Qed.

(** X14: A payment that fails at the facilitator has used up its nonce: the
    first reply is 401 or 502, nothing is stored for it under the
    idempotency key, and the same payment sent again within the nonce
    cache's time to live is refused with 409 before the facilitator is
    asked again. *)
Theorem failed_settlement_uses_up_the_nonce (gw : Gateway.t) (req : Request.t) (w : World.t)
    (raw : string) (payload : PaymentPayload.t) (policy : RoutePolicy.t) (minimum : Z)
    (t2 : Z) (handler handler2 : Next) :
  Config.mockPayments (Gateway.config gw) = false ->
  fresh_payment gw req w raw payload policy minimum ->
  (forall v s, ~ facilitator_settles gw req (buildAccept gw policy req) v s) ->
  World.now w <= t2 < World.now w + TtlCache.defaultTtlMs (World.replayNonces w) ->
  let first := protected gw req w handler in
  (Response.status first.1 = 401 \/ Response.status first.1 = 502)
  /\ first.2 = nonce_taken req w payload
  /\ (protected gw req (World.at_time t2 first.2) handler2).1
     = {| Response.status := 409;
          Response.headers := ∅;
          Response.body := JsonBody (error_body replay_message) |}.
Proof.
  intros Hlive Hfresh Hnot Ht2 first.
  destruct (stack_refuses gw req w raw payload policy minimum Hlive Hfresh Hnot)
    as (code & message & Hcode & Hstack).
  assert (Hworld : first.2 = nonce_taken req w payload).
  { unfold first. rewrite Hstack. unfold reject, Res.json. simpl.
    destruct (Res.capture _); [|done]. unfold Res.captured. simpl.
    by destruct Hcode as [-> | ->]. }
  split; [|split; [exact Hworld|]].
  - unfold first. rewrite Hstack. simpl. destruct Hcode as [-> | ->]; auto.
  - rewrite Hworld. by apply (second_attempt gw req w raw payload policy minimum).
Qed.

End GateLaws.

Module GateExample.
Import Fixture.

Definition paid : Request.t :=
  echo [("payment-signature", HStr (sign (payment "n-1" None "100000")))].

Lemma paid_fresh :
  @fresh_payment platform gateway paid (World.initial 0) (sign (payment "n-1" None "100000"))
    (payment "n-1" None "100000") OfferExample.echo_policy 100000.
Proof.
  constructor; try (vm_compute; reflexivity); [apply ValidationExample.sign_nonempty|].
  repeat split; try (vm_compute; reflexivity).
  exists 100000. split; [vm_compute; reflexivity | lia].
Qed.

(** The echo route with a header that is base64 of the JSON text [null]. *)
Definition null_paid : Request.t := echo [("payment-signature", HStr "bnVsbA==")].

Lemma validation_accepts_exactly_witness :
  @validateSignature platform gateway paid Res.fresh (World.initial 0)
    (serve (@echoHandler platform) paid)
  = serve (@echoHandler platform) paid
      (Res.set_paymentPayload (payment "n-1" None "100000") Res.fresh) (World.initial 0)
  /\ Response.status
       (@validateSignature platform gateway null_paid Res.fresh (World.initial 0)
          (serve (@echoHandler platform) null_paid)).1 = 500.
Proof.
  split.
  - pose proof (@validation_accepts_exactly platform gateway paid Res.fresh (World.initial 0)
                  (sign (payment "n-1" None "100000")) OfferExample.echo_policy 100000)
      as Hlaw.
    assert (Hdecode : @decodePayload platform (sign (payment "n-1" None "100000"))
                      = Parsed (payment "n-1" None "100000")) by (vm_compute; reflexivity).
    rewrite Hdecode in Hlaw.
    destruct Hlaw as [Hacc _];
      [vm_compute; reflexivity | apply ValidationExample.sign_nonempty
       | vm_compute; reflexivity | vm_compute; reflexivity |].
    apply Hacc. apply paid_fresh.
  - pose proof (@validation_accepts_exactly platform gateway null_paid Res.fresh
                  (World.initial 0) "bnVsbA==" OfferExample.echo_policy 100000) as Hlaw.
    assert (Hdecode : @decodePayload platform "bnVsbA==" = Null) by (vm_compute; reflexivity).
    rewrite Hdecode in Hlaw.
    rewrite Hlaw; [reflexivity | vm_compute; reflexivity | discriminate
                   | vm_compute; reflexivity | vm_compute; reflexivity].
Defined.

Lemma paid_request_in_mock_mode_witness :
  Response.status (@handle platform gateway (@echoHandler platform) paid (World.initial 0)).1
  = 200.
Proof.
  destruct (@paid_request_in_mock_mode platform gateway paid (World.initial 0)
              (sign (payment "n-1" None "100000")) (payment "n-1" None "100000")
              OfferExample.echo_policy 100000 eq_refl paid_fresh)
    as (_ & _ & _ & _ & _ & Hecho).
  by rewrite Hecho.
Defined.

(** A gateway with mock payments off, and a facilitator that settles. *)
Definition live_env : gmap string string :=
  {[ "MOCK_PAYMENTS" := "false";
     "PAY_TO" := "ST1PQHQKV0RJXZFY1DGX8MNSNYVE3VGZJSRTPGZGM";
     "AMOUNT_MICROSTX" := "100000" ]}.

Definition live_gateway : Gateway.t := booted live_env.

Definition verified : FacilitatorVerifyResponse.t :=
  {| FacilitatorVerifyResponse.valid := true;
     FacilitatorVerifyResponse.payer := "SP2J6ZY48GV1EZ5V2V5RB9MP66SW86PYKKNRV9EJ7";
     FacilitatorVerifyResponse.amount := "100000";
     FacilitatorVerifyResponse.network := "stacks:2147483648";
     FacilitatorVerifyResponse.txHash := None |}.

Definition settlement : FacilitatorSettleResponse.t :=
  {| FacilitatorSettleResponse.settled := true;
     FacilitatorSettleResponse.txHash := "0x5e771e";
     FacilitatorSettleResponse.network := "stacks:2147483648";
     FacilitatorSettleResponse.timestamp := 1700000000000 |}.

Definition settling : Platform :=
  {| decodePayload := decode;
     parseJson := fun text => Ok (Json.JStr text);
     postVerify := fun _ _ _ => OkJson verified;
     postSettle := fun _ _ _ => OkJson settlement;
     fetchUpstream := fun _ _ _ _ => Throw "fetch failed";
     toISOString := fun ms => Js.Z_to_string ms |}.

Lemma live_booted : Gateway.boot live_env = Ok live_gateway.
Proof. vm_compute. reflexivity. Qed.

Lemma paid_fresh_live (P : Platform) :
  @decodePayload P = decode ->
  @fresh_payment P live_gateway paid (World.initial 0) (sign (payment "n-1" None "100000"))
    (payment "n-1" None "100000") OfferExample.echo_policy 100000.
Proof.
  intros Hdecode.
  constructor; try (vm_compute; reflexivity);
    [apply ValidationExample.sign_nonempty | rewrite Hdecode; vm_compute; reflexivity |].
  repeat split; try (vm_compute; reflexivity).
  exists 100000. split; [vm_compute; reflexivity | lia].
Qed.

Lemma live_gate_witness :
  Response.status
    (@protected settling live_gateway paid (World.initial 0)
       (serve (@echoHandler settling) paid)).1 = 200.
Proof.
  destruct (@live_gate settling live_gateway paid (World.initial 0)
              (sign (payment "n-1" None "100000")) (payment "n-1" None "100000")
              OfferExample.echo_policy 100000 eq_refl (paid_fresh_live settling eq_refl))
    as [Hsettled _].
  rewrite (Hsettled verified settlement); [reflexivity|].
  repeat split.
Defined.

(** The fixture's facilitator cannot be reached. *)
Lemma failed_settlement_uses_up_the_nonce_witness :
  Response.status
    (@protected platform live_gateway paid (World.initial 0)
       (serve (@echoHandler platform) paid)).1 = 502
  /\ Response.status
       (@protected platform live_gateway paid
          (World.at_time 60000
             (@protected platform live_gateway paid (World.initial 0)
                (serve (@echoHandler platform) paid)).2)
          (serve (@echoHandler platform) paid)).1 = 409.
Proof.
  destruct (@failed_settlement_uses_up_the_nonce platform live_gateway paid (World.initial 0)
              (sign (payment "n-1" None "100000")) (payment "n-1" None "100000")
              OfferExample.echo_policy 100000 60000
              (serve (@echoHandler platform) paid) (serve (@echoHandler platform) paid)
              eq_refl (paid_fresh_live platform eq_refl))
    as (_ & _ & Hsecond).
  - intros v s (Hv & _). discriminate.
  - cbn. lia.
  - split; [reflexivity|]. by rewrite Hsecond.
Defined.

End GateExample.
(** ** Which requests the gate prices *)

Section GateScope.
Context `{Platform}.

Lemma unregistered_pair (env : gmap string string) (gw : Gateway.t) (path method : string) :
  Gateway.boot env = Ok gw ->
  (path, Js.toUpperCase method) ∉ GatewayFacts.registered_pairs ->
  Gateway.findPolicy gw path method = None.
Proof.
  intros Hboot Hout. unfold Gateway.findPolicy. apply RegistryLaws.match_none.
  intros p Hp Hkey. apply Hout. rewrite <- Hkey.
  rewrite <- (GatewayFacts.boot_pairs env gw Hboot). by apply list_elem_of_fmap_2.
Qed.

(** X15: The gate prices a request by string equality of its path with a
    registered path and of its upper-cased method with that route's
    method: any other request (a trailing slash, another letter case in
    the path, another method) has no policy, and without a
    [payment-signature] header it reaches the handler as it came, with
    no offer and no receipt. *)
Theorem gate_prices_exact_routes_only (env : gmap string string) (gw : Gateway.t)
    (req : Request.t) (w : World.t) (handler : Next) :
  Gateway.boot env = Ok gw ->
  (Request.path req, Js.toUpperCase (Request.method req)) ∉ GatewayFacts.registered_pairs ->
  Gateway.findPolicy gw (Request.path req) (Request.method req) = None
  /\ (Request.header X402_HEADERS.SIGNATURE req = None -> cache_hit req w = None ->
      protected gw req w handler = handler (after_miss req w).1 (after_miss req w).2
      /\ Res.receipt (after_miss req w).1 = None
      /\ (Request.header "idempotency-key" req = None ->
          protected gw req w handler = handler Res.fresh w)).
Proof.
  intros Hboot Hout.
  pose proof (unregistered_pair env gw _ _ Hboot Hout) as Hnone.
  split; [exact Hnone|]. intros Hnosig Hmiss.
  assert (Hstack : protected gw req w handler
                   = handler (after_miss req w).1 (after_miss req w).2).
  { unfold protected. rewrite idempotency_miss by done.
    rewrite no_signature_passes by done. unfold paymentRequired. by rewrite Hnone. }
  split; [exact Hstack|]. split; [apply after_miss_res|].
  intros Hnokey. rewrite Hstack. unfold after_miss, capture_key. by rewrite Hnokey.
Qed.

End GateScope.

Module GateScopeExample.
Import Fixture.

Definition with_slash : Request.t := request "GET" "/v1/premium/echo/" [].

Lemma gate_prices_exact_routes_only_witness :
  Response.status
    (@protected platform gateway with_slash (World.initial 0)
       (serve (@echoHandler platform) with_slash)).1 = 200.
Proof.
  assert (Hout : (Request.path with_slash, Js.toUpperCase (Request.method with_slash))
                 ∉ GatewayFacts.registered_pairs).
  { intros Hin. apply (bool_decide_pack _) in Hin. vm_compute in Hin. done. }
  destruct (@gate_prices_exact_routes_only platform ∅ gateway with_slash (World.initial 0)
              (serve (@echoHandler platform) with_slash) gateway_booted Hout)
    as [_ Hpass].
  destruct (Hpass eq_refl eq_refl) as (_ & _ & Hfresh).
  by rewrite (Hfresh eq_refl).
Defined.

End GateScopeExample.

(** ** Idempotent retries *)

Section RetryLaws.
Context `{Platform}.

(** The entry a 2xx JSON reply leaves under the wrapper's key. *)
Definition entry_of (r : Response.t) (body : Json.t) (expiry : Z)
  : TtlCache.CacheEntry CachedResponse.t :=
  TtlCache.mkEntry
    {| CachedResponse.status := Response.status r;
       CachedResponse.headers := receipt_header (Response.headers r);
       CachedResponse.body := body |} expiry.

(** An outcome whose reply, if it is a 2xx sent with [res.json], is
    stored under [key] until [now + ttl]. *)
Definition records (key : string) (now ttl : Z) (o : Response.t * World.t) : Prop :=
  TtlCache.defaultTtlMs (World.idempotencyCache o.2) = ttl
  /\ forall body,
       200 <= Response.status o.1 < 300 -> Response.body o.1 = JsonBody body ->
       idem_store o.2 !! key = Some (entry_of o.1 body (now + ttl)).

Definition wrapped (key : string) (now ttl : Z) (res : Res.t) (w : World.t) : Prop :=
  Res.capture res = Some key /\ World.now w = now
  /\ TtlCache.defaultTtlMs (World.idempotencyCache w) = ttl.

Definition hands_on (key : string) (now ttl : Z) (next : Next) : Prop :=
  forall res w, wrapped key now ttl res w -> records key now ttl (next res w).

Lemma json_records (key : string) (now ttl : Z) (body : Json.t) (res : Res.t) (w : World.t) :
  wrapped key now ttl res w -> records key now ttl (Res.json body res w).
Proof.
  intros (Hcap & Hnow & Httl). unfold records, Res.json. simpl. rewrite Hcap.
  unfold Res.captured.
  destruct ((200 <=? Res.statusCode res) && (Res.statusCode res <? 300)) eqn:Hs.
  - split; [done|]. intros body' _ [= <-]. unfold idem_store. simpl.
    rewrite lookup_insert_eq. unfold entry_of. simpl. by rewrite Hnow, Httl.
  - split; [done|]. intros body' [Hlo Hhi] _. exfalso.
    apply andb_false_iff in Hs as [Hs%Z.leb_gt | Hs%Z.ltb_ge]; lia.
Qed.

Lemma send_records (key : string) (now ttl : Z) (text : string) (res : Res.t) (w : World.t) :
  wrapped key now ttl res w -> records key now ttl (Res.send text res w).
Proof. intros (_ & _ & Httl). split; [done|]. intros body _ Hbody. discriminate. Qed.

Lemma wrapped_status (key : string) (now ttl code : Z) (res : Res.t) (w : World.t) :
  wrapped key now ttl res w -> wrapped key now ttl (Res.status code res) w.
Proof. done. Qed.

Lemma wrapped_set (key : string) (now ttl : Z) (name value : string) (res : Res.t)
    (w : World.t) :
  wrapped key now ttl res w -> wrapped key now ttl (Res.set name value res) w.
Proof. done. Qed.

Lemma respond_records (key : string) (now ttl : Z) (r : Reply.t) (res : Res.t) (w : World.t) :
  wrapped key now ttl res w -> records key now ttl (respond r res w).
Proof.
  intros (Hcap & Hnow & Httl). unfold respond.
  set (res1 := foldl _ res _).
  set (res2 := match Reply.status r with Some code => Res.status code res1 | None => res1 end).
  assert (Hcap2 : Res.capture res2 = Some key).
  { unfold res2, res1. destruct (Reply.status r); simpl;
      by rewrite ResFacts.capture_set_list. }
  destruct (Reply.body r); [by apply json_records | by apply send_records].
Qed.

Lemma validateSignature_records (key : string) (now ttl : Z) (gw : Gateway.t)
    (req : Request.t) (res : Res.t) (w : World.t) (next : Next) :
  hands_on key now ttl next -> wrapped key now ttl res w ->
  records key now ttl (validateSignature gw req res w next).
Proof.
  intros Hnext Hw. unfold validateSignature, reject, Res.uncaught.
  repeat case_match; try (by apply Hnext); try (by apply json_records);
    by apply send_records.
Qed.

Lemma replayProtection_records (key : string) (now ttl : Z) (req : Request.t)
    (res : Res.t) (w : World.t) (next : Next) :
  hands_on key now ttl next -> wrapped key now ttl res w ->
  records key now ttl (replayProtection req res w next).
Proof.
  intros Hnext Hw. unfold replayProtection, reject.
  repeat case_match; try (by apply Hnext). by apply json_records.
Qed.

Lemma paymentRequired_records (key : string) (now ttl : Z) (gw : Gateway.t)
    (req : Request.t) (res : Res.t) (w : World.t) (next : Next) :
  hands_on key now ttl next -> wrapped key now ttl res w ->
  records key now ttl (paymentRequired gw req res w next).
Proof.
  intros Hnext Hw. unfold paymentRequired, reject.
  repeat case_match; try (by apply Hnext); by apply json_records.
Qed.

Lemma handle_records (gw : Gateway.t) (handler : Handler) (req : Request.t) (w : World.t)
    (key : string) :
  capture_key req = Some key -> cache_hit req w = None ->
  records key (World.now w) (TtlCache.defaultTtlMs (World.idempotencyCache w))
    (handle gw handler req w).
Proof.
  intros Hkey Hmiss. unfold handle, protected. rewrite idempotency_miss by done.
  assert (Hw : wrapped key (World.now w) (TtlCache.defaultTtlMs (World.idempotencyCache w))
                 (after_miss req w).1 (after_miss req w).2).
  { unfold after_miss. rewrite Hkey. simpl. split; [done|]. split; [done|].
    destruct (TtlCache.get _ _ _) as [[c|] cache] eqn:Hget; simpl.
    - by apply TtlCacheFacts.get_Some in Hget as [-> _].
    - by apply TtlCacheFacts.get_None_store in Hget as (_ & -> & _). }
  apply validateSignature_records; [|done]. intros res2 w2 H2.
  apply replayProtection_records; [|done]. intros res3 w3 H3.
  apply paymentRequired_records; [|done]. intros res4 w4 H4.
  by apply respond_records.
Qed.

(** X16: A retry under the same idempotency key: when the first request
    (with a key, not itself answered from the cache) got a 2xx reply
    sent with [res.json], any request with the same method, path and key
    that arrives before the entry's time to live has passed gets the
    same status and body, and of the first reply's headers the
    [payment-response] header alone; and it changes nothing: no nonce
    is recorded and no settlement is attempted, whatever payment the
    retry carries. *)
Theorem idempotent_retry (gw : Gateway.t) (handler handler2 : Handler)
    (req req2 : Request.t) (w : World.t) (key : string) (t2 : Z) :
  capture_key req = Some key -> cache_hit req w = None ->
  capture_key req2 = Some key ->
  World.now w <= t2 < World.now w + TtlCache.defaultTtlMs (World.idempotencyCache w) ->
  let first := handle gw handler req w in
  200 <= Response.status first.1 < 300 ->
  (exists body, Response.body first.1 = JsonBody body) ->
  let second := handle gw handler2 req2 (World.at_time t2 first.2) in
  Response.status second.1 = Response.status first.1
  /\ Response.body second.1 = Response.body first.1
  /\ Response.headers second.1 = receipt_header (Response.headers first.1)
  /\ second.2 = World.at_time t2 first.2.
Proof.
  intros Hkey Hmiss Hkey2 [Hle Hlt] first H2xx [body Hbody] second.
  destruct (handle_records gw handler req w key Hkey Hmiss) as [Httl Hstored].
  specialize (Hstored body H2xx Hbody). fold first in Hstored.
  assert (Hhit : cache_hit req2 (World.at_time t2 first.2)
                 = Some (TtlCache.value (entry_of first.1 body
                           (World.now w + TtlCache.defaultTtlMs (World.idempotencyCache w))))).
  { unfold cache_hit. rewrite Hkey2. simpl.
    by rewrite (TtlCacheFacts.get_live t2 key _ _ Hstored). }
  unfold second, handle, protected. rewrite (idempotency_hit _ _ _ _ Hhit). simpl.
  by rewrite Hbody.
Qed.

End RetryLaws.

Module RetryExample.
Import Fixture.

Lemma idempotent_retry_witness :
  (send 2000 IdempotencyExample.retry_with_key IdempotencyExample.after_first).1
  = {| Response.status := 200;
       Response.headers :=
         receipt_header
           (Response.headers (send 1000 IdempotencyExample.paid_with_key (World.initial 0)).1);
       Response.body :=
         Response.body (send 1000 IdempotencyExample.paid_with_key (World.initial 0)).1 |}.
Proof.
  destruct (@idempotent_retry platform gateway (@echoHandler platform) (@echoHandler platform)
              IdempotencyExample.paid_with_key IdempotencyExample.retry_with_key
              (World.at_time 1000 (World.initial 0))
              (idempotencyKey "k1" "GET" "/v1/premium/echo") 2000
              eq_refl eq_refl eq_refl)
    as (Hstatus & Hbody & Hheaders & _).
  - cbn. lia.
  - vm_compute. split; [discriminate | reflexivity].
  - eexists. vm_compute. reflexivity.
  - unfold send, IdempotencyExample.after_first, send.
    destruct (@handle platform gateway (@echoHandler platform)
                IdempotencyExample.retry_with_key _).1 as [status headers body] eqn:Hsecond.
    simpl in Hstatus, Hbody, Hheaders. rewrite Hstatus, Hbody, Hheaders. f_equal.
Defined.

End RetryExample.

(** ** The cache keys *)

Module KeyLaws.
Import NonceKeyExample.

Lemma colon_tail (s : string) : empty_or_colon (":" +:+ s).
Proof. right. by exists s. Qed.

(** X17: The idempotency key tells requests apart by upper-cased method, path
    and token, as long as neither the method nor the path contains a
    colon (the token may): two requests share a key exactly when they
    agree on all three. The letter case of the method does not count. *)
Theorem idempotency_key_scope (token token' method method' path path' : string) :
  colon_free (Js.toUpperCase method) -> colon_free (Js.toUpperCase method') ->
  colon_free path -> colon_free path' ->
  idempotencyKey token method path = idempotencyKey token' method' path'
  <-> Js.toUpperCase method = Js.toUpperCase method' /\ path = path' /\ token = token'.
Proof.
  intros Hm Hm' Hp Hp'. unfold idempotencyKey. split.
  - intros Heq%app_inv_head.
    apply split_at_colon in Heq as [Hmethod Heq]; [|done|done|apply colon_tail..].
    apply app_inv_head in Heq.
    apply split_at_colon in Heq as [Hpath Heq]; [|done|done|apply colon_tail..].
    by apply app_inv_head in Heq.
  - by intros (-> & -> & ->).
Qed.

Lemma idempotency_key_scope_witness :
  idempotencyKey "k1" "get" "/v1/premium/echo" = idempotencyKey "k1" "GET" "/v1/premium/echo"
  /\ idempotencyKey "k1" "GET" "/v1/premium/echo" <> idempotencyKey "k1" "GET" "/proxy/api/weather".
Proof.
  split.
  - apply (idempotency_key_scope "k1" "k1" "get" "GET" "/v1/premium/echo" "/v1/premium/echo");
      repeat split; done.
  - intros Heq.
    apply (idempotency_key_scope "k1" "k1" "GET" "GET" "/v1/premium/echo" "/proxy/api/weather")
      in Heq as (_ & Hpath & _); [discriminate | repeat split; done ..].
Defined.

(** X18: The nonce key and the (nonce, memo) tuple: the same tuple always
    gives the same key; and for nonces without a colon and memos that
    are absent or not empty, the same key only comes from the same
    tuple. *)
Theorem nonce_key_tells_tuples_apart (p q : PaymentPayload.t) (n n' : string) :
  PaymentPayload.nonce p = Some n -> PaymentPayload.nonce q = Some n' ->
  colon_free n -> colon_free n' ->
  PaymentPayload.memo p <> Some "" -> PaymentPayload.memo q <> Some "" ->
  extractNonceKey p = extractNonceKey q <-> tuple p = tuple q.
Proof.
  intros Hn Hn' Hc Hc' Hm Hm'. split.
  - by apply (key_injective_without_colon p q n n').
  - intros [= Hnonce Hmemo]. by apply same_tuple_same_key.
Qed.

Lemma nonce_key_tells_tuples_apart_witness :
  extractNonceKey (Fixture.payment "shared" (Some "memo-A") "100000")
  <> extractNonceKey (Fixture.payment "shared" (Some "memo-B") "100000").
Proof.
  intros Heq.
  apply (nonce_key_tells_tuples_apart _ _ "shared" "shared") in Heq;
    [discriminate | reflexivity | reflexivity | repeat split; done | repeat split; done
     | discriminate | discriminate].
Defined.

End KeyLaws.

(** ** The replay window *)

Module ReplayWindow.

(** X19: The nonce cache refuses a recorded nonce until its time to live has
    passed and not a millisecond longer: at [now + ttl] the same
    (nonce, memo) passes the stage again, and is recorded anew. *)
Theorem nonce_is_accepted_again_after_ttl (w : World.t) (payload payload2 : PaymentPayload.t)
    (t2 : Z) (req2 : Request.t) (res2 : Res.t) (raw2 : string) (next2 : Next) :
  let key := extractNonceKey payload in
  let ttl := TtlCache.defaultTtlMs (World.replayNonces w) in
  (TtlCache.has (World.now w) key (World.replayNonces w)).1 = false ->
  Request.header X402_HEADERS.SIGNATURE req2 = Some raw2 -> raw2 <> "" ->
  Res.paymentPayload res2 = Some payload2 ->
  PaymentPayload.nonce payload2 = PaymentPayload.nonce payload ->
  PaymentPayload.memo payload2 = PaymentPayload.memo payload ->
  World.now w + ttl <= t2 ->
  let w2 := World.at_time t2 (record_nonce key w) in
  replayProtection req2 res2 w2 next2 = next2 res2 (record_nonce key w2)
  /\ nonce_store (record_nonce key w2) !! key = Some (TtlCache.mkEntry () (t2 + ttl)).
Proof.
  intros key ttl Hnew Hraw2 Hne2 Hpayload2 Hnonce Hmemo Hle w2.
  destruct (record_nonce_recorded key w Hnew) as ([Hentry Httl] & _).
  assert (Hexpired : (TtlCache.has (World.now w2) key (World.replayNonces w2)).1 = false).
  { unfold TtlCache.has.
    rewrite (TtlCacheFacts.get_expired _ _ _ _ Hentry); [done|]. simpl. unfold ttl in Hle. lia. }
  split.
  - rewrite (replayProtection_fresh req2 res2 w2 next2 raw2 payload2); [|done..|].
    + by rewrite (same_tuple_same_key payload payload2).
    + by rewrite (same_tuple_same_key payload payload2).
  - destruct (record_nonce_recorded key w2 Hexpired) as ([Hentry2 _] & _).
    rewrite Hentry2. change (World.now w2) with t2.
    change (World.replayNonces w2) with (World.replayNonces (record_nonce key w)).
    by rewrite Httl.
Qed.

End ReplayWindow.

Module ReplayWindowExample.
Import Fixture.

Definition gate : Next :=
  fun res w => @paymentRequired platform gateway ReplayExample.first res w
                 (serve (@echoHandler platform) ReplayExample.first).

(** Recorded at time 1000, accepted again at time 301000. *)
Lemma nonce_is_accepted_again_after_ttl_witness :
  replayProtection ReplayExample.first ReplayExample.validated
    (World.at_time 301000 (record_nonce "nonce:n-1" ReplayExample.arrival)) gate
  = gate ReplayExample.validated
      (record_nonce "nonce:n-1"
         (World.at_time 301000 (record_nonce "nonce:n-1" ReplayExample.arrival))).
Proof.
  apply (ReplayWindow.nonce_is_accepted_again_after_ttl ReplayExample.arrival
           (payment "n-1" None "100000") (payment "n-1" None "100000") 301000
           ReplayExample.first ReplayExample.validated
           (sign (payment "n-1" None "100000")) gate);
    [reflexivity | reflexivity | apply ValidationExample.sign_nonempty
     | reflexivity | reflexivity | reflexivity | cbn; lia].
Defined.

End ReplayWindowExample.
(** ** The proxy handler's replies *)

Section ProxyLaws.
Context `{Platform}.

(** The one call the proxy makes. *)
Definition upstream_call (gw : Gateway.t) (req : Request.t) : Result Upstream.t :=
  fetchUpstream
    (Discovery.strip_trailing_slashes (Config.upstreamUrl (Gateway.config gw))
     +:+ Js.drop_string (String.length STRIP_PREFIX) (Request.originalUrl req))
    (Request.method req) (upstreamHeaders req)
    (if hasBody req then Some (Json.stringify (Request.body req)) else None).

(** The upstream's headers that are relayed. *)
Definition relayed (u : Upstream.t) : list (string * string) :=
  List.filter (fun kv => negb (bool_decide (Js.toLowerCase kv.1 ∈ SUPPRESS_UPSTREAM)))
              (Upstream.headers u).

Definition set_each (l : list (string * string)) (res : Res.t) : Res.t :=
  foldl (fun acc hv => Res.set hv.1 hv.2 acc) res l.

(** The value the last entry of [l] under [k] carries. *)
Definition last_value (k : string) (l : list (string * string)) : option string :=
  snd <$> last (List.filter (fun kv => bool_decide (kv.1 = k)) l).

Lemma set_each_app (l1 l2 : list (string * string)) (res : Res.t) :
  set_each (l1 ++ l2) res = set_each l2 (set_each l1 res).
Proof. unfold set_each. by rewrite foldl_app. Qed.

Lemma last_value_app (k : string) (l1 l2 : list (string * string)) :
  last_value k (l1 ++ l2)
  = match last_value k l2 with Some v => Some v | None => last_value k l1 end.
Proof.
  unfold last_value. rewrite List.filter_app.
  destruct (List.filter _ l2) as [|x l2'] using rev_ind.
  - by rewrite app_nil_r.
  - by rewrite app_assoc, !last_snoc.
Qed.

Lemma set_each_lookup (k : string) (l : list (string * string)) (res : Res.t) :
  Res.headers (set_each l res) !! k
  = match last_value k l with Some v => Some v | None => Res.headers res !! k end.
Proof.
  induction l as [|[h v] l IH] using rev_ind; [done|].
  rewrite set_each_app, last_value_app. unfold set_each at 1. simpl.
  unfold last_value at 1. simpl. case_bool_decide as Hk; simpl in *.
  - subst h. by rewrite lookup_insert_eq.
  - rewrite lookup_insert_ne by done. exact IH.
Qed.

Lemma set_each_other (l : list (string * string)) (res : Res.t) :
  Res.statusCode (set_each l res) = Res.statusCode res
  /\ Res.paymentPayload (set_each l res) = Res.paymentPayload res
  /\ Res.receipt (set_each l res) = Res.receipt res
  /\ Res.capture (set_each l res) = Res.capture res.
Proof. revert res. induction l as [|hv l IH]; intros res; [done|]. apply (IH (Res.set _ _ res)). Qed.

(** The second [res.set] of [payment-response], after the relay loop. *)
Definition again (u : Upstream.t) (res : Res.t) : list (string * string) :=
  match Res.getHeader X402_HEADERS.RESPONSE (set_each (relayed u) res) with
  | Some pr => if Js.truthy pr then [(X402_HEADERS.RESPONSE, pr)] else []
  | None => []
  end.

Lemma set_each_again (u : Upstream.t) (res : Res.t) :
  Res.headers (set_each (relayed u ++ again u res) res)
  = Res.headers (set_each (relayed u) res).
Proof.
  rewrite set_each_app. unfold again, Res.getHeader.
  destruct (Res.headers (set_each (relayed u) res) !! X402_HEADERS.RESPONSE) as [pr|] eqn:Hpr;
    [|done].
  destruct (Js.truthy pr); [|done]. simpl. by apply insert_id.
Qed.

(** What the client is sent when the upstream has answered. *)
Definition relayed_reply (u : Upstream.t) (res : Res.t) (body : Body) : Response.t :=
  {| Response.status := Upstream.status u;
     Response.headers := Res.headers (set_each (relayed u) res);
     Response.body := body |}.

Definition is_json (u : Upstream.t) : bool :=
  includes "application/json" (default "" (headers_get "content-type" (Upstream.headers u))).

Lemma serve_proxy_outcome (gw : Gateway.t) (req : Request.t) (res : Res.t) (w : World.t) :
  serve (proxyHandler gw) req res w
  = match upstream_call gw req with
    | Throw message => reject 502 message res w
    | Ok u =>
        let res' := set_each (relayed u ++ again u res) res in
        if is_json u then
          match parseJson (Upstream.text u) with
          | Throw message => reject 502 message res' w
          | Ok upstreamBody =>
              Res.json match Res.receipt res with
                       | Some receipt =>
                           Json.JObj [("success", Json.JBool (Upstream.ok u));
                                      ("data", upstreamBody);
                                      ("receipt", PaymentReceipt.to_json receipt)]
                       | None => upstreamBody
                       end
                       (Res.status (Upstream.status u) res') w
          end
        else Res.send (Upstream.text u) (Res.status (Upstream.status u) res') w
    end.
Proof.
  unfold serve, proxyHandler, relay. fold (upstream_call gw req).
  destruct (upstream_call gw req) as [u|message]; [|done].
  fold (relayed u). fold (set_each (relayed u) res). fold (again u res). fold (is_json u).
  destruct (is_json u); [|done].
  by destruct (parseJson (Upstream.text u)).
Qed.

Lemma serve_proxy (gw : Gateway.t) (req : Request.t) (res : Res.t) (w : World.t) :
  (serve (proxyHandler gw) req res w).1
  = match upstream_call gw req with
    | Throw message =>
        {| Response.status := 502; Response.headers := Res.headers res;
           Response.body := JsonBody (error_body message) |}
    | Ok u =>
        if is_json u then
          match parseJson (Upstream.text u) with
          | Throw message =>
              {| Response.status := 502;
                 Response.headers := Res.headers (set_each (relayed u) res);
                 Response.body := JsonBody (error_body message) |}
          | Ok upstreamBody =>
              relayed_reply u res
                (JsonBody match Res.receipt res with
                          | Some receipt =>
                              Json.JObj [("success", Json.JBool (Upstream.ok u));
                                         ("data", upstreamBody);
                                         ("receipt", PaymentReceipt.to_json receipt)]
                          | None => upstreamBody
                          end)
          end
        else relayed_reply u res (TextBody (Upstream.text u))
    end.
Proof.
  unfold serve, proxyHandler, relay. fold (upstream_call gw req).
  destruct (upstream_call gw req) as [u|message]; [|done].
  fold (relayed u). fold (set_each (relayed u) res). fold (again u res). fold (is_json u).
  destruct (is_json u).
  - destruct (parseJson (Upstream.text u)) as [upstreamBody|message];
      unfold respond, bad_gateway, relayed_reply; simpl;
      fold (set_each (relayed u ++ again u res) res); by rewrite set_each_again.
  - unfold respond, relayed_reply. simpl.
    fold (set_each (relayed u ++ again u res) res). by rewrite set_each_again.
Qed.

Lemma relayed_not_suppressed (u : Upstream.t) (k : string) :
  Js.toLowerCase k ∈ SUPPRESS_UPSTREAM -> last_value k (relayed u) = None.
Proof.
  intros Hk. unfold last_value, relayed.
  assert (Hnil : List.filter (fun kv : string * string => bool_decide (kv.1 = k))
                   (List.filter
                      (fun kv : string * string =>
                         negb (bool_decide (Js.toLowerCase kv.1 ∈ SUPPRESS_UPSTREAM)))
                      (Upstream.headers u)) = []); [|by rewrite Hnil].
  induction (Upstream.headers u) as [|[h v] l IH]; [done|]. simpl.
  case_bool_decide as Hs; simpl; [exact IH|].
  case_bool_decide as Hh; simpl in *; [by subst h | exact IH].
Qed.

Lemma relayed_kept (u : Upstream.t) (k : string) :
  Js.toLowerCase k ∉ SUPPRESS_UPSTREAM ->
  last_value k (relayed u) = last_value k (Upstream.headers u).
Proof.
  intros Hk. unfold last_value, relayed. f_equal. f_equal.
  induction (Upstream.headers u) as [|[h v] l IH]; [done|]. simpl.
  case_bool_decide as Hs; simpl.
  - case_bool_decide as Hh; simpl in *; [by subst h | exact IH].
  - case_bool_decide as Hh; simpl; by rewrite IH.
Qed.

(** X20: The reply to a proxied request never carries a hop-by-hop header or
    a [content-length] of the upstream: under such a name (in any
    letter case) the client reads what the gateway itself had set
    before the handler ran, whatever the upstream sent. *)
Theorem upstream_hop_by_hop_headers_stay_behind (gw : Gateway.t) (req : Request.t)
    (res : Res.t) (w : World.t) (k : string) :
  Js.toLowerCase k ∈ HOP_BY_HOP ->
  Response.headers (serve (proxyHandler gw) req res w).1 !! k = Res.headers res !! k.
Proof.
  intros Hk.
  assert (Hs : Js.toLowerCase k ∈ SUPPRESS_UPSTREAM) by (by apply elem_of_union_l).
  rewrite serve_proxy. destruct (upstream_call gw req) as [u|message]; [|done].
  assert (Hrelay : Res.headers (set_each (relayed u) res) !! k = Res.headers res !! k)
    by (by rewrite set_each_lookup, relayed_not_suppressed).
  destruct (is_json u); [|done]. by destruct (parseJson (Upstream.text u)).
Qed.

(** X21: The [payment-response] header of a proxied reply: the gateway sets
    it before it relays the upstream's headers and reads it back after,
    so a [payment-response] header of the upstream replaces the
    gateway's receipt header (the envelope in the body still carries the
    gateway's receipt); only when the upstream sends none does the
    client read the gateway's. *)
Theorem upstream_can_replace_the_receipt_header (gw : Gateway.t) (req : Request.t)
    (res : Res.t) (w : World.t) (u : Upstream.t) :
  upstream_call gw req = Ok u ->
  Response.headers (serve (proxyHandler gw) req res w).1 !! X402_HEADERS.RESPONSE
  = match last_value X402_HEADERS.RESPONSE (Upstream.headers u) with
    | Some sent => Some sent
    | None => Res.headers res !! X402_HEADERS.RESPONSE
    end
  /\ (forall upstreamBody receipt,
        is_json u = true -> parseJson (Upstream.text u) = Ok upstreamBody ->
        Res.receipt res = Some receipt ->
        Response.body (serve (proxyHandler gw) req res w).1
        = JsonBody (Json.JObj [("success", Json.JBool (Upstream.ok u));
                               ("data", upstreamBody);
                               ("receipt", PaymentReceipt.to_json receipt)])).
Proof.
  intros Hcall. rewrite serve_proxy, Hcall.
  assert (Hrelay : Res.headers (set_each (relayed u) res) !! X402_HEADERS.RESPONSE
                   = match last_value X402_HEADERS.RESPONSE (Upstream.headers u) with
                     | Some sent => Some sent
                     | None => Res.headers res !! X402_HEADERS.RESPONSE
                     end).
  { rewrite set_each_lookup, relayed_kept; [done|].
    intros Hin. apply (bool_decide_pack _) in Hin. vm_compute in Hin. done. }
  split.
  - destruct (is_json u); [|done]. by destruct (parseJson (Upstream.text u)).
  - intros upstreamBody receipt -> -> ->. done.
Qed.

(** X22: What the proxy handler forwards. It makes one call to the
    upstream and answers with [relay] of its outcome. A [GET] or [HEAD]
    request is forwarded without a body and with the headers of
    [buildUpstreamHeaders] and nothing else; every other request is
    forwarded with its re-serialised body and a [content-type]: the
    client's own (an array joined by [", "]) when that is not empty,
    and [application/json] when the client sent none or an empty one;
    its other headers are those of [buildUpstreamHeaders]. *)
Theorem upstream_content_type (gw : Gateway.t) (req : Request.t) (res : Res.t) (w : World.t) :
  exists (headers : gmap string string) (body : option string),
    proxyHandler gw req res w
    = relay (fetchUpstream
               (Discovery.strip_trailing_slashes (Config.upstreamUrl (Gateway.config gw))
                +:+ Js.drop_string (String.length STRIP_PREFIX) (Request.originalUrl req))
               (Request.method req) headers body)
            res
    /\ (Request.method req = "GET" \/ Request.method req = "HEAD" ->
        body = None /\ headers = buildUpstreamHeaders req)
    /\ (Request.method req <> "GET" -> Request.method req <> "HEAD" ->
        body = Some (Json.stringify (Request.body req))
        /\ headers !! "content-type"
           = Some match ProxyFacts.forwarded <$> Request.headers req !! "content-type" with
                  | Some c => if String.eqb c "" then "application/json" else c
                  | None => "application/json"
                  end
        /\ forall k, k <> "content-type" -> headers !! k = buildUpstreamHeaders req !! k).
Proof.
  exists (upstreamHeaders req),
    (if hasBody req then Some (Json.stringify (Request.body req)) else None).
  split; [reflexivity|].
  assert (Hct : buildUpstreamHeaders req !! "content-type"
                = ProxyFacts.forwarded <$> Request.headers req !! "content-type").
  { rewrite ProxyFacts.buildUpstreamHeaders_lookup.
    destruct (decide (ProxyFacts.stripped "content-type")) as [Hs|Hs]; [|done].
    by apply ProxyFacts.content_type_not_stripped in Hs. }
  split.
  - intros Hmethod. unfold upstreamHeaders, hasBody.
    destruct Hmethod as [-> | ->]; done.
  - intros Hget Hhead. unfold upstreamHeaders, hasBody.
    apply String.eqb_neq in Hget, Hhead. rewrite Hget, Hhead. simpl.
    split; [done|]. rewrite Hct.
    destruct (ProxyFacts.forwarded <$> Request.headers req !! "content-type") as [c|] eqn:Hc;
      simpl.
    + unfold Js.truthy. destruct (String.eqb c "") eqn:Hempty; simpl.
      * split; [by rewrite lookup_insert_eq|]. intros k Hk. by rewrite lookup_insert_ne.
      * by split.
    + split; [by rewrite lookup_insert_eq|]. intros k Hk. by rewrite lookup_insert_ne.
Qed.

(** The payment of [req] has been settled with [receipt]: made up in
    mock mode, the facilitator's in live mode. *)
Definition settled_with (gw : Gateway.t) (req : Request.t) (w : World.t)
    (payload : PaymentPayload.t) (policy : RoutePolicy.t) (receipt : PaymentReceipt.t)
  : Prop :=
  (Config.mockPayments (Gateway.config gw) = true
   /\ receipt = mockReceipt gw payload (World.now w))
  \/ (Config.mockPayments (Gateway.config gw) = false
      /\ exists v s, facilitator_settles gw req (buildAccept gw policy req) v s
                     /\ receipt = settled_receipt v s).

(** [res] as the handler receives it after settlement. *)
Definition receipted (req : Request.t) (w : World.t) (payload : PaymentPayload.t)
    (receipt : PaymentReceipt.t) : Res.t :=
  Res.set_receipt receipt
    (Res.set X402_HEADERS.RESPONSE (toBase64 (PaymentReceipt.to_json receipt))
       (stashed req w payload)).

Lemma reaches_handler (gw : Gateway.t) (req : Request.t) (w : World.t) (raw : string)
    (payload : PaymentPayload.t) (policy : RoutePolicy.t) (minimum : Z)
    (receipt : PaymentReceipt.t) (handler : Next) :
  fresh_payment gw req w raw payload policy minimum ->
  settled_with gw req w payload policy receipt ->
  protected gw req w handler
  = handler (receipted req w payload receipt) (nonce_taken req w payload).
Proof.
  intros Hfresh Hsettled. rewrite protected_before_gate.
  rewrite (reaches_gate gw req w raw payload policy minimum) by done.
  destruct Hsettled as [[Hmock ->] | (Hlive & v & s & Hsettles & ->)].
  - unfold paymentRequired. rewrite (fp_policy _ _ _ _ _ _ _ Hfresh). cbn zeta.
    change (Res.paymentPayload (stashed req w payload)) with (Some payload). cbn iota.
    rewrite Hmock. by rewrite nonce_taken_now.
  - by apply (gate_settles gw req _ _ policy payload); [|apply Hfresh|..].
Qed.

Lemma receipted_headers (req : Request.t) (w : World.t) (payload : PaymentPayload.t)
    (receipt : PaymentReceipt.t) :
  Res.headers (receipted req w payload receipt)
  = {[ X402_HEADERS.RESPONSE := toBase64 (PaymentReceipt.to_json receipt) ]}.
Proof.
  unfold receipted, stashed. simpl.
  destruct (after_miss_res req w) as (_ & -> & _). by rewrite insert_empty.
Qed.

(** X23: Paid, and the upstream cannot be reached: the client is answered
    502 with the receipt of the settled payment in the
    [payment-response] header; the nonce stays recorded and nothing is
    stored under the idempotency key, so the same payment sent again
    within the nonce cache's time to live is refused with 409 and the
    upstream is not tried again. *)
Theorem paid_but_upstream_down (gw : Gateway.t) (req : Request.t) (w : World.t)
    (raw : string) (payload : PaymentPayload.t) (policy : RoutePolicy.t) (minimum : Z)
    (receipt : PaymentReceipt.t) (message : string) (t2 : Z) (handler2 : Next) :
  fresh_payment gw req w raw payload policy minimum ->
  settled_with gw req w payload policy receipt ->
  upstream_call gw req = Throw message ->
  World.now w <= t2 < World.now w + TtlCache.defaultTtlMs (World.replayNonces w) ->
  let first := handle gw (proxyHandler gw) req w in
  first
  = ({| Response.status := 502;
        Response.headers :=
          {[ X402_HEADERS.RESPONSE := toBase64 (PaymentReceipt.to_json receipt) ]};
        Response.body := JsonBody (error_body message) |},
     nonce_taken req w payload)
  /\ (protected gw req (World.at_time t2 first.2) handler2).1
     = {| Response.status := 409;
          Response.headers := ∅;
          Response.body := JsonBody (error_body replay_message) |}.
Proof.
  intros Hfresh Hsettled Hdown Ht2 first.
  assert (Hfirst : first
    = ({| Response.status := 502;
          Response.headers :=
            {[ X402_HEADERS.RESPONSE := toBase64 (PaymentReceipt.to_json receipt) ]};
          Response.body := JsonBody (error_body message) |},
       nonce_taken req w payload)).
  { unfold first, handle.
    rewrite (reaches_handler gw req w raw payload policy minimum receipt) by done.
    rewrite serve_proxy_outcome, Hdown. unfold reject, Res.json. simpl.
    destruct (after_miss_res req w) as (_ & -> & _ & _ & ->). rewrite insert_empty. f_equal.
    by destruct (capture_key req). }
  split; [exact Hfirst|]. rewrite Hfirst. simpl.
  by apply (second_attempt gw req w raw payload policy minimum).
Qed.

(** X24: Paid, and the upstream answers with a body that is not JSON: the
    reply goes out with [res.send], which the idempotency wrapper does
    not see, so nothing is stored for it, 2xx or not, key or no key;
    and the retry, which is therefore not answered from the cache, is
    refused with 409 for its used nonce. *)
Theorem text_reply_is_not_replayed (gw : Gateway.t) (req : Request.t) (w : World.t)
    (raw : string) (payload : PaymentPayload.t) (policy : RoutePolicy.t) (minimum : Z)
    (receipt : PaymentReceipt.t) (u : Upstream.t) (t2 : Z) (handler2 : Next) :
  fresh_payment gw req w raw payload policy minimum ->
  settled_with gw req w payload policy receipt ->
  upstream_call gw req = Ok u -> is_json u = false ->
  World.now w <= t2 < World.now w + TtlCache.defaultTtlMs (World.replayNonces w) ->
  let first := handle gw (proxyHandler gw) req w in
  first = (relayed_reply u (receipted req w payload receipt) (TextBody (Upstream.text u)),
           nonce_taken req w payload)
  /\ (protected gw req (World.at_time t2 first.2) handler2).1
     = {| Response.status := 409;
          Response.headers := ∅;
          Response.body := JsonBody (error_body replay_message) |}.
Proof.
  intros Hfresh Hsettled Hcall Htext Ht2 first.
  assert (Hfirst : first
    = (relayed_reply u (receipted req w payload receipt) (TextBody (Upstream.text u)),
       nonce_taken req w payload)).
  { unfold first, handle.
    rewrite (reaches_handler gw req w raw payload policy minimum receipt) by done.
    rewrite serve_proxy_outcome, Hcall, Htext. unfold Res.send, relayed_reply. simpl.
    by rewrite set_each_again. }
  split; [exact Hfirst|]. rewrite Hfirst. simpl.
  by apply (second_attempt gw req w raw payload policy minimum).
Qed.

End ProxyLaws.

Module ProxyExample.
Import Fixture.

Definition weather_policy : RoutePolicy.t :=
  match PolicyBuilder.build (Policies.weather (Gateway.config gateway)) with
  | Ok p => p
  | Throw _ => RegistryFacts.sample_policy
  end.

(** An upstream that sends headers of its own. *)
Definition answering (headers : list (string * string)) (text : string) : Platform :=
  {| decodePayload := decode;
     parseJson := fun text => Ok (Json.JStr text);
     postVerify := fun _ _ _ => Rejected "fetch failed";
     postSettle := fun _ _ _ => Rejected "fetch failed";
     fetchUpstream := fun _ _ _ _ =>
       Ok {| Upstream.status := 200; Upstream.headers := headers; Upstream.text := text |};
     toISOString := fun ms => Js.Z_to_string ms |}.

Definition forging : Platform :=
  answering [("content-type", "application/json"); ("content-length", "42");
             ("connection", "keep-alive"); ("payment-response", "forged");
             ("x-upstream", "1")] "sunny".

Definition plain : Platform := answering [("content-type", "text/plain")] "sunny".

Definition weather_payment : PaymentPayload.t := payment "n-6" None "10".

Lemma weather_fresh (P : Platform) :
  @decodePayload P = decode ->
  @fresh_payment P gateway Scenarios.weather (World.initial 0) (sign weather_payment)
    weather_payment weather_policy 10.
Proof.
  intros Hdecode.
  constructor; try (vm_compute; reflexivity);
    [apply ValidationExample.sign_nonempty | rewrite Hdecode; vm_compute; reflexivity |].
  repeat split; try (vm_compute; reflexivity).
  exists 10. split; [vm_compute; reflexivity | lia].
Qed.

Definition weather_receipt : PaymentReceipt.t := mockReceipt gateway weather_payment 0.

Lemma weather_settled (P : Platform) :
  @settled_with P gateway Scenarios.weather (World.initial 0) weather_payment weather_policy
    weather_receipt.
Proof. left. by split. Qed.

Lemma upstream_hop_by_hop_headers_stay_behind_witness :
  Response.headers
    (serve (@proxyHandler forging gateway) Scenarios.weather Res.fresh (World.initial 0)).1
    !! "content-length"
  = Res.headers Res.fresh !! "content-length".
Proof.
  apply (@upstream_hop_by_hop_headers_stay_behind forging gateway Scenarios.weather Res.fresh
           (World.initial 0) "content-length").
  apply (bool_decide_unpack _). vm_compute. done.
Defined.

Lemma upstream_can_replace_the_receipt_header_witness :
  Response.headers
    (serve (@proxyHandler forging gateway) Scenarios.weather
       (receipted Scenarios.weather (World.initial 0) weather_payment weather_receipt)
       (World.initial 0)).1 !! "payment-response"
  = Some "forged".
Proof.
  destruct (@upstream_can_replace_the_receipt_header forging gateway Scenarios.weather
              (receipted Scenarios.weather (World.initial 0) weather_payment weather_receipt)
              (World.initial 0) _ eq_refl) as [Hheader _].
  etrans; [exact Hheader | reflexivity].
Defined.

Lemma paid_but_upstream_down_witness :
  Response.status
    (@handle platform gateway (@proxyHandler platform gateway) Scenarios.weather
       (World.initial 0)).1 = 502
  /\ Response.status
       (@protected platform gateway Scenarios.weather
          (World.at_time 1000
             (@handle platform gateway (@proxyHandler platform gateway) Scenarios.weather
                (World.initial 0)).2)
          (serve (@proxyHandler platform gateway) Scenarios.weather)).1 = 409.
Proof.
  destruct (@paid_but_upstream_down platform gateway Scenarios.weather (World.initial 0)
              (sign weather_payment) weather_payment weather_policy 10 weather_receipt
              "fetch failed" 1000 (serve (@proxyHandler platform gateway) Scenarios.weather)
              (weather_fresh platform eq_refl) (weather_settled platform) eq_refl
              ltac:(cbn; lia)) as [Hfirst Hsecond].
  split; [by rewrite Hfirst | by rewrite Hsecond].
Defined.

Lemma text_reply_is_not_replayed_witness :
  Response.status
    (@handle plain gateway (@proxyHandler plain gateway) Scenarios.weather (World.initial 0)).1
  = 200
  /\ Response.body
       (@handle plain gateway (@proxyHandler plain gateway) Scenarios.weather
          (World.initial 0)).1
     = TextBody "sunny"
  /\ Response.headers
       (@handle plain gateway (@proxyHandler plain gateway) Scenarios.weather
          (World.initial 0)).1 !! "payment-response"
     = Some (toBase64 (PaymentReceipt.to_json weather_receipt))
  /\ World.idempotencyCache
       (@handle plain gateway (@proxyHandler plain gateway) Scenarios.weather
          (World.initial 0)).2
     = World.idempotencyCache (World.initial 0)
  /\ Response.status
       (@protected plain gateway Scenarios.weather
          (World.at_time 1000
             (@handle plain gateway (@proxyHandler plain gateway) Scenarios.weather
                (World.initial 0)).2)
          (serve (@proxyHandler plain gateway) Scenarios.weather)).1 = 409.
Proof.
  destruct (@text_reply_is_not_replayed plain gateway Scenarios.weather (World.initial 0)
              (sign weather_payment) weather_payment weather_policy 10 weather_receipt
              _ 1000 (serve (@proxyHandler plain gateway) Scenarios.weather)
              (weather_fresh plain eq_refl) (weather_settled plain) eq_refl eq_refl
              ltac:(cbn; lia)) as [Hfirst Hsecond].
  split; [by rewrite Hfirst|]. split; [by rewrite Hfirst|].
  split; [rewrite Hfirst; vm_compute; reflexivity|].
  split; [rewrite Hfirst; vm_compute; reflexivity | by rewrite Hsecond].
Defined.

End ProxyExample.
(** ** The upstream's weather *)

Module UpstreamLaws.
Import UpstreamApi.

Lemma hash_from (acc : Z) (codes : list Z) : foldl Z.add acc codes = acc + hash codes.
Proof.
  unfold hash. revert acc. induction codes as [|c codes IH]; intros acc; simpl; [lia|].
  rewrite (IH (acc + c)), (IH (0 + c)). lia.
Qed.

Lemma hash_nonneg (codes : list Z) : Forall (fun c => 0 <= c) codes -> 0 <= hash codes.
Proof.
  induction 1 as [|c codes Hc _ IH]; [done|].
  unfold hash. simpl. rewrite hash_from. lia.
Qed.

Lemma hash_perm (codes codes' : list Z) : codes ≡ₚ codes' -> hash codes = hash codes'.
Proof.
  induction 1 as [|c l l' _ IH|c d l|l l' l'' _ IH1 _ IH2]; [done|..].
  - unfold hash. simpl. rewrite !hash_from. lia.
  - unfold hash. simpl. rewrite !hash_from. lia.
  - congruence.
Qed.

Lemma charCodes_nonneg (city : string) (codes : list Z) :
  charCodes city = Some codes -> Forall (fun c => 0 <= c) codes.
Proof.
  unfold charCodes. destruct (forallb _ _); [|done]. intros [= <-].
  apply Forall_fmap, Forall_true. intros ch. simpl. lia.
Qed.

(** The reply to a city the route reads. *)
Definition report (city : string) (c f h : Z) (cond : string) : Response.t :=
  {| Response.status := 200;
     Response.headers := ∅;
     Response.body :=
       JsonBody (Json.JObj [("city", Json.JStr city); ("tempC", Json.JNum c);
                            ("tempF", Json.JNum f); ("humidity", Json.JNum h);
                            ("conditions", Json.JStr cond);
                            ("source", Json.JStr "moltgate-upstream")]) |}.

Lemma weather_of_codes (raw : string) (codes : list Z) :
  Js.trim raw <> "" -> charCodes (Js.trim raw) = Some codes ->
  exists cond,
    conditions (hash codes) = Some cond /\ cond ∈ CONDITIONS
    /\ weatherRoute (Some (QStr raw))
       = Some (report (Js.trim raw) (tempC (hash codes)) (toFahrenheit (tempC (hash codes)))
                 (humidity (hash codes)) cond).
Proof.
  intros Hcity Hcodes.
  pose proof (hash_nonneg codes (charCodes_nonneg _ _ Hcodes)) as Hh.
  pose proof (Z.mod_pos_bound (hash codes) 5 ltac:(lia)) as H5.
  assert (Hlt : (Z.to_nat (hash codes mod 5) < length CONDITIONS)%nat) by (simpl; lia).
  apply lookup_lt_is_Some in Hlt as [cond Hcond]. exists cond.
  split; [exact Hcond|]. split; [by eapply list_elem_of_lookup_2|].
  unfold weatherRoute. cbn zeta. unfold Js.truthy.
  destruct (String.eqb_spec (Js.trim raw) ""); [done|]. simpl.
  rewrite Hcodes. unfold conditions in *. by rewrite Hcond.
Qed.

(** X25: The weather route, for a city of ASCII characters. Without a
    [city] parameter, or with one that is blank once trimmed, it
    answers 400; a [city] that is not a string makes [trim] throw and
    the answer is 500. Otherwise it answers 200 with the trimmed city,
    a temperature between -10 and 34 degrees Celsius, its rounding to
    Fahrenheit (within half a degree of the exact value, between 14 and
    93), a humidity between 20 and 79 and one of the five conditions;
    and two cities whose trimmed, lower-cased characters are the same
    up to their order get the same numbers and conditions. *)
Theorem weather_is_in_range (query_city : option QueryValue) :
  match query_city with
  | None => weatherRoute query_city = Some missing_city
  | Some QOther =>
      exists reply, weatherRoute query_city = Some reply /\ Response.status reply = 500
  | Some (QStr raw) =>
      (Js.trim raw = "" -> weatherRoute query_city = Some missing_city)
      /\ (forall codes, Js.trim raw <> "" -> charCodes (Js.trim raw) = Some codes ->
            exists c f h cond,
              weatherRoute query_city = Some (report (Js.trim raw) c f h cond)
              /\ -10 <= c <= 34
              /\ 14 <= f <= 93
              /\ -5 < 18 * c + 320 - 10 * f <= 5
              /\ 20 <= h <= 79
              /\ cond ∈ CONDITIONS
              /\ forall raw' codes',
                   Js.trim raw' <> "" -> charCodes (Js.trim raw') = Some codes' ->
                   codes ≡ₚ codes' ->
                   weatherRoute (Some (QStr raw')) = Some (report (Js.trim raw') c f h cond))
  end.
Proof.
  destruct query_city as [[raw|]|]; [|by eexists|done].
  split.
  - intros Hblank. unfold weatherRoute. cbn zeta. by rewrite Hblank.
  - intros codes Hcity Hcodes.
    destruct (weather_of_codes raw codes Hcity Hcodes) as (cond & Hcond & Hin & Hreply).
    exists (tempC (hash codes)), (toFahrenheit (tempC (hash codes))), (humidity (hash codes)),
      cond.
    pose proof (hash_nonneg codes (charCodes_nonneg _ _ Hcodes)) as Hh.
    pose proof (Z.mod_pos_bound (hash codes) 45 ltac:(lia)) as H45.
    pose proof (Z.mod_pos_bound (hash codes) 60 ltac:(lia)) as H60.
    unfold tempC, humidity, toFahrenheit in *.
    pose proof (Z.div_mod (18 * (-10 + hash codes mod 45) + 325) 10 ltac:(lia)) as Hdiv.
    pose proof (Z.mod_pos_bound (18 * (-10 + hash codes mod 45) + 325) 10 ltac:(lia)) as Hmod.
    split; [exact Hreply|]. split; [lia|]. split; [lia|]. split; [lia|]. split; [lia|].
    split; [exact Hin|].
    intros raw' codes' Hcity' Hcodes' Hperm.
    destruct (weather_of_codes raw' codes' Hcity' Hcodes') as (cond' & Hcond' & _ & Hreply').
    rewrite Hreply'. rewrite <- (hash_perm codes codes' Hperm) in *.
    unfold tempC, humidity, toFahrenheit. congruence.
Qed.

(** Tokyo: 16 degrees; the same for [TOKYO] between blanks and for Kyoto. *)
Lemma weather_is_in_range_witness :
  weatherRoute (Some (QStr "Tokyo")) = Some (report "Tokyo" 16 61 46 "cloudy")
  /\ weatherRoute (Some (QStr "  TOKYO ")) = Some (report "TOKYO" 16 61 46 "cloudy")
  /\ weatherRoute (Some (QStr "Kyoto")) = Some (report "Kyoto" 16 61 46 "cloudy")
  /\ weatherRoute (Some (QStr "   ")) = Some missing_city.
Proof.
  pose proof (weather_is_in_range (Some (QStr "Tokyo"))) as [_ Hcity].
  pose proof (weather_is_in_range (Some (QStr "   "))) as [Hblank _].
  destruct (Hcity [116; 111; 107; 121; 111])
    as (c & f & h & cond & Hreply & _ & _ & _ & _ & _ & Hsame);
    [discriminate | reflexivity |].
  assert (Hvalues : Some (report (Js.trim "Tokyo") c f h cond)
                    = Some (report "Tokyo" 16 61 46 "cloudy"))
    by (rewrite <- Hreply; vm_compute; reflexivity).
  injection Hvalues as -> -> -> ->.
  split; [exact Hreply|]. split; [|split].
  - apply (Hsame "  TOKYO " [116; 111; 107; 121; 111]); [discriminate | reflexivity | done].
  - apply (Hsame "Kyoto" [107; 121; 111; 116; 111]); [discriminate | reflexivity |].
    apply (bool_decide_unpack _). vm_compute. exact I.
  - apply Hblank. reflexivity.
Defined.

End UpstreamLaws.

(** ** Base64 and the trailing slashes *)

Module EncodingLaws.

Lemma encode_length (n : nat) (s : string) :
  (String.length s <= n)%nat ->
  String.length (Base64.encode s) = (4 * ((String.length s + 2) / 3))%nat.
Proof.
  revert s. induction n as [|n IH]; intros s Hlen.
  - destruct s; [done | simpl in Hlen; lia].
  - destruct s as [|a [|b [|c r]]]; [done | done | done |].
    cbn [Base64.encode String.length]. rewrite IH by (simpl in Hlen; lia).
    replace (S (S (S (String.length r))) + 2)%nat with (1 * 3 + (String.length r + 2))%nat
      by lia.
    rewrite Nat.div_add_l by lia. lia.
Qed.

(** X26: [toBase64]: the header is four symbols for every three bytes of the
    JSON text, the last group padded; it reads back as that text; so two
    values get the same header exactly when they have the same JSON
    text. *)
Theorem toBase64_is_faithful (a b : Json.t) :
  String.length (toBase64 a) = (4 * ((String.length (Json.stringify a) + 2) / 3))%nat
  /\ Base64.decode (toBase64 a) = Some (Json.stringify a)
  /\ (toBase64 a = toBase64 b <-> Json.stringify a = Json.stringify b).
Proof.
  split; [by apply (encode_length (String.length (Json.stringify a)))|].
  split; [apply Base64Facts.decode_encode|]. split.
  - intros Heq. pose proof (Base64Facts.decode_encode (Json.stringify a)) as Ha.
    unfold toBase64 in Heq. rewrite Heq, Base64Facts.decode_encode in Ha. congruence.
  - unfold toBase64. by intros ->.
Qed.

Import Discovery DiscoveryFacts.

Lemma slashes_snoc (n : nat) : slashes (S n) = slashes n +:+ "/".
Proof. induction n as [|n IH]; [done|]. simpl in *. by rewrite append_cons, <- IH. Qed.

Lemma strip_no_slash (s : string) : ~ ends_with_slash s -> strip_trailing_slashes s = s.
Proof.
  induction s as [|c s IH]; [done|]. intros Hend. simpl.
  destruct (Js.byte_is c 47 && String.eqb (strip_trailing_slashes s) "") eqn:Hc.
  - apply andb_true_iff in Hc as [Hc%slash_is Hs%String.eqb_eq]. subst c.
    destruct (strip_trailing_slashes_spec s) as [[n Hn] _]. rewrite Hs in Hn.
    change (s = slashes n) in Hn. subst s.
    exfalso. apply Hend. exists (slashes n). change (slashes (S n) = slashes n +:+ "/").
    apply slashes_snoc.
  - rewrite IH; [done|]. intros [r Hr]. apply Hend. exists (String c r).
    by rewrite append_cons, <- Hr.
Qed.

Lemma strip_slash (s : string) :
  strip_trailing_slashes (s +:+ "/") = strip_trailing_slashes s.
Proof.
  induction s as [|c s IH]; [done|]. rewrite append_cons. simpl. by rewrite IH.
Qed.

(** X27: [s.replace(/\/+$/, "")]: the result is the input without the run of
    slashes that ends it; it has no trailing slash; stripping it again
    changes nothing; and any number of slashes after the same text gives
    the same result, so [https://x] and [https://x//] give the same
    resource URLs. *)
Theorem strip_trailing_slashes_laws (s : string) :
  (exists n, s = strip_trailing_slashes s +:+ slashes n)
  /\ ~ ends_with_slash (strip_trailing_slashes s)
  /\ strip_trailing_slashes (strip_trailing_slashes s) = strip_trailing_slashes s
  /\ (forall n, strip_trailing_slashes (strip_trailing_slashes s +:+ slashes n)
                = strip_trailing_slashes s)
  /\ (~ ends_with_slash s -> strip_trailing_slashes s = s).
Proof.
  destruct (strip_trailing_slashes_spec s) as [Hrun Hend].
  split; [exact Hrun|]. split; [exact Hend|].
  split; [by apply strip_no_slash|]. split; [|apply strip_no_slash].
  intros n. induction n as [|n IH].
  - rewrite append_nil_r. by apply strip_no_slash.
  - rewrite slashes_snoc, <- append_assoc, strip_slash. exact IH.
Qed.

End EncodingLaws.

(** ** The buyer's payload and the gateway's validation *)

Section AutopayLaws.
Context `{Platform}.
Import Autopay.







End AutopayLaws.

Module AutopayExample.
Import Fixture Autopay.







End AutopayExample.

(** ** The discovery document of a started gateway *)

Module DiscoveryLaws.
Import Discovery.

(** What an entry of the discovery document and the offer of a 402 say
    about the price of one route. *)
Definition terms_of_entry (e : X402AcceptEntry.t) : list string * Z :=
  ([X402AcceptEntry.scheme e; X402AcceptEntry.payTo e; X402AcceptEntry.maxAmountRequired e;
    X402AcceptEntry.asset e; X402AcceptEntry.description e; X402AcceptEntry.mimeType e],
   X402AcceptEntry.maxTimeoutSeconds e).

Definition terms_of_offer (a : PaymentAccept.t) : list string * Z :=
  ([PaymentAccept.scheme a; PaymentAccept.payTo a; PaymentAccept.maxAmountRequired a;
    PaymentAccept.asset a; PaymentAccept.description a; PaymentAccept.mimeType a],
   PaymentAccept.maxTimeoutSeconds a).

(** X29: What [GET /.well-known/x402] describes is what the gate charges: the
    document of a started gateway has one entry for each of the three
    routes, in registration order, with the scheme, recipient, price,
    asset, description, content type and timeout of the 402 offer of
    that route and the schema given in policies.ts. Its resource is
    under the public base URL without trailing slashes, which is the
    offer's resource when [BASE_URL] is the public base URL and has no
    trailing slash; the network reads [stacks] whatever the offer's
    is. *)
Theorem discovery_agrees_with_the_offers (env : gmap string string) (gw : Gateway.t)
    (req : Request.t) :
  Gateway.boot env = Ok gw ->
  let doc := Index.discovery gw in
  let public := Config.publicBaseUrl (Gateway.config gw) in
  X402Discovery.x402Version doc = 2
  /\ X402Discovery.name doc = "MoltGate Gateway"
  /\ X402Discovery.url doc = public
  /\ X402Discovery.image doc = strip_trailing_slashes public +:+ "/logo.png"
  /\ length (X402Discovery.accepts doc) = 3%nat
  /\ forall i policy, Gateway.engine gw !! i = Some policy ->
       exists e, X402Discovery.accepts doc !! i = Some e
         /\ terms_of_entry e = terms_of_offer (buildAccept gw policy req)
         /\ X402AcceptEntry.resource e = strip_trailing_slashes public +:+ RoutePolicy.path policy
         /\ X402AcceptEntry.network e = "stacks"
         /\ RoutePolicy.outputSchema policy = Some (X402AcceptEntry.outputSchema e)
         /\ (Config.baseUrl (Gateway.config gw) = Some public ->
             ~ DiscoveryFacts.ends_with_slash public ->
             X402AcceptEntry.resource e = PaymentAccept.resource (buildAccept gw policy req)).
Proof.
  intros Hboot doc public.
  destruct (BootLaws.boot_inversion env gw Hboot) as (_ & _ & e & x & s & Hengine & _).
  split; [done|]. split; [done|]. split; [done|]. split; [done|]. split.
  - unfold doc, Index.discovery, generateDiscovery, PolicyEngine.all. simpl.
    by rewrite length_map, Hengine.
  - intros i policy Hi.
    destruct (BootLaws.booted_policy env gw policy Hboot) as ((_ & _ & _ & _ & _ & _ & _ & Hschema) & _);
      [by eapply list_elem_of_lookup_2|].
    exists (policyToAccept policy public). split; [|split; [done|split; [done|split; [done|split]]]].
    + unfold doc, Index.discovery, generateDiscovery, PolicyEngine.all. simpl.
      by rewrite list_lookup_fmap, Hi.
    + unfold policyToAccept. simpl. destruct Hschema as [schema ->]. done.
    + intros Hbase Hend. unfold policyToAccept, buildAccept. simpl. rewrite Hbase.
      by rewrite EncodingLaws.strip_no_slash.
Qed.

Lemma discovery_agrees_with_the_offers_witness :
  (fun e => (X402AcceptEntry.resource e, X402AcceptEntry.maxAmountRequired e))
    <$> X402Discovery.accepts (Index.discovery Fixture.gateway)
  = [("http://localhost:3000/v1/premium/echo", "100000");
     ("http://localhost:3000/proxy/api/weather", "10");
     ("http://localhost:3000/proxy/api/summarize", "50")]
  /\ length (X402Discovery.accepts (Index.discovery Fixture.gateway)) = 3%nat.
Proof.
  destruct (discovery_agrees_with_the_offers ∅ Fixture.gateway OfferExample.unpaid
              Fixture.gateway_booted) as (_ & _ & _ & _ & Hlength & _).
  split; [reflexivity | exact Hlength].
Defined.

End DiscoveryLaws.
